(** * PromptCrafter AI: the background generation worker and its scheduler

    A shallow embedding of the request orchestration core of
    [promptcraft_ai_qt.py]: the [GeminiWorker] class (payload assembly,
    clean-up of the model's answer, the text and vision jobs, [run]) and the
    parts of [PromptCraftAI_Qt] that admit a job and render its results.

    Python [str] values are modelled as lists of characters whose code
    points lie in U+0000..U+00FF; [lower] and the white space removed by
    [strip] follow CPython on that range. *)

From Stdlib Require Import Ascii String.
From Stdlib Require Import List ZArith Lia Bool Arith.
From Stdlib Require Import Numbers.DecimalString.
Import ListNotations.

Set Implicit Arguments.
Open Scope string_scope.
Open Scope list_scope.

(** ** Python strings *)

Definition str := list ascii.

(** A literal is read as the list of its characters. *)
Definition lit (s : string) : str := list_ascii_of_string s.
Coercion list_ascii_of_string : string >-> list.

(** The line feed of the source's ["\n"]. *)
Definition nl : str := [ascii_of_nat 10].

Module Py.

(** [c.isspace()] for a character below U+0100. *)
Definition isspace (c : ascii) : bool :=
  let n := nat_of_ascii c in
  (((9 <=? n) && (n <=? 13)) || ((28 <=? n) && (n <=? 32))
   || (n =? 133) || (n =? 160))%nat.

(** [c.lower()] for a character below U+0100. *)
Definition lower_char (c : ascii) : ascii :=
  let n := nat_of_ascii c in
  if (((65 <=? n) && (n <=? 90))
      || ((192 <=? n) && (n <=? 222) && negb (n =? 215)))%nat
  then ascii_of_nat (n + 32) else c.

Definition lower (s : str) : str := map lower_char s.

Fixpoint dropwhile (f : ascii -> bool) (s : str) : str :=
  match s with
  | [] => []
  | c :: s' => if f c then dropwhile f s' else s
  end.

Definition lstrip (s : str) : str := dropwhile isspace s.
Definition rstrip (s : str) : str := rev (dropwhile isspace (rev s)).
Definition strip (s : str) : str := rstrip (lstrip s).

Definition eqb (a b : str) : bool :=
  if list_eq_dec ascii_dec a b then true else false.

(** [s.startswith(p)] *)
Fixpoint startswith (s p : str) {struct p} : bool :=
  match p, s with
  | [], _ => true
  | _ :: _, [] => false
  | a :: p', b :: s' => Ascii.eqb a b && startswith s' p'
  end.

(** [s.endswith(p)] *)
Definition endswith (s p : str) : bool := startswith (rev s) (rev p).

(** [s[n:]] for [n >= 0] *)
Definition slice_from (n : nat) (s : str) : str := skipn n s.

(** [s[:-n]] for [n >= 0]; note that [s[:-0]] is [s[:0]], the empty
    string. *)
Definition slice_to_neg (n : nat) (s : str) : str :=
  firstn (length s - n) (match n with O => [] | _ => s end).

(** [p in s] *)
Fixpoint contains (s p : str) : bool :=
  startswith s p ||
  match s with
  | [] => false
  | _ :: s' => contains s' p
  end.

(** [str(n)] for a natural number *)
Definition of_nat (n : nat) : str :=
  lit (NilEmpty.string_of_uint (Nat.to_uint n)).

Definition of_Z (z : Z) : str :=
  lit (NilEmpty.string_of_int (Z.to_int z)).

(** A string is clean at the start when it does not begin with white
    space, and clean at the end when it does not end with white space. *)
Definition starts_clean (s : str) : bool :=
  match s with
  | [] => true
  | c :: _ => negb (isspace c)
  end.

Definition ends_clean (s : str) : bool := starts_clean (rev s).

End Py.


(** ** Globals of the module and the remote models *)

(** What one remote call gives: the text of the response, or an exception
    (raised by [generate_content] or by reading [response.text]) with its
    message [str(e)]. *)
Inductive response :=
| Returns (text : str)
| Raises (e : str).

Inductive PIL_Image := pil (handle : nat).

(** A text model answers the call made for a variation index with a payload;
    a vision model answers an instruction and an image. *)
Definition TextModel := nat -> str -> response.
Definition VisionModel := str -> PIL_Image -> response.

Record Globals := {
  GEMINI_API_KEY_VALID : bool;
  text_model : option TextModel;
  vision_model : option VisionModel;
  TEXT_MODEL_NAME_TO_TRY : str;
  VISION_MODEL_NAME_TO_TRY : str;
  num_variations_for_worker : Z
}.

Definition set_num_variations_for_worker (g : Globals) (n : Z) : Globals :=
  {| GEMINI_API_KEY_VALID := GEMINI_API_KEY_VALID g;
     text_model := text_model g;
     vision_model := vision_model g;
     TEXT_MODEL_NAME_TO_TRY := TEXT_MODEL_NAME_TO_TRY g;
     VISION_MODEL_NAME_TO_TRY := VISION_MODEL_NAME_TO_TRY g;
     num_variations_for_worker := n |}.

(** ** The worker *)

Record GeminiWorker := {
  query : str;
  context : str;
  num_variations : Z;
  operation_type : str;
  pil_image : option PIL_Image
}.

(** [self.quit_requested] is written by the user-interface thread while the
    worker runs, so what the worker reads depends on where it reads it.  Each
    of these places is reached at most once in a run. *)
Inductive checkpoint :=
| at_run                       (* [run], before dispatching *)
| at_variation (i : nat)       (* [run_text_generation], top of iteration i *)
| at_core (variation_idx : nat)  (* entry of [_generate_single_prompt_core] *)
| at_vision_entry              (* entry of [run_vision_generation] *)
| at_vision_call.              (* just before the vision call *)

Definition QuitFlag := checkpoint -> bool.

(** What a run of the worker does that others can see: the three Qt signals
    and the calls to the remote models.  (Printing to the console is left
    out.) *)
Inductive event :=
| result_ready (results : list str)
| error_occurred (msg : str)
| finished
| text_generate_content (payload : str)
| vision_generate_content (instruction : str) (image : PIL_Image).

(** A computation of the worker: its value and the events it caused, in
    order. *)
Definition W (A : Type) : Type := (A * list event)%type.

Definition ret {A} (a : A) : W A := (a, []).
Definition bind {A B} (m : W A) (k : A -> W B) : W B :=
  let (a, t1) := m in let (b, t2) := k a in (b, t1 ++ t2).
Definition emit (e : event) : W unit := (tt, [e]).
Definition trace {A} (m : W A) : list event := snd m.
Definition value {A} (m : W A) : A := fst m.

Notation "x <- m ;; k" := (bind m (fun x => k))
  (at level 61, m at next level, right associativity).
Notation "m ;; k" := (bind m (fun _ => k))
  (at level 61, right associativity).

(** A [try] block either completes with a value or raises. *)
Inductive outcome (A : Type) :=
| Done (a : A)
| Exc (e : str).
Arguments Done {A} a.
Arguments Exc {A} e.

Definition unwanted_starts : list str := map lit [
  "Okay, here's the prompt:"; "Okay, here is the prompt:"; "Here's the prompt:"; "Here is the prompt:";
  "Sure, here's a prompt:"; "Sure, here is a prompt:"; "Here's a prompt for you:"; "Here is a prompt for you:";
  "Prompt:"; "Generated Prompt:"; "Okay, here's a variation:"; "Here's another variation:" ].

Definition unwanted_ends : list str := map lit [
  "Let me know if you'd like another one!"; "Hope this helps!"; "Is there anything else I can help with?" ].

Definition vision_unwanted_starts : list str := map lit [
  "Prompt:"; "Here's a prompt based on the image:"; "Image Description Prompt:"; "Video Prompt Idea:" ].

(** [for phrase in starts: if text.lower().startswith(phrase.lower()):
    text = text[len(phrase):].lstrip(); break] *)
Fixpoint strip_start (starts : list str) (generated_text : str) : str :=
  match starts with
  | [] => generated_text
  | phrase :: rest =>
      if Py.startswith (Py.lower generated_text) (Py.lower phrase)
      then Py.lstrip (Py.slice_from (length phrase) generated_text)
      else strip_start rest generated_text
  end.

(** [for phrase in ends: if text.lower().endswith(phrase.lower()):
    text = text[:-len(phrase)].rstrip(); break] *)
Fixpoint strip_end (ends : list str) (generated_text : str) : str :=
  match ends with
  | [] => generated_text
  | phrase :: rest =>
      if Py.endswith (Py.lower generated_text) (Py.lower phrase)
      then Py.rstrip (Py.slice_to_neg (length phrase) generated_text)
      else strip_end rest generated_text
  end.

(** The clean-up of a text answer, from [response.text.strip()] to the
    returned [generated_text.strip()]. *)
Definition sanitize_text (raw : str) : str :=
  let generated_text := Py.strip raw in
  let generated_text := strip_start unwanted_starts generated_text in
  let generated_text := strip_end unwanted_ends generated_text in
  Py.strip generated_text.

(** The clean-up of a vision answer: [response.text.strip()] and the prefix
    loop. *)
Definition sanitize_vision (raw : str) : str :=
  let generated_text := Py.strip raw in
  strip_start vision_unwanted_starts generated_text.

Inductive operation_kind := TEXT | VISION.

Definition sanitize (kind : operation_kind) (raw : str) : str :=
  match kind with
  | TEXT => sanitize_text raw
  | VISION => sanitize_vision raw
  end.

Definition known_starts (kind : operation_kind) : list str :=
  match kind with TEXT => unwanted_starts | VISION => vision_unwanted_starts end.

Definition known_ends (kind : operation_kind) : list str :=
  match kind with TEXT => unwanted_ends | VISION => [] end.

(** *** [_generate_single_prompt_core] *)

Definition base_system_instruction : str :=
  "You are PromptCraft AI, an expert prompt engineering assistant. "
  ++ "Your SOLE task is to generate a highly detailed, evocative, and comprehensive prompt suitable for an advanced AI image, video, or text generator, based on the user's request. "
  ++ "The prompt should be rich in descriptive adjectives, specific nouns, and clearly articulate desired aesthetics, mood, and composition. "
  ++ "Consider elements like subject details, environment, artistic style, lighting, camera view, color palette, and emotional tone. "
  ++ "DO NOT include any conversational preambles, explanations, or any text other than the prompt itself. "
  ++ "The output MUST be ONLY the generated prompt. "
  ++ "If asked for variations, ensure each variation is distinct, creative, and also ONLY the prompt, maintaining a high level of detail.".

Definition system_instruction (context_instruction : str) : str :=
  match context_instruction with
  | [] => base_system_instruction
  | _ :: _ =>
      base_system_instruction ++ nl
      ++ "Context for this specific request: The user is trying to generate a '"
      ++ context_instruction
      ++ "'. Emphasize detail and richness for this type of prompt."
  end.

Definition variation_prompts : list str := map lit [
  "Provide another distinctly detailed variation based on the core request.";
  "Offer a slightly different creative and highly descriptive take on the same core idea, delivering only the prompt.";
  "Generate an alternative version of the prompt, exploring a different angle with rich detail, outputting only the prompt.";
  "Give one more unique and detailed variant for this prompt idea, as only the prompt itself." ].

Definition variation_modifier (g : Globals) (variation_idx : nat) : str :=
  if (1 <? num_variations_for_worker g)%Z && (0 <? variation_idx)%nat
  then nl ++ nl ++ "Instruction for this specific variation (out of several): "
       ++ nth (variation_idx mod length variation_prompts) variation_prompts []
       ++ " Ensure maximum detail and output only the prompt."
  else [].

Definition gemini_prompt_payload (g : Globals)
    (user_query context_instruction : str) (variation_idx : nat) : str :=
  system_instruction context_instruction
  ++ nl ++ nl ++ "User's Request Details (aim for high detail):" ++ nl
  ++ user_query ++ variation_modifier g variation_idx.

Definition cancelled_by_user : str := "Operation cancelled by user.".

(** The body of the [try] block. *)
Definition generate_single_prompt_try (g : Globals)
    (user_query context_instruction : str) (variation_idx : nat) : W (outcome str) :=
  let payload := gemini_prompt_payload g user_query context_instruction variation_idx in
  match text_model g with
  | None =>
      ret (Exc ("Text model ('" ++ TEXT_MODEL_NAME_TO_TRY g
                ++ "') is not initialized. Cannot generate text-based prompt."))
  | Some model =>
      emit (text_generate_content payload) ;;
      match model variation_idx payload with
      | Raises e => ret (Exc e)
      | Returns text => ret (Done (sanitize_text text))
      end
  end.

Definition _generate_single_prompt_core (g : Globals) (quit_requested : QuitFlag)
    (user_query context_instruction : str) (variation_idx : nat) : W str :=
  if quit_requested (at_core variation_idx) then ret cancelled_by_user
  else
    r <- generate_single_prompt_try g user_query context_instruction variation_idx ;;
    match r with
    | Done generated_text => ret generated_text
    | Exc e =>
        ret ("API Error (Text Gen - Variation " ++ Py.of_nat (variation_idx + 1)
             ++ "): " ++ e)
    end.

(** *** [run_text_generation] *)

(** The [for i in range(...)] loop, over the indices still to run, with the
    results gathered so far. *)
Fixpoint text_loop (g : Globals) (quit_requested : QuitFlag) (self : GeminiWorker)
    (indices : list nat) (all_results : list str) : W (list str) :=
  match indices with
  | [] => ret all_results
  | i :: rest =>
      if quit_requested (at_variation i)
      then ret (all_results ++ [("Batch operation cancelled by user." : str)])
      else
        result <- _generate_single_prompt_core g quit_requested
                    (query self) (context self) i ;;
        text_loop g quit_requested self rest (all_results ++ [result])
  end.

Definition run_text_generation (g : Globals) (quit_requested : QuitFlag)
    (self : GeminiWorker) : W unit :=
  all_results <- text_loop g quit_requested self
                   (seq 0 (Z.to_nat (num_variations_for_worker g))) [] ;;
  emit (result_ready all_results) ;;
  emit finished.

(** *** [run_vision_generation] *)

Definition video_prompt_instruction : str :=
  "You are PromptCraft AI. Analyze the provided static image with extreme detail. "
  ++ "Your task is to formulate ONLY a comprehensive and highly descriptive text prompt suitable for an AI VIDEO generator. "
  ++ "Infer a potential short narrative or sequence of events from the image. Describe potential character actions, motivations, and interactions. "
  ++ "Suggest dynamic camera movements (e.g., slow pan revealing a secret, rapid dolly zoom for tension, orbiting shot), "
  ++ "and consider scene transitions that could bring this static image to life as a compelling short video clip. "
  ++ "Elaborate on the visual style, lighting evolution, and atmospheric shifts that should occur. "
  ++ "DO NOT include any conversational text, preamble, or explanation. Output ONLY the video prompt string, rich with evocative language.".

Definition image_prompt_instruction : str :=
  "You are PromptCraft AI. Analyze the provided image with meticulous detail. "
  ++ "Your task is to formulate ONLY a comprehensive and highly descriptive text prompt suitable for an AI IMAGE generator. "
  ++ "Describe its primary subject(s) with specific attributes, the background elements in detail, the overall composition and framing, "
  ++ "the precise artistic style (e.g., hyperrealistic photograph, detailed oil painting, intricate watercolor, polished 3D render), "
  ++ "the nuances of lighting conditions (e.g., soft morning light with long shadows, dramatic chiaroscuro, vibrant neon reflections), the full color palette and its emotional impact, "
  ++ "and any significant textures, patterns, or emotional tone conveyed. "
  ++ "DO NOT include any conversational text, preamble, or explanation. Output ONLY the image prompt string, packed with descriptive keywords.".

Definition prompt_instruction_for_vision (target_prompt_type : str) : str :=
  if Py.eqb target_prompt_type "video"
  then video_prompt_instruction else image_prompt_instruction.

(** The [try] block of [run_vision_generation] with its [except] clause; the
    [finally] clause is added by the caller.  The early [return] under the
    second cancellation check leaves through [finally] like every other exit
    of the block. *)
Definition vision_try (quit_requested : QuitFlag) (self : GeminiWorker)
    (model : VisionModel) (image : PIL_Image) : W unit :=
  let target_prompt_type := context self in
  let instruction := prompt_instruction_for_vision target_prompt_type in
  if quit_requested at_vision_call
  then emit (error_occurred cancelled_by_user) ;; emit finished
  else
    emit (vision_generate_content instruction image) ;;
    match model instruction image with
    | Returns text =>
        let generated_text := sanitize_vision text in
        emit (result_ready [
          match generated_text with
          | _ :: _ => generated_text
          | [] => "Gemini Vision returned an empty description for the "
                  ++ target_prompt_type ++ " prompt."
          end ])
    | Raises e =>
        emit (error_occurred ("Vision API Error (" ++ target_prompt_type ++ "): " ++ e))
    end.

Definition run_vision_generation (g : Globals) (quit_requested : QuitFlag)
    (self : GeminiWorker) : W unit :=
  if quit_requested at_vision_entry
  then emit (error_occurred cancelled_by_user) ;; emit finished
  else
    match vision_model g with
    | None =>
        emit (error_occurred ("Vision model ('" ++ VISION_MODEL_NAME_TO_TRY g
                              ++ "') is not initialized.")) ;;
        emit finished
    | Some model =>
        match pil_image self with
        | None =>
            emit (error_occurred "No image provided to vision worker.") ;;
            emit finished
        | Some image =>
            vision_try quit_requested self model image ;;
            emit finished
        end
    end.

(** *** [run] *)

Definition run (g : Globals) (quit_requested : QuitFlag) (self : GeminiWorker) : W unit :=
  if negb (GEMINI_API_KEY_VALID g)
  then emit (error_occurred "Gemini API key is not configured or invalid.") ;;
       emit finished
  else if quit_requested at_run then emit finished
  else if Py.eqb (operation_type self) "text" then run_text_generation g quit_requested self
  else if Py.eqb (operation_type self) "vision" then run_vision_generation g quit_requested self
  else emit (error_occurred ("Unknown worker operation type: " ++ operation_type self)) ;;
       emit finished.

(** ** The main window: admitting a job and rendering its results *)

Record QThread := { isRunning : bool }.

Record PromptCraftAI_Qt := {
  gemini_thread : option QThread;
  gemini_worker : option GeminiWorker;
  output_text_edit : str;
  (** [None] while the attribute has not been set. *)
  is_new_batch_start : option bool
}.

(** What the window does besides changing its fields.  (The timers that
    reset the status bar later are left out.) *)
Inductive ui_event :=
| information_box (title text : str)
| warning_box (title text : str)
| set_ui_for_generation (is_generating : bool) (message : str)
| status_message (message : str)
| thread_started (worker : GeminiWorker).

Definition clear_output_for_new_job (self : PromptCraftAI_Qt)
    (num_vars : Z) (clear_previous_output : bool) : PromptCraftAI_Qt :=
  if clear_previous_output
     && ((num_vars =? 1)%Z
         || match is_new_batch_start self with Some b => b | None => false end)
  then {| gemini_thread := gemini_thread self;
          gemini_worker := gemini_worker self;
          output_text_edit := [];
          is_new_batch_start :=
            match is_new_batch_start self with Some _ => Some false | None => None end |}
  else self.

(** [_trigger_gemini_operation] from the point where the job is admitted. *)
Definition start_job (g : Globals) (self : PromptCraftAI_Qt)
    (query context : str) (num_vars : Z) (op_type : str)
    (pil_image : option PIL_Image) (clear_previous_output : bool)
  : Globals * PromptCraftAI_Qt * list ui_event :=
  let self := clear_output_for_new_job self num_vars clear_previous_output in
  let worker := {| query := query; context := context; num_variations := num_vars;
                   operation_type := op_type; pil_image := pil_image |} in
  (g,
   {| gemini_thread := Some {| isRunning := true |};
      gemini_worker := Some worker;
      output_text_edit := output_text_edit self;
      is_new_batch_start := is_new_batch_start self |},
   [ set_ui_for_generation true
       ("Starting " ++ context ++ " generation (" ++ Py.of_Z num_vars ++ " var)...");
     thread_started worker ]).

Definition _trigger_gemini_operation (g : Globals) (self : PromptCraftAI_Qt)
    (query context : str) (num_vars : Z) (op_type : str)
    (pil_image : option PIL_Image) (clear_previous_output : bool)
  : Globals * PromptCraftAI_Qt * list ui_event :=
  let g := set_num_variations_for_worker g num_vars in
  match gemini_thread self with
  | Some thread =>
      if isRunning thread
      then (g, self, [information_box "Busy" "Generation in progress. Please wait."])
      else
        start_job g
          {| gemini_thread := None; gemini_worker := None;
             output_text_edit := output_text_edit self;
             is_new_batch_start := is_new_batch_start self |}
          query context num_vars op_type pil_image clear_previous_output
  | None =>
      start_job g self query context num_vars op_type pil_image clear_previous_output
  end.


(** [sep.join(parts)] *)
Fixpoint join (sep : str) (parts : list str) : str :=
  match parts with
  | [] => []
  | [p] => p
  | p :: rest => p ++ sep ++ join sep rest
  end.

(** The test both branches of [_handle_gemini_results] make on an entry. *)
Definition looks_failed (text : str) : bool :=
  Py.contains text "API Error" || Py.contains text "Operation cancelled".

(** [for i, text in enumerate(results)], from index [i] on. *)
Fixpoint output_parts (i : nat) (results : list str) : list str :=
  match results with
  | [] => []
  | text :: rest =>
      (if looks_failed text
       then "--- Variation " ++ Py.of_nat (i + 1) ++ " FAILED ---" ++ nl ++ text ++ nl
       else "--- Prompt Variation " ++ Py.of_nat (i + 1) ++ " ---" ++ nl ++ text ++ nl)
      :: output_parts (i + 1) rest
  end.

Definition has_errors_in_batch (results : list str) : bool :=
  existsb looks_failed results.

(** What [toPlainText()] gives back of a text that was put into a
    [QTextEdit] with [setPlainText]: the document keeps one line break for a
    carriage return, alone or followed by a line feed, and gives a no-break
    space back as a space. *)
Fixpoint toPlainText (text : str) : str :=
  match text with
  | [] => []
  | c :: rest =>
      if (nat_of_ascii c =? 13)%nat
      then match rest with
           | c' :: _ =>
               if (nat_of_ascii c' =? 10)%nat then toPlainText rest
               else ascii_of_nat 10 :: toPlainText rest
           | [] => [ascii_of_nat 10]
           end
      else if (nat_of_ascii c =? 160)%nat then ascii_of_nat 32 :: toPlainText rest
      else c :: toPlainText rest
  end.

(** [output_text_edit.setPlainText(text)]; the field [output_text_edit]
    holds what [output_text_edit.toPlainText()] returns. *)
Definition setPlainText (self : PromptCraftAI_Qt) (text : str) : PromptCraftAI_Qt :=
  {| gemini_thread := gemini_thread self;
     gemini_worker := gemini_worker self;
     output_text_edit := toPlainText text;
     is_new_batch_start := is_new_batch_start self |}.

Definition _handle_gemini_results (g : Globals) (self : PromptCraftAI_Qt)
    (results : list str) : PromptCraftAI_Qt * list ui_event :=
  match results with
  | [] =>
      (setPlainText self "Worker returned no results.",
       [status_message "Generation finished: No results."])
  | result_text :: _ =>
      if (1 <? num_variations_for_worker g)%Z
      then
        let final_output := Py.strip (join (nl ++ nl) (output_parts 0 results)) in
        (setPlainText self final_output,
         if has_errors_in_batch results
         then [ warning_box "Batch Generation Issues"
                  "One or more prompt variations may have failed or were cancelled.";
                status_message "Batch complete with issues." ]
         else [ status_message ("Batch of " ++ Py.of_Z (num_variations_for_worker g)
                                ++ " prompts generated successfully.") ])
      else
        if looks_failed result_text
        then (setPlainText self result_text,
              [status_message "Generation failed or cancelled. Check output."])
        else (setPlainText self result_text,
              [status_message "Prompt generation successful."])
  end.

(** ** Properties of runs and of texts *)

(** The Qt signals among the events of a run, and the two signals that
    deliver an outcome. *)
Definition is_signal (e : event) : bool :=
  match e with
  | result_ready _ | error_occurred _ | finished => true
  | _ => false
  end.

Definition is_terminal (e : event) : bool :=
  match e with
  | result_ready _ | error_occurred _ => true
  | _ => false
  end.

Definition signals (tr : list event) : list event := filter is_signal tr.

(** One outcome delivered once, then [finished] once. *)
Definition one_terminal_then_finished (tr : list event) : bool :=
  match signals tr with
  | [t; finished] => is_terminal t
  | _ => false
  end.

(** The list a run hands to [result_ready], if it does. *)
Fixpoint emitted_results (tr : list event) : option (list str) :=
  match tr with
  | [] => None
  | result_ready results :: _ => Some results
  | _ :: tr' => emitted_results tr'
  end.

Definition batch_cancelled : str := "Batch operation cancelled by user.".

(** The entry recorded for variation [i] when its call raises [e]. *)
Definition api_error_entry (i : nat) (e : str) : str :=
  "API Error (Text Gen - Variation " ++ Py.of_nat (i + 1) ++ "): " ++ e.

Definition text_model_not_initialized (g : Globals) : str :=
  "Text model ('" ++ TEXT_MODEL_NAME_TO_TRY g
  ++ "') is not initialized. Cannot generate text-based prompt.".

Definition variation_count (g : Globals) : nat :=
  Z.to_nat (num_variations_for_worker g).

(** [run] was cancelled before it dispatched. *)
Definition cancelled_before_start (g : Globals) (quit_requested : QuitFlag) : bool :=
  GEMINI_API_KEY_VALID g && quit_requested at_run.

(** The run is a vision job that gets as far as the cancellation check just
    before the remote call, and is cancelled there. *)
Definition vision_cancelled_before_call (g : Globals) (quit_requested : QuitFlag)
    (self : GeminiWorker) : bool :=
  GEMINI_API_KEY_VALID g && negb (quit_requested at_run)
  && negb (Py.eqb (operation_type self) "text")
  && Py.eqb (operation_type self) "vision"
  && negb (quit_requested at_vision_entry)
  && match vision_model g with Some _ => true | None => false end
  && match pil_image self with Some _ => true | None => false end
  && quit_requested at_vision_call.

(** The list a text job gathers. *)
Definition text_results (g : Globals) (quit_requested : QuitFlag)
    (self : GeminiWorker) : list str :=
  value (text_loop g quit_requested self (seq 0 (variation_count g)) []).

(** "API Error" or "Operation cancelled" occurs in the text, as written. *)
Definition mentions_failure (text : str) : Prop :=
  (exists a b, text = a ++ "API Error" ++ b)
  \/ (exists a b, text = a ++ "Operation cancelled" ++ b).

(** The section of the output for the entry of index [i], under the
    heading of a failed variation or of a prompt. *)
Definition failed_section (i : nat) (text : str) : str :=
  "--- Variation " ++ Py.of_nat (i + 1) ++ " FAILED ---" ++ nl ++ text ++ nl.

Definition prompt_section (i : nat) (text : str) : str :=
  "--- Prompt Variation " ++ Py.of_nat (i + 1) ++ " ---" ++ nl ++ text ++ nl.

(** No phrase of the list begins (ends) the text, case ignored. *)
Definition no_start (phrases : list str) (text : str) : Prop :=
  forall q, In q phrases -> Py.startswith (Py.lower text) (Py.lower q) = false.

Definition no_end (phrases : list str) (text : str) : Prop :=
  forall q, In q phrases -> Py.endswith (Py.lower text) (Py.lower q) = false.

(** The text holds none of the known phrases of its kind, case ignored. *)
Definition no_boilerplate (kind : operation_kind) (raw : str) : Prop :=
  forall p, In p (known_starts kind ++ known_ends kind) ->
            Py.contains (Py.lower raw) (Py.lower p) = false.

(** ** Submissions *)

Definition busy_box : ui_event :=
  information_box "Busy" "Generation in progress. Please wait.".




(** ** Sample globals, workers and cancellations *)

Definition demo_text_model : TextModel :=
  fun i _ =>
    if ((i =? 2) || (i =? 4))%nat then Raises "quota exceeded"
    else Returns ("Prompt: take " ++ Py.of_nat i).

Definition demo_vision_model : VisionModel :=
  fun _ _ => Returns "Prompt: a red fox in the snow".

Definition demo_globals (n : Z) : Globals :=
  {| GEMINI_API_KEY_VALID := true;
     text_model := Some demo_text_model;
     vision_model := Some demo_vision_model;
     TEXT_MODEL_NAME_TO_TRY := "gemini-text";
     VISION_MODEL_NAME_TO_TRY := "gemini-vision";
     num_variations_for_worker := n |}.

(** The text model failed to initialize at start, the vision model did not. *)
Definition vision_only_globals (n : Z) : Globals :=
  {| GEMINI_API_KEY_VALID := true;
     text_model := None;
     vision_model := Some demo_vision_model;
     TEXT_MODEL_NAME_TO_TRY := "gemini-text";
     VISION_MODEL_NAME_TO_TRY := "gemini-vision";
     num_variations_for_worker := n |}.

Definition text_only_globals (n : Z) : Globals :=
  {| GEMINI_API_KEY_VALID := true;
     text_model := Some demo_text_model;
     vision_model := None;
     TEXT_MODEL_NAME_TO_TRY := "gemini-text";
     VISION_MODEL_NAME_TO_TRY := "gemini-vision";
     num_variations_for_worker := n |}.

Definition text_worker (n : Z) : GeminiWorker :=
  {| query := "Generate from core idea: a red fox"; context := "Basic Prompt";
     num_variations := n; operation_type := "text"; pil_image := None |}.

Definition vision_worker (image : option PIL_Image) : GeminiWorker :=
  {| query := "Generate a image prompt from the provided image."; context := "image";
     num_variations := 1; operation_type := "vision"; pil_image := image |}.

Definition never_cancelled : QuitFlag := fun _ => false.
Definition cancelled_from_the_start : QuitFlag := fun _ => true.

(** Cancellation first seen at one place of the run. *)
Definition cancelled_at (c : checkpoint) : QuitFlag :=
  fun c' =>
    match c, c' with
    | at_run, at_run => true
    | at_variation i, at_variation j => (i =? j)%nat
    | at_core i, at_core j => (i =? j)%nat
    | at_vision_entry, at_vision_entry => true
    | at_vision_call, at_vision_call => true
    | _, _ => false
    end.

(** ** Proof steps *)

Ltac one_outcome k :=
  eexists [_], k;
  split; [reflexivity|];
  split; [eexists; split; [|reflexivity]; reflexivity|];
  intros; solve [reflexivity | discriminate].

Ltac each_phrase H :=
  repeat (destruct H as [<- | H]; [vm_compute; reflexivity|]); destruct H.

(** * The rest of the program *)

(** What the window does besides what [ui_event] has: the other dialogs, the
    clipboard and the library file. *)
Inductive gui_event :=
| ui (e : ui_event)
| critical_box (title text : str)
| clipboard_set (text : str).

(** ** Start of the module: the key and the two models *)

Module Startup.

(** What a step that may raise does: it passes, or raises a [ValueError]
    with its message, or another exception with its message and the text
    [traceback.format_exc()] gives for it. *)
Inductive step :=
| Passed
| RaisesValueError (e : str)
| RaisesOther (e : str) (traceback : str).

(** [genai.GenerativeModel(name)] gives a model or raises. *)
Inductive init_result (M : Type) :=
| Initialized (model : M)
| InitFailed (e : str).
Arguments Initialized {M} model.
Arguments InitFailed {M} e.

(** What the module finds when it is loaded. *)
Record Environment := {
  GEMINI_TEXT_MODEL_OVERRIDE : option str;
  GEMINI_VISION_MODEL_OVERRIDE : option str;
  load_dotenv : step;
  GEMINI_API_KEY : option str;
  (** [genai.configure] and the loop over [genai.list_models()] *)
  configure_and_list_models : step;
  text_init : init_result TextModel;
  vision_init : init_result VisionModel
}.

Definition default_model_name : str := "gemini-2.0-flash-thinking-exp-1219".

(** [os.environ.get(key, default)] *)
Definition environ_get (value : option str) (default : str) : str :=
  match value with
  | Some v => v
  | None => default
  end.

Definition default_ERROR_MSG : str := "Gemini AI not initialized.".

(** The globals as the module's first lines set them, before the [try]. *)
Definition initial_globals (env : Environment) : Globals :=
  {| GEMINI_API_KEY_VALID := false;
     text_model := None;
     vision_model := None;
     TEXT_MODEL_NAME_TO_TRY := environ_get (GEMINI_TEXT_MODEL_OVERRIDE env) default_model_name;
     VISION_MODEL_NAME_TO_TRY := environ_get (GEMINI_VISION_MODEL_OVERRIDE env) default_model_name;
     num_variations_for_worker := 1 |}.

(** The two [except] clauses of the outer [try]; the models are still unset
    when a step before them raises. *)
Definition configuration_failed (env : Environment) (raised : step) : Globals * str :=
  match raised with
  | Passed => (initial_globals env, default_ERROR_MSG)
  | RaisesValueError e => (initial_globals env, e)
  | RaisesOther e traceback =>
      (initial_globals env,
       "Critical error during Gemini configuration: " ++ e ++ nl ++ traceback)
  end.

Definition text_init_error (env : Environment) (e : str) : str :=
  "Failed to initialize text model '"
  ++ environ_get (GEMINI_TEXT_MODEL_OVERRIDE env) default_model_name ++ "': " ++ e.

Definition vision_init_error (env : Environment) (e : str) : str :=
  "Failed to initialize vision model '"
  ++ environ_get (GEMINI_VISION_MODEL_OVERRIDE env) default_model_name ++ "': " ++ e.

(** The part of the [try] block after the list of models has been printed:
    the two models and the verdict. *)
Definition initialize_models (env : Environment) : Globals * str :=
  let text_model :=
    match text_init env with Initialized m => Some m | InitFailed _ => None end in
  let vision_model :=
    match vision_init env with Initialized m => Some m | InitFailed _ => None end in
  let model_initialization_errors :=
    match text_init env with
    | Initialized _ => []
    | InitFailed e => [text_init_error env e]
    end
    ++ match vision_init env with
       | Initialized _ => []
       | InitFailed e => [vision_init_error env e]
       end in
  let globals (valid : bool) :=
    {| GEMINI_API_KEY_VALID := valid;
       text_model := text_model;
       vision_model := vision_model;
       TEXT_MODEL_NAME_TO_TRY :=
         environ_get (GEMINI_TEXT_MODEL_OVERRIDE env) default_model_name;
       VISION_MODEL_NAME_TO_TRY :=
         environ_get (GEMINI_VISION_MODEL_OVERRIDE env) default_model_name;
       num_variations_for_worker := 1 |} in
  match text_model, vision_model with
  | None, None =>
      (globals false,
       if negb (Py.contains default_ERROR_MSG "GEMINI_API_KEY not found")
       then "Gemini API key configured, but failed to initialize any usable models. Check model ID(s) and API access."
            ++ nl ++ "Details:" ++ nl ++ join nl model_initialization_errors
       else default_ERROR_MSG)
  | _, _ =>
      (globals true,
       match model_initialization_errors with
       | [] => []
       | _ :: _ =>
           "Gemini API Key configured. However, there were issues initializing specific models:"
           ++ nl ++ join nl model_initialization_errors
       end)
  end.

(** The configuration block at the top of the module: the globals it leaves
    and [ERROR_MSG]. *)
Definition configure (env : Environment) : Globals * str :=
  match load_dotenv env with
  | Passed =>
      match GEMINI_API_KEY env with
      | None | Some [] =>
          configuration_failed env
            (RaisesValueError "GEMINI_API_KEY not found in environment or .env file.")
      | Some (_ :: _) =>
          match configure_and_list_models env with
          | Passed => initialize_models env
          | raised => configuration_failed env raised
          end
      end
  | raised => configuration_failed env raised
  end.

(** The dialogs at the end of [PromptCraftAI_Qt.__init__]. *)
Definition startup_dialogs (g : Globals) (ERROR_MSG : str) : list gui_event :=
  if negb (GEMINI_API_KEY_VALID g) && Py.contains ERROR_MSG "GEMINI_API_KEY not found"
  then [ critical_box "API Key Error"
           (ERROR_MSG ++ nl
            ++ "Please set the GEMINI_API_KEY in a .env file or your system environment and restart.") ]
  else if negb (GEMINI_API_KEY_VALID g)
  then [ critical_box "API Configuration Error"
           ("Failed to initialize Gemini AI models fully: " ++ ERROR_MSG ++ nl
            ++ "Some AI features may be disabled or not work correctly. Check console for details.") ]
  else
    match text_model g with
    | Some _ => []
    | None =>
        [ ui (warning_box "Text Model Warning"
                ("Gemini Text Model ('" ++ TEXT_MODEL_NAME_TO_TRY g
                 ++ "') could not be initialized. "
                 ++ "Text-based generation features will be disabled." ++ nl
                 ++ "Error details from setup (if any): "
                 ++ (if Py.contains ERROR_MSG "Text model init failed"
                     then ERROR_MSG else "Unknown text model issue."))) ]
    end
    ++ match vision_model g with
       | Some _ => []
       | None =>
           [ ui (warning_box "Vision Model Warning"
                   ("Gemini Vision Model ('" ++ VISION_MODEL_NAME_TO_TRY g
                    ++ "') could not be initialized. "
                    ++ "Image-to-Prompt feature will be disabled." ++ nl
                    ++ "Error details from setup (if any): "
                    ++ (if Py.contains ERROR_MSG "Vision model init failed"
                        then ERROR_MSG else "Unknown vision model issue."))) ]
       end.

End Startup.

(** ** The counter of variations on the Basic tab *)

Module Counter.

Record VariationCounter := {
  basic_batch_count : Z;
  MAX_VARIATIONS : Z;
  (** the text of [basic_batch_display] *)
  basic_batch_display : str;
  (** whether [basic_batch_decrease_btn] and [basic_batch_increase_btn] are
      enabled *)
  decrease_enabled : bool;
  increase_enabled : bool
}.

(** As [__init__] and [_create_basic_tab] leave it: both buttons are
    created enabled and the display is not refreshed. *)
Definition initial : VariationCounter :=
  {| basic_batch_count := 1;
     MAX_VARIATIONS := 10;
     basic_batch_display := Py.of_Z 1;
     decrease_enabled := true;
     increase_enabled := true |}.

Definition _update_basic_variation_display (self : VariationCounter) : VariationCounter :=
  {| basic_batch_count := basic_batch_count self;
     MAX_VARIATIONS := MAX_VARIATIONS self;
     basic_batch_display := Py.of_Z (basic_batch_count self);
     decrease_enabled := (1 <? basic_batch_count self)%Z;
     increase_enabled := (basic_batch_count self <? MAX_VARIATIONS self)%Z |}.

Definition set_count (self : VariationCounter) (n : Z) : VariationCounter :=
  {| basic_batch_count := n;
     MAX_VARIATIONS := MAX_VARIATIONS self;
     basic_batch_display := basic_batch_display self;
     decrease_enabled := decrease_enabled self;
     increase_enabled := increase_enabled self |}.

Definition _decrease_basic_variations (self : VariationCounter) : VariationCounter :=
  if (1 <? basic_batch_count self)%Z
  then _update_basic_variation_display (set_count self (basic_batch_count self - 1))
  else self.

Definition _increase_basic_variations (self : VariationCounter) : VariationCounter :=
  if (basic_batch_count self <? MAX_VARIATIONS self)%Z
  then _update_basic_variation_display (set_count self (basic_batch_count self + 1))
  else self.

(** A click on one of the two buttons calls its slot. *)
Inductive click := Minus | Plus.

Definition press (self : VariationCounter) (c : click) : VariationCounter :=
  match c with
  | Minus => _decrease_basic_variations self
  | Plus => _increase_basic_variations self
  end.

Definition presses (self : VariationCounter) (cs : list click) : VariationCounter :=
  fold_left press cs self.

(** The buttons and the display say what the count is. *)
Definition in_step (self : VariationCounter) : Prop :=
  basic_batch_display self = Py.of_Z (basic_batch_count self)
  /\ decrease_enabled self = (1 <? basic_batch_count self)%Z
  /\ increase_enabled self = (basic_batch_count self <? MAX_VARIATIONS self)%Z.

End Counter.

(** ** More of Python's strings *)

Module PyText.

(** [s.split()]: the words between runs of white space.  [word] holds the
    characters of the word being read, last first. *)
Fixpoint split_from (word : str) (s : str) : list str :=
  match s with
  | [] => match word with [] => [] | _ :: _ => [rev word] end
  | c :: s' =>
      if Py.isspace c
      then match word with
           | [] => split_from [] s'
           | _ :: _ => rev word :: split_from [] s'
           end
      else split_from (c :: word) s'
  end.

Definition split (s : str) : list str := split_from [] s.

(** [s.replace(a, b)] for single characters [a] and [b] *)
Definition replace_char (a b : ascii) (s : str) : str :=
  map (fun c => if Ascii.eqb c a then b else c) s.

Definition is_ascii_lower (c : ascii) : bool :=
  let n := nat_of_ascii c in ((97 <=? n) && (n <=? 122))%nat.

Definition is_ascii_upper (c : ascii) : bool :=
  let n := nat_of_ascii c in ((65 <=? n) && (n <=? 90))%nat.

(** [s.title()] for a text in ASCII, which the keys it is applied to are:
    a letter after a letter is put in lower case, a letter after anything
    else in upper case. *)
Fixpoint title_from (previous_is_cased : bool) (s : str) : str :=
  match s with
  | [] => []
  | c :: s' =>
      if is_ascii_lower c
      then (if previous_is_cased then c else ascii_of_nat (nat_of_ascii c - 32))
           :: title_from true s'
      else if is_ascii_upper c
      then (if previous_is_cased then ascii_of_nat (nat_of_ascii c + 32) else c)
           :: title_from true s'
      else c :: title_from false s'
  end.

Definition title (s : str) : str := title_from false s.

(** [a < b] on strings: by code points, a proper prefix first. *)
Fixpoint ltb (a b : str) : bool :=
  match a, b with
  | _, [] => false
  | [], _ :: _ => true
  | x :: a', y :: b' =>
      (nat_of_ascii x <? nat_of_ascii y)%nat
      || ((nat_of_ascii x =? nat_of_ascii y)%nat && ltb a' b')
  end.

(** [s[:n]] for [n >= 0] *)
Definition slice_to (n : nat) (s : str) : str := firstn n s.

End PyText.

(** ** The four "Generate" buttons *)

Definition set_is_new_batch_start (self : PromptCraftAI_Qt) (b : bool) : PromptCraftAI_Qt :=
  {| gemini_thread := gemini_thread self;
     gemini_worker := gemini_worker self;
     output_text_edit := output_text_edit self;
     is_new_batch_start := Some b |}.

Definition backticks : str := "```".

(** The texts of the Basic tab. *)
Record BasicTab := {
  basic_idea_text : str;
  basic_load_text : str;
  basic_modify_instructions : str
}.

(** [user_request_details] of [_trigger_gemini_basic_generation], or [None]
    where the function warns and returns. *)
Definition basic_request_details (idea loaded_prompt mod_instructions : str) : option str :=
  let tail : str := "Ensure the output is ONLY the generated prompt string." in
  match loaded_prompt with
  | _ :: _ =>
      Some ("Base existing prompt to work with:" ++ nl ++ backticks ++ nl
            ++ loaded_prompt ++ nl ++ backticks ++ nl
            ++ match mod_instructions, idea with
               | _ :: _, _ => "Refine or modify according to: " ++ mod_instructions ++ nl
               | [], _ :: _ => "Refine/combine with core idea: " ++ idea ++ nl
               | [], [] => "Refine or generate variations." ++ nl
               end
            ++ tail)
  | [] =>
      match idea with
      | _ :: _ => Some ("Generate from core idea: " ++ idea ++ nl ++ tail)
      | [] => None
      end
  end.

Definition _trigger_gemini_basic_generation (g : Globals) (self : PromptCraftAI_Qt)
    (tab : BasicTab) (basic_batch_count : Z)
  : Globals * PromptCraftAI_Qt * list ui_event :=
  let idea := Py.strip (basic_idea_text tab) in
  let loaded_prompt := Py.strip (basic_load_text tab) in
  let mod_instructions := Py.strip (basic_modify_instructions tab) in
  let num_vars := basic_batch_count in
  match basic_request_details idea loaded_prompt mod_instructions with
  | None =>
      (g, self,
       [warning_box "Input Missing" "Provide 'Core Idea' or 'Load Existing Prompt'."])
  | Some user_request_details =>
      _trigger_gemini_operation g (set_is_new_batch_start self true)
        user_request_details "Basic Prompt" num_vars "text" None true
  end.

(** The widgets of the advanced image tab, by the text each holds. *)
Record AdvancedImageTab := {
  adv_img_core_idea : str;
  adv_img_style_combo : str;
  adv_img_secondary_style_combo : str;
  adv_img_character_details : str;
  adv_img_scene_environment : str;
  adv_img_artistic_influence : str;
  adv_img_camera_combo : str;
  adv_img_lighting_combo : str;
  adv_img_color_palette_combo : str;
  adv_img_negative_prompts : str;
  adv_img_load_text : str;
  adv_img_modify_instructions : str
}.

(** The dict [components], in the order of its keys. *)
Definition image_components (tab : AdvancedImageTab) : list (str * str) :=
  [ (("Core Idea/Subject" : str), Py.strip (adv_img_core_idea tab));
    (("Primary Artistic Style" : str), Py.strip (adv_img_style_combo tab));
    (("Secondary Style/Modifier" : str), Py.strip (adv_img_secondary_style_combo tab));
    (("Character Details" : str), Py.strip (adv_img_character_details tab));
    (("Scene & Environment" : str), Py.strip (adv_img_scene_environment tab));
    (("Artistic Influence" : str), Py.strip (adv_img_artistic_influence tab));
    (("Camera & Composition" : str), Py.strip (adv_img_camera_combo tab));
    (("Lighting" : str), Py.strip (adv_img_lighting_combo tab));
    (("Color Palette" : str), Py.strip (adv_img_color_palette_combo tab));
    (("Negative Prompts (Elements to AVOID)" : str), Py.strip (adv_img_negative_prompts tab)) ].

Definition truthy (s : str) : bool :=
  match s with [] => false | _ :: _ => true end.

(** [{k: v for k, v in components.items() if v}] *)
Definition active (components : list (str * str)) : list (str * str) :=
  filter (fun kv => truthy (snd kv)) components.

Definition component_line (kv : str * str) : str :=
  "  - " ++ fst kv ++ ": " ++ snd kv.

(** [user_request_details_parts] of the advanced image button before the
    closing instruction is appended, or [None] where the function warns and
    returns. *)
Definition image_request_parts (loaded_prompt mod_instructions : str)
    (active_components : list (str * str)) : option (list str) :=
  let parts :=
    (if truthy loaded_prompt
     then [ "Base existing image prompt:" ++ nl ++ backticks ++ nl
            ++ loaded_prompt ++ nl ++ backticks ]
          ++ (if truthy mod_instructions
              then ["Modify with: " ++ mod_instructions] else [])
          ++ [ "Integrate or override with the specific components listed below. "
               ++ "If a 'Secondary Style/Modifier' is provided, blend it with the 'Primary Artistic Style' or use it to further describe the overall aesthetic." ]
     else [])
    ++ match active_components with
       | [] => []
       | _ :: _ =>
           (if negb (truthy loaded_prompt)
            then ("Synthesize a detailed image prompt from the following components:" : str)
            else nl ++ "Specific Image Components (to integrate or override):")
           :: map component_line active_components
       end in
  match parts with
  | [] =>
      if truthy loaded_prompt && negb (truthy mod_instructions)
         && match active_components with [] => true | _ :: _ => false end
      then Some [ "Refine or enhance this loaded image prompt:" ++ nl ++ backticks ++ nl
                  ++ loaded_prompt ++ nl ++ backticks ]
      else None
  | _ :: _ => Some parts
  end.

Definition _trigger_gemini_advanced_image_generation (g : Globals)
    (self : PromptCraftAI_Qt) (tab : AdvancedImageTab)
  : Globals * PromptCraftAI_Qt * list ui_event :=
  let g := set_num_variations_for_worker g 1 in
  let loaded_prompt := Py.strip (adv_img_load_text tab) in
  let mod_instructions := Py.strip (adv_img_modify_instructions tab) in
  let context : str := "Advanced Image Prompt" in
  match image_request_parts loaded_prompt mod_instructions
          (active (image_components tab)) with
  | None =>
      (g, self,
       [warning_box "Input Missing"
          "Please provide image prompt details or load a prompt with modification instructions."])
  | Some user_request_details_parts =>
      let full_user_request :=
        join (nl ++ nl)
          (user_request_details_parts
           ++ [nl ++ "Output ONLY the image prompt string, ensuring all provided elements are considered."]) in
      _trigger_gemini_operation g self full_user_request context 1 "text" None true
  end.

(** The video tab: the dict [video_fields_qt], each key with the text of
    its widget, and the two texts below it. *)
Record VideoTab := {
  video_fields_qt : list (str * str);
  video_load_text : str;
  video_modify_instructions : str
}.

(** [d[k] = v] on a dict kept as the list of its items. *)
Fixpoint dict_set (d : list (str * str)) (k v : str) : list (str * str) :=
  match d with
  | [] => [(k, v)]
  | (k', v') :: d' =>
      if Py.eqb k' k then (k', v) :: d' else (k', v') :: dict_set d' k v
  end.

(** The loop that fills [components] on the video tab. *)
Fixpoint video_components (fields : list (str * str)) (components : list (str * str))
  : list (str * str) :=
  match fields with
  | [] => components
  | (field_key, text) :: rest =>
      let value := Py.strip text in
      video_components rest
        (if truthy value
         then dict_set components
                (PyText.title (PyText.replace_char "_" " " field_key)) value
         else components)
  end.

Definition video_request_parts (loaded_prompt mod_instructions : str)
    (components : list (str * str)) : option (list str) :=
  let parts :=
    (if truthy loaded_prompt
     then [ "Base existing video prompt:" ++ nl ++ backticks ++ nl
            ++ loaded_prompt ++ nl ++ backticks ]
          ++ (if truthy mod_instructions
              then ["Modify with: " ++ mod_instructions] else [])
          ++ [ ("Integrate/override with specific video components below if provided." : str) ]
     else [])
    ++ match components with
       | [] => []
       | _ :: _ =>
           (if negb (truthy loaded_prompt)
            then ("Synthesize a video prompt from these components:" : str)
            else nl ++ "Specific Video Components:")
           :: map component_line components
       end in
  match parts with
  | [] =>
      if truthy loaded_prompt && negb (truthy mod_instructions)
         && match components with [] => true | _ :: _ => false end
      then Some [ "Refine/enhance this loaded video prompt:" ++ nl ++ backticks ++ nl
                  ++ loaded_prompt ++ nl ++ backticks ]
      else None
  | _ :: _ => Some parts
  end.

Definition _trigger_gemini_video_generation (g : Globals)
    (self : PromptCraftAI_Qt) (tab : VideoTab)
  : Globals * PromptCraftAI_Qt * list ui_event :=
  let g := set_num_variations_for_worker g 1 in
  let components := video_components (video_fields_qt tab) [] in
  let loaded_prompt := Py.strip (video_load_text tab) in
  let mod_instructions := Py.strip (video_modify_instructions tab) in
  let context : str := "Detailed Video Prompt" in
  match video_request_parts loaded_prompt mod_instructions components with
  | None =>
      (g, self,
       [warning_box "Input Missing"
          "Provide video prompt details or load prompt with instructions."])
  | Some user_request_details_parts =>
      let full_user_request :=
        join (nl ++ nl)
          (user_request_details_parts ++ [nl ++ "Output ONLY the video prompt string."]) in
      _trigger_gemini_operation g self full_user_request context 1 "text" None true
  end.

(** The image tab: the image uploaded, if any, and whether the "Video
    Prompt" radio button is checked. *)
Record ImagePromptTab := {
  uploaded_image_pil : option PIL_Image;
  img_to_video_radio : bool
}.

Definition _trigger_gemini_vision_generation (g : Globals)
    (self : PromptCraftAI_Qt) (tab : ImagePromptTab)
  : Globals * PromptCraftAI_Qt * list gui_event :=
  match vision_model g with
  | None => (g, self, [critical_box "API Error" "Gemini Vision model unavailable."])
  | Some _ =>
      match uploaded_image_pil tab with
      | None => (g, self, [ui (warning_box "No Image" "Upload an image first.")])
      | Some image =>
          let target_prompt_type : str :=
            if img_to_video_radio tab then "video" else "image" in
          let query_for_worker :=
            "Generate a " ++ target_prompt_type ++ " prompt from the provided image." in
          let '(g', self', events) :=
            _trigger_gemini_operation g self query_for_worker target_prompt_type 1
              "vision" (Some image) true in
          (g', self', map ui events)
      end
  end.

(** ** The output area *)

Definition _clear_output (self : PromptCraftAI_Qt) : PromptCraftAI_Qt * list gui_event :=
  (setPlainText self [], [ui (status_message "Output cleared.")]).

Definition _copy_prompt (self : PromptCraftAI_Qt) : list gui_event :=
  let prompt := Py.strip (output_text_edit self) in
  if truthy prompt
  then [ clipboard_set prompt;
         ui (information_box "Copied" "Prompt copied to clipboard!");
         ui (status_message "Prompt copied.") ]
  else [ ui (warning_box "Empty Output" "Nothing to copy.") ].

Definition _handle_gemini_error (self : PromptCraftAI_Qt) (error_message : str)
  : PromptCraftAI_Qt * list gui_event :=
  (setPlainText self ("An error occurred:" ++ nl ++ error_message),
   [ critical_box "Generation Error"
       ("An error occurred during generation:" ++ nl ++ error_message);
     ui (status_message ("Error: " ++ PyText.slice_to 60 error_message ++ "...")) ]).

(** The slot the signal of an event of the worker is connected to; the
    calls to the remote models are not signals and [finished] only stops
    the thread. *)
Definition deliver (g : Globals) (self : PromptCraftAI_Qt) (e : event)
  : PromptCraftAI_Qt * list gui_event :=
  match e with
  | result_ready results =>
      let (self', events) := _handle_gemini_results g self results in
      (self', map ui events)
  | error_occurred msg => _handle_gemini_error self msg
  | _ => (self, [])
  end.

(** The signals of a run delivered one after the other. *)
Fixpoint deliver_all (g : Globals) (self : PromptCraftAI_Qt) (tr : list event)
  : PromptCraftAI_Qt * list gui_event :=
  match tr with
  | [] => (self, [])
  | e :: tr' =>
      let (self1, events1) := deliver g self e in
      let (self2, events2) := deliver_all g self1 tr' in
      (self2, events1 ++ events2)
  end.

(** ** The library of saved prompts *)

Module Library.

(** An item of the library as the program writes it:
    [{"name": ..., "prompt": ...}]. *)
Record item := {
  name : str;
  prompt : str
}.

Definition item_eqb (a b : item) : bool :=
  Py.eqb (name a) (name b) && Py.eqb (prompt a) (prompt b).

Record LibraryTab := {
  prompt_library_data : list item;
  (** the items of [library_list_widget_qt]; [None] while the attribute
      has not been set *)
  library_list_widget_qt : option (list item)
}.

Inductive library_event :=
| gui (e : gui_event)
| input_dialog (title label text : str)
| question_box (title text : str)
| file_written (data : list item).

(** [sorted(data, key=lambda x: x['name'].lower())]: the order of the keys,
    items with equal keys in the order they had. *)
Fixpoint insert_sorted (x : item) (l : list item) : list item :=
  match l with
  | [] => [x]
  | y :: l' =>
      if PyText.ltb (Py.lower (name y)) (Py.lower (name x))
      then y :: insert_sorted x l'
      else x :: l
  end.

Fixpoint sorted (data : list item) : list item :=
  match data with
  | [] => []
  | x :: rest => insert_sorted x (sorted rest)
  end.

Definition _refresh_library_list_widget (self : LibraryTab) : LibraryTab :=
  match library_list_widget_qt self with
  | None => self
  | Some _ =>
      {| prompt_library_data := prompt_library_data self;
         library_list_widget_qt := Some (sorted (prompt_library_data self)) |}
  end.

(** [_save_library]; [write_error] is the exception that opening or writing
    the file raises, if it does. *)
Definition _save_library (self : LibraryTab) (write_error : option str)
  : list library_event :=
  match write_error with
  | None => [file_written (prompt_library_data self)]
  | Some e => [gui (critical_box "Library Save Error" ("Could not save library: " ++ e))]
  end.

Definition default_name (prompt_to_save : str) : str :=
  join " " (firstn 5 (PyText.split prompt_to_save))
  ++ (if (5 <? length (PyText.split prompt_to_save))%nat then "..." else []).

Definition same_name (n : str) (i : item) : bool :=
  Py.eqb (Py.lower (name i)) (Py.lower n).

Definition set_data (self : LibraryTab) (data : list item) : LibraryTab :=
  {| prompt_library_data := data;
     library_list_widget_qt := library_list_widget_qt self |}.

(** [_save_to_library_dialog]: [output] is the text of the output area,
    [dialog] what the name dialog returns, [overwrite] whether the question
    about a name in use is answered with Yes. *)
Definition _save_to_library_dialog (self : LibraryTab) (output : str)
    (dialog : str * bool) (overwrite : bool) (write_error : option str)
  : LibraryTab * list library_event :=
  let prompt_to_save := Py.strip output in
  if negb (truthy prompt_to_save)
  then (self, [gui (ui (warning_box "Empty Prompt" "No prompt to save."))])
  else
    let asked :=
      input_dialog "Save to Library" "Prompt Name:" (default_name prompt_to_save) in
    let (entered, ok) := dialog in
    if ok && truthy (Py.strip entered)
    then
      let name := Py.strip entered in
      let in_use := existsb (same_name name) (prompt_library_data self) in
      if in_use && negb overwrite
      then (self, [asked; question_box "Duplicate Name" ("Overwrite '" ++ name ++ "'?")])
      else
        let kept :=
          if in_use
          then filter (fun i => negb (same_name name i)) (prompt_library_data self)
          else prompt_library_data self in
        let self' :=
          _refresh_library_list_widget
            (set_data self (kept ++ [{| name := name; prompt := prompt_to_save |}])) in
        (self',
         [asked]
         ++ (if in_use
             then [question_box "Duplicate Name" ("Overwrite '" ++ name ++ "'?")] else [])
         ++ _save_library self' write_error
         ++ [ gui (ui (information_box "Saved" ("Prompt '" ++ name ++ "' saved.")));
              gui (ui (status_message ("Saved '" ++ name ++ "'."))) ])
    else if ok
    then (self, [asked; gui (ui (warning_box "Name Required" "Please enter a valid name."))])
    else (self, [asked]).

(** [_delete_from_library]: [selected] is the data of the first selected
    item of the list, if one is selected, [confirmed] whether the question is
    answered with Yes. *)
Definition _delete_from_library (self : LibraryTab) (selected : option item)
    (confirmed : bool) (write_error : option str)
  : LibraryTab * list library_event :=
  match selected with
  | None => (self, [gui (ui (warning_box "No Selection" "Select a prompt to delete."))])
  | Some p_data_del =>
      let p_name := name p_data_del in
      let asked := question_box "Confirm Delete" ("Delete '" ++ p_name ++ "'?") in
      if confirmed
      then
        let self' :=
          _refresh_library_list_widget
            (set_data self
               (filter (fun i => negb (item_eqb i p_data_del)) (prompt_library_data self))) in
        (self',
         [asked]
         ++ _save_library self' write_error
         ++ [ gui (ui (information_box "Deleted" ("'" ++ p_name ++ "' deleted.")));
              gui (ui (status_message ("Deleted '" ++ p_name ++ "'."))) ])
      else (self, [asked])
  end.

(** No two items have the same name, case ignored. *)
Definition names_distinct (data : list item) : Prop :=
  NoDup (map (fun i => Py.lower (name i)) data).

(** The keys of a list are in order. *)
Fixpoint in_order (l : list item) : bool :=
  match l with
  | [] => true
  | x :: l' =>
      match l' with
      | [] => true
      | y :: _ => negb (PyText.ltb (Py.lower (name y)) (Py.lower (name x))) && in_order l'
      end
  end.

End Library.

(** ** Sample environments and forms *)

Definition env_without_key : Startup.Environment :=
  {| Startup.GEMINI_TEXT_MODEL_OVERRIDE := None;
     Startup.GEMINI_VISION_MODEL_OVERRIDE := None;
     Startup.load_dotenv := Startup.Passed;
     Startup.GEMINI_API_KEY := None;
     Startup.configure_and_list_models := Startup.Passed;
     Startup.text_init := Startup.Initialized demo_text_model;
     Startup.vision_init := Startup.Initialized demo_vision_model |}.

(** The key is found and the vision model is initialized; the text model is
    not. *)
Definition env_vision_only : Startup.Environment :=
  {| Startup.GEMINI_TEXT_MODEL_OVERRIDE := None;
     Startup.GEMINI_VISION_MODEL_OVERRIDE := Some ("gemini-vision" : str);
     Startup.load_dotenv := Startup.Passed;
     Startup.GEMINI_API_KEY := Some ("k-123" : str);
     Startup.configure_and_list_models := Startup.Passed;
     Startup.text_init := Startup.InitFailed "404 model not found";
     Startup.vision_init := Startup.Initialized demo_vision_model |}.

Definition env_no_model : Startup.Environment :=
  {| Startup.GEMINI_TEXT_MODEL_OVERRIDE := None;
     Startup.GEMINI_VISION_MODEL_OVERRIDE := None;
     Startup.load_dotenv := Startup.Passed;
     Startup.GEMINI_API_KEY := Some ("k-123" : str);
     Startup.configure_and_list_models := Startup.Passed;
     Startup.text_init := Startup.InitFailed "404 model not found";
     Startup.vision_init := Startup.InitFailed "404 model not found" |}.

Definition idle_window : PromptCraftAI_Qt :=
  {| gemini_thread := None; gemini_worker := None;
     output_text_edit := "an earlier prompt"; is_new_batch_start := None |}.

(** The number of calls to the remote models among the events of a run. *)
Definition remote_call_count (tr : list event) : nat :=
  length (filter (fun e => negb (is_signal e)) tr).

(** Whether the window has a thread that is running. *)
Definition running (self : PromptCraftAI_Qt) : bool :=
  match gemini_thread self with
  | Some thread => isRunning thread
  | None => false
  end.

Definition missing_input_basic : ui_event :=
  warning_box "Input Missing" "Provide 'Core Idea' or 'Load Existing Prompt'.".

Definition missing_input_image : ui_event :=
  warning_box "Input Missing"
    "Please provide image prompt details or load a prompt with modification instructions.".

Definition missing_input_video : ui_event :=
  warning_box "Input Missing"
    "Provide video prompt details or load prompt with instructions.".

Definition with_idea (tab : BasicTab) (idea : str) : BasicTab :=
  {| basic_idea_text := idea;
     basic_load_text := basic_load_text tab;
     basic_modify_instructions := basic_modify_instructions tab |}.

Definition with_modify_instructions (tab : BasicTab) (text : str) : BasicTab :=
  {| basic_idea_text := basic_idea_text tab;
     basic_load_text := basic_load_text tab;
     basic_modify_instructions := text |}.

Definition sample_basic_tab : BasicTab :=
  {| basic_idea_text := "  a red fox ";
     basic_load_text := " a fox in the snow, oil painting ";
     basic_modify_instructions := "make it night" |}.

Definition empty_image_tab : AdvancedImageTab :=
  {| adv_img_core_idea := "  "; adv_img_style_combo := [];
     adv_img_secondary_style_combo := []; adv_img_character_details := [];
     adv_img_scene_environment := []; adv_img_artistic_influence := [];
     adv_img_camera_combo := []; adv_img_lighting_combo := [];
     adv_img_color_palette_combo := []; adv_img_negative_prompts := [];
     adv_img_load_text := " "; adv_img_modify_instructions := "make it night" |}.

Definition sample_image_tab : AdvancedImageTab :=
  {| adv_img_core_idea := "a red fox"; adv_img_style_combo := "Oil Painting";
     adv_img_secondary_style_combo := []; adv_img_character_details := [];
     adv_img_scene_environment := []; adv_img_artistic_influence := [];
     adv_img_camera_combo := []; adv_img_lighting_combo := " Golden Hour ";
     adv_img_color_palette_combo := []; adv_img_negative_prompts := [];
     adv_img_load_text := []; adv_img_modify_instructions := [] |}.

(** The keys of [video_fields_qt] as [_create_video_tab] fills it. *)
Definition video_field_keys : list str := map lit [
  "core_concept_story"; "video_style"; "scene_setting"; "key_actions_events";
  "characters_subjects"; "shot_types_camera_movement"; "pacing_duration";
  "lighting_atmosphere"; "audio_cues"; "output_format_feeling" ].

Definition empty_video_tab : VideoTab :=
  {| video_fields_qt := map (fun k => (k, ("  " : str))) video_field_keys;
     video_load_text := []; video_modify_instructions := "shorter" |}.

Definition sample_video_tab : VideoTab :=
  {| video_fields_qt :=
       map (fun k => (k, if Py.eqb k "video_style" then ("Anime" : str) else [])) video_field_keys;
     video_load_text := []; video_modify_instructions := [] |}.

Definition closing_image_instruction : str :=
  nl ++ "Output ONLY the image prompt string, ensuring all provided elements are considered.".

Definition closing_video_instruction : str :=
  nl ++ "Output ONLY the video prompt string.".

Definition sample_image_prompt_tab : ImagePromptTab :=
  {| uploaded_image_pil := Some (pil 7); img_to_video_radio := true |}.

(** The entry a vision job hands over for the text the model returned. *)
Definition vision_entry (target_prompt_type text : str) : str :=
  match sanitize_vision text with
  | _ :: _ => sanitize_vision text
  | [] => "Gemini Vision returned an empty description for the "
          ++ target_prompt_type ++ " prompt."
  end.


Definition sample_library : Library.LibraryTab :=
  {| Library.prompt_library_data :=
       [ {| Library.name := "Red Fox"; Library.prompt := "a red fox in the snow" |};
         {| Library.name := "harbour"; Library.prompt := "a quiet harbour at dawn" |} ];
     Library.library_list_widget_qt := Some [] |}.

(** Whether [_save_to_library_dialog] goes on to save: there is a prompt in
    the output area, the dialog was accepted with a name that is not blank,
    and the name is free or the user agreed to overwrite. *)
Definition save_accepted (self : Library.LibraryTab) (output : str)
    (dialog : str * bool) (overwrite : bool) : bool :=
  truthy (Py.strip output) && snd dialog && truthy (Py.strip (fst dialog))
  && (negb (existsb (Library.same_name (Py.strip (fst dialog)))
              (Library.prompt_library_data self))
      || overwrite).


(** ** The "Generate" buttons and the thread *)












(** * Facts about the string operations *)

Module PyFacts.
Import Py.

Lemma dropwhile_split f s : exists w, s = w ++ dropwhile f s.
Proof.
  induction s as [|c s [w IH]]; simpl.
  - exists []; reflexivity.
  - destruct (f c).
    + exists (c :: w); simpl; f_equal; exact IH.
    + exists []; reflexivity.
Qed.

Lemma lstrip_clean s : starts_clean (lstrip s) = true.
Proof.
  unfold lstrip; induction s as [|c s IH]; simpl; auto.
  destruct (isspace c) eqn:E; auto.
  simpl; rewrite E; reflexivity.
Qed.

Lemma lstrip_id s : starts_clean s = true -> lstrip s = s.
Proof.
  destruct s as [|c s]; simpl; auto.
  unfold lstrip; simpl; destruct (isspace c); [discriminate | reflexivity].
Qed.

Lemma starts_clean_app_l a b :
  starts_clean (a ++ b) = true -> starts_clean a = true.
Proof. destruct a; simpl; auto. Qed.

Lemma ends_clean_app_r a b :
  ends_clean (a ++ b) = true -> ends_clean b = true.
Proof. unfold ends_clean; rewrite rev_app_distr; apply starts_clean_app_l. Qed.

Lemma lstrip_split s : exists w, s = w ++ lstrip s.
Proof. apply dropwhile_split. Qed.

Lemma rstrip_split s : exists w, s = rstrip s ++ w.
Proof.
  unfold rstrip; destruct (dropwhile_split isspace (rev s)) as [w H].
  exists (rev w).
  rewrite <- rev_app_distr, <- H; symmetry; apply rev_involutive.
Qed.

Lemma rstrip_clean s : ends_clean (rstrip s) = true.
Proof. unfold ends_clean, rstrip; rewrite rev_involutive; apply lstrip_clean. Qed.

Lemma rstrip_id s : ends_clean s = true -> rstrip s = s.
Proof.
  unfold ends_clean, rstrip; intros H.
  fold (lstrip (rev s)); rewrite (lstrip_id _ H); apply rev_involutive.
Qed.

Lemma lstrip_keeps_end s : ends_clean s = true -> ends_clean (lstrip s) = true.
Proof.
  destruct (lstrip_split s) as [w H]; intros E.
  apply ends_clean_app_r with (a := w); rewrite <- H; exact E.
Qed.

Lemma rstrip_keeps_start s : starts_clean s = true -> starts_clean (rstrip s) = true.
Proof.
  destruct (rstrip_split s) as [w H]; intros E.
  apply starts_clean_app_l with (b := w); rewrite <- H; exact E.
Qed.

Lemma skipn_keeps_end n s : ends_clean s = true -> ends_clean (skipn n s) = true.
Proof.
  intros E; apply ends_clean_app_r with (a := firstn n s).
  rewrite firstn_skipn; exact E.
Qed.

Lemma firstn_keeps_start n s : starts_clean s = true -> starts_clean (firstn n s) = true.
Proof.
  intros E; apply starts_clean_app_l with (b := skipn n s).
  rewrite firstn_skipn; exact E.
Qed.

Lemma strip_clean s : starts_clean (strip s) = true /\ ends_clean (strip s) = true.
Proof.
  unfold strip; split.
  - apply rstrip_keeps_start, lstrip_clean.
  - apply rstrip_clean.
Qed.

Lemma strip_id s : starts_clean s = true -> ends_clean s = true -> strip s = s.
Proof. intros H1 H2; unfold strip; rewrite (lstrip_id _ H1); apply rstrip_id, H2. Qed.

Lemma strip_idem s : strip (strip s) = strip s.
Proof. destruct (strip_clean s); apply strip_id; assumption. Qed.

Lemma strip_fixed_clean s :
  strip s = s -> starts_clean s = true /\ ends_clean s = true.
Proof. intros H; rewrite <- H; apply strip_clean. Qed.

(** [strip] takes white space off both ends and nothing else. *)
Lemma strip_split s : exists w1 w2, s = w1 ++ strip s ++ w2.
Proof.
  destruct (lstrip_split s) as [w1 H1].
  destruct (rstrip_split (lstrip s)) as [w2 H2].
  exists w1, w2; unfold strip; rewrite <- H2; exact H1.
Qed.

Lemma lower_app a b : lower (a ++ b) = lower a ++ lower b.
Proof. apply map_app. Qed.

Lemma lower_length s : length (lower s) = length s.
Proof. apply length_map. Qed.

Lemma lower_rev s : lower (rev s) = rev (lower s).
Proof. apply map_rev. Qed.

Lemma startswith_spec s p :
  startswith s p = true <-> exists rest, s = p ++ rest.
Proof.
  revert s; induction p as [|a p IH]; intros s; simpl.
  - split; [intros _; exists s; reflexivity | reflexivity].
  - destruct s as [|b s].
    + split; [discriminate | intros [rest H]; discriminate].
    + rewrite andb_true_iff, Ascii.eqb_eq, IH; split.
      * intros [-> [rest ->]]; exists rest; reflexivity.
      * intros [rest H]; injection H as -> ->; split; [reflexivity | exists rest; reflexivity].
Qed.

Lemma endswith_spec s p :
  endswith s p = true <-> exists front, s = front ++ p.
Proof.
  unfold endswith; rewrite startswith_spec; split.
  - intros [rest H]; exists (rev rest).
    rewrite <- (rev_involutive s), H, rev_app_distr, rev_involutive; reflexivity.
  - intros [front ->]; exists (rev front); apply rev_app_distr.
Qed.

(** Matching without regard to case: the text begins with a spelling of
    the phrase. *)
Lemma startswith_lower t p :
  startswith (lower t) (lower p) = true <->
  exists head rest, t = head ++ rest /\ lower head = lower p.
Proof.
  rewrite startswith_spec; split.
  - intros [r H].
    exists (firstn (length p) t), (skipn (length p) t); split.
    + symmetry; apply firstn_skipn.
    + unfold lower in *; rewrite <- firstn_map, H.
      rewrite <- (length_map lower_char p), firstn_app, Nat.sub_diag, firstn_all.
      simpl; apply app_nil_r.
  - intros (head & rest & -> & H); exists (lower rest).
    rewrite lower_app, H; reflexivity.
Qed.

Lemma endswith_lower t p :
  endswith (lower t) (lower p) = true <->
  exists front tail, t = front ++ tail /\ lower tail = lower p.
Proof.
  unfold endswith; rewrite <- !lower_rev, startswith_lower; split.
  - intros (head & rest & H & E); exists (rev rest), (rev head); split.
    + rewrite <- rev_app_distr, <- H; symmetry; apply rev_involutive.
    + rewrite lower_rev, E, lower_rev; apply rev_involutive.
  - intros (front & tail & -> & E); exists (rev tail), (rev front); split.
    + apply rev_app_distr.
    + rewrite !lower_rev, E; reflexivity.
Qed.

Lemma contains_spec s p :
  contains s p = true <-> exists a b, s = a ++ p ++ b.
Proof.
  split.
  - induction s as [|c s IH]; simpl; rewrite orb_true_iff.
    + intros [H | H]; [|discriminate].
      apply startswith_spec in H; destruct H as [rest H].
      exists [], rest; exact H.
    + intros [H | H].
      * apply startswith_spec in H; destruct H as [rest H].
        exists [], rest; exact H.
      * destruct (IH H) as (a & b & ->); exists (c :: a), b; reflexivity.
  - intros (a & b & ->); induction a as [|c a IH].
    + assert (H : startswith (p ++ b) p = true)
        by (apply startswith_spec; exists b; reflexivity).
      simpl; destruct (p ++ b); simpl in *; rewrite H; reflexivity.
    + simpl; rewrite IH; apply orb_true_r.
Qed.

End PyFacts.

(** * The clean-up of the model's answer *)

Section Sanitizer.
Import Py PyFacts.

Lemma strip_start_no_match starts text :
  no_start starts text -> strip_start starts text = text.
Proof.
  induction starts as [|p starts IH]; intros H; simpl; auto.
  rewrite (H p (or_introl eq_refl)); apply IH.
  intros q Hq; apply H; right; exact Hq.
Qed.

Lemma strip_end_no_match ends text :
  no_end ends text -> strip_end ends text = text.
Proof.
  induction ends as [|p ends IH]; intros H; simpl; auto.
  rewrite (H p (or_introl eq_refl)); apply IH.
  intros q Hq; apply H; right; exact Hq.
Qed.

(** The first phrase that matches decides, whatever follows it in the
    list and whatever the rest of the text begins with. *)
Lemma strip_start_first_match (pre : list str) (phrase : str) (post : list str)
    (head rest : str) :
  no_start pre (head ++ rest) -> lower head = lower phrase ->
  strip_start (pre ++ phrase :: post) (head ++ rest) = lstrip rest.
Proof.
  intros Hpre Hhead; induction pre as [|q pre IH]; simpl.
  - assert (M : startswith (lower (head ++ rest)) (lower phrase) = true)
      by (apply startswith_lower; exists head, rest; auto).
    rewrite M; unfold slice_from.
    assert (L : length phrase = length head)
      by (rewrite <- (lower_length phrase), <- Hhead; apply lower_length).
    rewrite L, skipn_app, Nat.sub_diag, skipn_all; reflexivity.
  - rewrite (Hpre q (or_introl eq_refl)); apply IH.
    intros r Hr; apply Hpre; right; exact Hr.
Qed.

Lemma strip_end_first_match (pre : list str) (phrase : str) (post : list str)
    (front tail : str) :
  phrase <> [] ->
  no_end pre (front ++ tail) -> lower tail = lower phrase ->
  strip_end (pre ++ phrase :: post) (front ++ tail) = rstrip front.
Proof.
  intros Hne Hpre Htail; induction pre as [|q pre IH]; simpl.
  - assert (M : endswith (lower (front ++ tail)) (lower phrase) = true)
      by (apply endswith_lower; exists front, tail; auto).
    rewrite M; unfold slice_to_neg.
    assert (L : length phrase = length tail)
      by (rewrite <- (lower_length phrase), <- Htail; apply lower_length).
    destruct (length phrase) as [|n] eqn:E.
    + destruct phrase; [contradiction | discriminate].
    + rewrite L, length_app, Nat.add_sub, firstn_app, Nat.sub_diag, firstn_all.
      simpl; rewrite app_nil_r; reflexivity.
  - rewrite (Hpre q (or_introl eq_refl)); apply IH.
    intros r Hr; apply Hpre; right; exact Hr.
Qed.

(** Nothing is taken from the end by the prefix loop, nothing from the
    start by the suffix loop. *)
Lemma strip_start_suffix starts text :
  exists front, text = front ++ strip_start starts text.
Proof.
  induction starts as [|p starts IH]; simpl.
  - exists []; reflexivity.
  - destruct (startswith (lower text) (lower p)); auto.
    destruct (lstrip_split (slice_from (length p) text)) as [w H].
    exists (firstn (length p) text ++ w).
    rewrite <- app_assoc, <- H; symmetry; apply firstn_skipn.
Qed.

Lemma strip_start_clean starts text :
  starts_clean text = true -> ends_clean text = true ->
  starts_clean (strip_start starts text) = true
  /\ ends_clean (strip_start starts text) = true.
Proof.
  intros H1 H2; induction starts as [|p starts IH]; simpl; auto.
  destruct (startswith (lower text) (lower p)); auto; split.
  - apply lstrip_clean.
  - apply lstrip_keeps_end, skipn_keeps_end, H2.
Qed.

Lemma sanitize_clean kind raw :
  starts_clean (sanitize kind raw) = true /\ ends_clean (sanitize kind raw) = true.
Proof.
  destruct kind; simpl.
  - apply strip_clean.
  - unfold sanitize_vision; destruct (strip_clean raw); apply strip_start_clean; auto.
Qed.

Lemma sanitize_trimmed kind raw : strip (sanitize kind raw) = sanitize kind raw.
Proof. destruct (sanitize_clean kind raw); apply strip_id; assumption. Qed.

(** A phrase that begins or ends the stripped text occurs in the text. *)
Lemma start_occurs raw p :
  startswith (lower (strip raw)) (lower p) = true ->
  contains (lower raw) (lower p) = true.
Proof.
  intros H; apply startswith_spec in H; destruct H as [r H].
  destruct (strip_split raw) as (w1 & w2 & E).
  apply contains_spec; exists (lower w1), (r ++ lower w2).
  rewrite E at 1; rewrite !lower_app, H, <- app_assoc; reflexivity.
Qed.

Lemma end_occurs raw p :
  endswith (lower (strip raw)) (lower p) = true ->
  contains (lower raw) (lower p) = true.
Proof.
  intros H; apply endswith_spec in H; destruct H as [r H].
  destruct (strip_split raw) as (w1 & w2 & E).
  apply contains_spec; exists (lower w1 ++ r), (lower w2).
  rewrite E at 1; rewrite !lower_app, H, <- !app_assoc; reflexivity.
Qed.

Lemma no_boilerplate_start kind raw :
  no_boilerplate kind raw -> no_start (known_starts kind) (strip raw).
Proof.
  intros H q Hq.
  destruct (startswith (lower (strip raw)) (lower q)) eqn:E; auto.
  apply start_occurs in E; rewrite H in E; [discriminate|].
  apply in_or_app; left; exact Hq.
Qed.

Lemma no_boilerplate_end kind raw :
  no_boilerplate kind raw -> no_end (known_ends kind) (strip raw).
Proof.
  intros H q Hq.
  destruct (endswith (lower (strip raw)) (lower q)) eqn:E; auto.
  apply end_occurs in E; rewrite H in E; [discriminate|].
  apply in_or_app; right; exact Hq.
Qed.

Lemma sanitize_no_match kind raw :
  no_start (known_starts kind) (strip raw) ->
  no_end (known_ends kind) (strip raw) ->
  sanitize kind raw = strip raw.
Proof.
  intros Hs He; destruct kind; simpl in *.
  - unfold sanitize_text.
    rewrite (strip_start_no_match Hs), (strip_end_no_match He); apply strip_idem.
  - unfold sanitize_vision; apply strip_start_no_match, Hs.
Qed.

End Sanitizer.

(** * The worker's runs *)

Section WorkerFacts.

Lemma trace_bind {A B} (m : W A) (k : A -> W B) :
  trace (bind m k) = trace m ++ trace (k (value m)).
Proof. destruct m as [a t]; unfold bind, trace, value; simpl; destruct (k a); reflexivity. Qed.

Lemma value_bind {A B} (m : W A) (k : A -> W B) :
  value (bind m k) = value (k (value m)).
Proof. destruct m as [a t]; unfold bind, trace, value; simpl; destruct (k a); reflexivity. Qed.

Lemma signals_app t1 t2 : signals (t1 ++ t2) = signals t1 ++ signals t2.
Proof. apply filter_app. Qed.

Variable g : Globals.
Variable quit_requested : QuitFlag.
Variable self : GeminiWorker.

Local Abbreviation payload i :=
  (gemini_prompt_payload g (query self) (context self) i).
Local Abbreviation core i :=
  (_generate_single_prompt_core g quit_requested (query self) (context self) i).

(** What one variation records, and the only events it can cause. *)
Lemma core_value i :
  value (core i) =
    if quit_requested (at_core i) then cancelled_by_user
    else match text_model g with
         | None => api_error_entry i (text_model_not_initialized g)
         | Some model =>
             match model i (payload i) with
             | Returns text => sanitize_text text
             | Raises e => api_error_entry i e
             end
         end.
Proof.
  unfold _generate_single_prompt_core.
  destruct (quit_requested (at_core i)); [reflexivity|].
  rewrite value_bind; unfold generate_single_prompt_try.
  destruct (text_model g) as [model|]; [|reflexivity].
  rewrite value_bind.
  destruct (model i (payload i)); reflexivity.
Qed.

Lemma core_trace i :
  trace (core i) =
    if quit_requested (at_core i) then []
    else match text_model g with
         | None => []
         | Some _ => [text_generate_content (payload i)]
         end.
Proof.
  unfold _generate_single_prompt_core.
  destruct (quit_requested (at_core i)); [reflexivity|].
  rewrite trace_bind; unfold generate_single_prompt_try.
  destruct (text_model g) as [model|]; [|reflexivity].
  rewrite trace_bind, value_bind.
  destruct (model i (payload i)); reflexivity.
Qed.

Lemma text_loop_step i rest acc :
  text_loop g quit_requested self (i :: rest) acc =
    if quit_requested (at_variation i)
    then ret (acc ++ [batch_cancelled])
    else bind (core i) (fun result =>
           text_loop g quit_requested self rest (acc ++ [result])).
Proof. reflexivity. Qed.

Lemma text_loop_signals indices acc :
  signals (trace (text_loop g quit_requested self indices acc)) = [].
Proof.
  revert acc; induction indices as [|i rest IH]; intros acc; [reflexivity|].
  rewrite text_loop_step.
  destruct (quit_requested (at_variation i)); [reflexivity|].
  rewrite trace_bind, signals_app, IH, core_trace.
  destruct (quit_requested (at_core i)); [reflexivity|].
  destruct (text_model g); reflexivity.
Qed.

Lemma text_loop_length_le indices acc :
  length (value (text_loop g quit_requested self indices acc))
  <= length acc + length indices.
Proof.
  revert acc; induction indices as [|i rest IH]; intros acc.
  - simpl; lia.
  - rewrite text_loop_step.
    destruct (quit_requested (at_variation i)).
    + unfold ret, value; simpl; rewrite length_app; simpl; lia.
    + rewrite value_bind.
      specialize (IH (acc ++ [value (core i)])).
      rewrite length_app in IH; simpl in *; lia.
Qed.

(** While no cancellation is seen at the top of an iteration, every index
    gets its entry. *)
Lemma text_loop_not_cancelled indices acc :
  (forall i, In i indices -> quit_requested (at_variation i) = false) ->
  value (text_loop g quit_requested self indices acc)
  = acc ++ map (fun i => value (core i)) indices.
Proof.
  revert acc; induction indices as [|i rest IH]; intros acc H.
  - simpl; unfold ret, value; simpl; symmetry; apply app_nil_r.
  - rewrite text_loop_step, (H i (or_introl eq_refl)), value_bind, IH.
    + rewrite <- app_assoc; reflexivity.
    + intros j Hj; apply H; right; exact Hj.
Qed.

Lemma text_loop_trace_not_cancelled indices acc :
  (forall i, In i indices -> quit_requested (at_variation i) = false) ->
  trace (text_loop g quit_requested self indices acc)
  = flat_map (fun i => trace (core i)) indices.
Proof.
  revert acc; induction indices as [|i rest IH]; intros acc H.
  - reflexivity.
  - rewrite text_loop_step, (H i (or_introl eq_refl)), trace_bind, IH.
    + reflexivity.
    + intros j Hj; apply H; right; exact Hj.
Qed.

(** A cancellation seen at the top of an iteration ends the list there,
    with one entry for the whole batch. *)
Lemma text_loop_cancelled pre i post acc :
  (forall j, In j pre -> quit_requested (at_variation j) = false) ->
  quit_requested (at_variation i) = true ->
  value (text_loop g quit_requested self (pre ++ i :: post) acc)
  = acc ++ map (fun j => value (core j)) pre ++ [batch_cancelled].
Proof.
  revert acc; induction pre as [|j pre IH]; intros acc H Hi.
  - simpl app; rewrite text_loop_step, Hi; reflexivity.
  - simpl app; rewrite text_loop_step, (H j (or_introl eq_refl)), value_bind, IH; auto.
    + rewrite <- app_assoc; reflexivity.
    + intros k Hk; apply H; right; exact Hk.
Qed.

Lemma text_loop_no_model indices acc :
  text_model g = None ->
  trace (text_loop g quit_requested self indices acc) = [].
Proof.
  intros Hm; revert acc; induction indices as [|i rest IH]; intros acc; [reflexivity|].
  rewrite text_loop_step.
  destruct (quit_requested (at_variation i)); [reflexivity|].
  rewrite trace_bind, IH, core_trace, Hm.
  destruct (quit_requested (at_core i)); reflexivity.
Qed.

Lemma run_text_generation_trace :
  trace (run_text_generation g quit_requested self)
  = trace (text_loop g quit_requested self (seq 0 (variation_count g)) [])
    ++ [result_ready (text_results g quit_requested self); finished].
Proof.
  unfold run_text_generation; rewrite trace_bind; reflexivity.
Qed.

Lemma run_text_generation_signals :
  signals (trace (run_text_generation g quit_requested self))
  = [result_ready (text_results g quit_requested self); finished].
Proof. rewrite run_text_generation_trace, signals_app, text_loop_signals; reflexivity. Qed.

End WorkerFacts.

(** * The start of the module *)

Section StartupFacts.
Import Startup.

Lemma configuration_failed_globals env raised :
  fst (configuration_failed env raised) = initial_globals env.
Proof. destruct raised; reflexivity. Qed.

Lemma initialize_models_text env :
  text_model (fst (initialize_models env))
  = match text_init env with Initialized m => Some m | InitFailed _ => None end.
Proof. unfold initialize_models; destruct (text_init env), (vision_init env); reflexivity. Qed.

Lemma initialize_models_vision env :
  vision_model (fst (initialize_models env))
  = match vision_init env with Initialized m => Some m | InitFailed _ => None end.
Proof. unfold initialize_models; destruct (text_init env), (vision_init env); reflexivity. Qed.

Lemma initialize_models_valid env :
  GEMINI_API_KEY_VALID (fst (initialize_models env))
  = match text_init env, vision_init env with
    | InitFailed _, InitFailed _ => false
    | _, _ => true
    end.
Proof. unfold initialize_models; destruct (text_init env), (vision_init env); reflexivity. Qed.

(** Whether the configuration reaches the two models. *)
Lemma configure_cases env :
  (configure env = initialize_models env
   /\ load_dotenv env = Passed /\ configure_and_list_models env = Passed
   /\ exists c k, GEMINI_API_KEY env = Some (c :: k))
  \/ (fst (configure env) = initial_globals env
      /\ ~ (load_dotenv env = Passed /\ configure_and_list_models env = Passed
            /\ exists c k, GEMINI_API_KEY env = Some (c :: k))).
Proof.
  unfold configure.
  destruct (load_dotenv env) eqn:L;
    try (right; split; [reflexivity | intros (H & _); discriminate]).
  destruct (GEMINI_API_KEY env) as [[|c k]|] eqn:K;
    try (right; split; [reflexivity | intros (_ & _ & c' & k' & H); discriminate]).
  destruct (configure_and_list_models env) eqn:C;
    try (right; split; [reflexivity | intros (_ & H & _); discriminate]).
  left; repeat split; eauto.
Qed.

Lemma configure_valid env :
  GEMINI_API_KEY_VALID (fst (configure env)) = true
  <-> text_model (fst (configure env)) <> None
      \/ vision_model (fst (configure env)) <> None.
Proof.
  destruct (configure_cases env) as [(E & _) | (E & _)].
  - rewrite E, initialize_models_valid, initialize_models_text, initialize_models_vision.
    destruct (text_init env), (vision_init env); split;
      try discriminate; auto; try (intros _; left; discriminate);
      try (intros _; right; discriminate).
    intros [H | H]; contradiction.
  - rewrite E; simpl; split; [discriminate | intros [H | H]; contradiction].
Qed.

End StartupFacts.

(** * The claims about the worker *)

(** C1, as stated, fails at two runs: a job cancelled before [run]
    dispatches delivers no outcome at all, only [finished]; a vision job
    cancelled at the check just before the remote call emits [finished]
    twice. *)
Lemma C1_counterexample :
  trace (run (demo_globals 1) cancelled_from_the_start (text_worker 1)) = [finished]
  /\ one_terminal_then_finished
       (trace (run (demo_globals 1) cancelled_from_the_start (text_worker 1))) = false
  /\ trace (run (demo_globals 1) (cancelled_at at_vision_call) (vision_worker (Some (pil 0))))
     = [error_occurred cancelled_by_user; finished; finished]
  /\ one_terminal_then_finished
       (trace (run (demo_globals 1) (cancelled_at at_vision_call)
                 (vision_worker (Some (pil 0))))) = false.
Proof. repeat split; vm_compute; reflexivity. Qed.

(** C1, amended: in every run of the worker the signals are at most one
    outcome (the result or the error, never both) followed only by
    [finished], which is emitted at least once.  Exactly one outcome is
    delivered unless [run] itself sees the cancellation before it dispatches
    (with a valid key), in which case none is.  [finished] is emitted exactly
    once on every path but the vision job's cancellation check just before
    the remote call, about which nothing is said. *)
Theorem C1_one_outcome_then_finished g quit_requested self :
  exists ts k,
    signals (trace (run g quit_requested self)) = ts ++ repeat finished (S k)
    /\ (if cancelled_before_start g quit_requested then ts = []
        else exists t, is_terminal t = true /\ ts = [t])
    /\ (vision_cancelled_before_call g quit_requested self = false -> k = 0).
Proof.
  unfold run, cancelled_before_start, vision_cancelled_before_call.
  destruct (GEMINI_API_KEY_VALID g); cbn [negb andb]; [|one_outcome 0].
  destruct (quit_requested at_run); cbn [negb andb].
  { exists [], 0; repeat split. }
  destruct (Py.eqb (operation_type self) "text"); cbn [negb andb].
  { rewrite run_text_generation_signals; one_outcome 0. }
  destruct (Py.eqb (operation_type self) "vision"); cbn [negb andb]; [|one_outcome 0].
  unfold run_vision_generation.
  destruct (quit_requested at_vision_entry); cbn [negb andb]; [one_outcome 0|].
  destruct (vision_model g) as [model|]; cbn [negb andb]; [|one_outcome 0].
  destruct (pil_image self) as [image|]; cbn [negb andb]; [|one_outcome 0].
  rewrite trace_bind, signals_app; unfold vision_try.
  destruct (quit_requested at_vision_call); cbn [negb andb]; [one_outcome 1|].
  rewrite trace_bind.
  destruct (model _ image); one_outcome 0.
Qed.

Lemma C1_one_outcome_then_finished_witness :
  exists ts k,
    signals (trace (run (demo_globals 3) never_cancelled (text_worker 3)))
    = ts ++ repeat finished (S k)
    /\ (exists t, is_terminal t = true /\ ts = [t])
    /\ k = 0.
Proof.
  destruct (C1_one_outcome_then_finished (demo_globals 3) never_cancelled (text_worker 3))
    as (ts & k & H1 & H2 & H3).
  exists ts, k; split; [exact H1 | split; [exact H2 | apply H3; reflexivity]].
Defined.

Lemma seq_split_at i n :
  i < n -> seq 0 n = seq 0 i ++ i :: seq (S i) (n - S i).
Proof.
  intros H; replace n with (i + S (n - S i)) at 1 by lia.
  rewrite seq_app; reflexivity.
Qed.

Lemma flat_map_singleton {A B} (f : A -> B) l :
  flat_map (fun x => [f x]) l = map f l.
Proof. induction l; simpl; congruence. Qed.

Lemma nth_map_seq {A} (f : nat -> A) n i d :
  i < n -> nth i (map f (seq 0 n)) d = f i.
Proof.
  intros H.
  rewrite (nth_indep _ d (f 0)) by (rewrite length_map, length_seq; exact H).
  rewrite (map_nth f), seq_nth by exact H; reflexivity.
Qed.

Lemma py_eqb_eq a b : Py.eqb a b = true <-> a = b.
Proof.
  unfold Py.eqb; destruct (list_eq_dec ascii_dec a b); split; auto; discriminate.
Qed.

Lemma api_error_looks_failed i e : looks_failed (api_error_entry i e) = true.
Proof.
  unfold looks_failed; apply orb_true_iff; left; apply PyFacts.contains_spec.
  exists [], (" (Text Gen - Variation " ++ Py.of_nat (i + 1) ++ "): " ++ e).
  reflexivity.
Qed.

(** C2, as stated, fails: with three variations asked for and the
    cancellation seen at the top of the second iteration, the list handed to
    the result callback has two entries, the first result and one entry for
    the cancelled batch. *)
Lemma C2_counterexample :
  num_variations_for_worker (demo_globals 3) = 3%Z
  /\ emitted_results
       (trace (run_text_generation (demo_globals 3) (cancelled_at (at_variation 1))
                 (text_worker 3)))
     = Some [("take 0" : str); batch_cancelled]
  /\ option_map (@length str)
       (emitted_results
          (trace (run_text_generation (demo_globals 3) (cancelled_at (at_variation 1))
                    (text_worker 3))))
     <> Some 3.
Proof.
  split; [reflexivity|].
  split; [vm_compute; reflexivity | vm_compute; discriminate].
Qed.

(** C2, amended: a text job for N variations hands the result callback a
    list of at most N entries.  The list has exactly N entries when no
    cancellation is seen at the top of an iteration, however many variations
    failed.  When the cancellation is first seen at the top of iteration i,
    the list has i + 1 entries: the i results so far and one entry for the
    cancelled batch; the remaining slots get no entry. *)
Theorem C2_result_list_length g quit_requested self :
  exists results,
    signals (trace (run_text_generation g quit_requested self))
    = [result_ready results; finished]
    /\ length results <= variation_count g
    /\ ((forall i, i < variation_count g -> quit_requested (at_variation i) = false) ->
        length results = variation_count g)
    /\ (forall i,
          i < variation_count g ->
          quit_requested (at_variation i) = true ->
          (forall j, j < i -> quit_requested (at_variation j) = false) ->
          length results = i + 1 /\ nth i results [] = batch_cancelled).
Proof.
  exists (text_results g quit_requested self); split; [apply run_text_generation_signals|].
  unfold text_results; split; [|split].
  - pose proof (text_loop_length_le g quit_requested self (seq 0 (variation_count g)) []) as H.
    rewrite length_seq in H; exact H.
  - intros H; rewrite text_loop_not_cancelled.
    + simpl; rewrite length_map, length_seq; reflexivity.
    + intros i Hi; apply H; apply in_seq in Hi; lia.
  - intros i Hi Hq Hbefore.
    rewrite (seq_split_at Hi), text_loop_cancelled; auto.
    + simpl; split.
      * rewrite length_app, length_map, length_seq; reflexivity.
      * rewrite app_nth2; rewrite length_map, length_seq; [|lia].
        rewrite Nat.sub_diag; reflexivity.
    + intros j Hj; apply Hbefore; apply in_seq in Hj; lia.
Qed.

Lemma C2_result_list_length_witness :
  exists results,
    signals (trace (run_text_generation (demo_globals 3) (cancelled_at (at_variation 1))
                      (text_worker 3)))
    = [result_ready results; finished]
    /\ length results = 2
    /\ nth 1 results [] = batch_cancelled.
Proof.
  destruct (C2_result_list_length (demo_globals 3) (cancelled_at (at_variation 1))
              (text_worker 3)) as (results & H1 & _ & _ & H4).
  exists results; split; [exact H1|].
  apply (H4 1).
  - vm_compute; lia.
  - reflexivity.
  - intros j Hj; destruct j; [reflexivity | lia].
Defined.

(** C3, as stated, fails for text jobs: with the text model never
    initialized (and the vision model available, so that the key counts as
    valid), a text job emits no error; the failure is an entry of the list
    handed to the result callback. *)
Lemma C3_counterexample :
  text_model (vision_only_globals 1) = None
  /\ trace (run (vision_only_globals 1) never_cancelled (text_worker 1))
     = [ result_ready
           [("API Error (Text Gen - Variation 1): Text model ('gemini-text') is not initialized. Cannot generate text-based prompt." : str)];
         finished ]
  /\ forall msg,
       ~ In (error_occurred msg)
           (trace (run (vision_only_globals 1) never_cancelled (text_worker 1))).
Proof.
  split; [reflexivity|].
  split; [vm_compute; reflexivity|].
  intros msg H; vm_compute in H.
  destruct H as [H | [H | []]]; discriminate.
Qed.

(** C3, amended: when a job's model was never initialized but the other
    one was, so that the key counts as valid: a vision job that is cancelled
    neither before it starts nor at its entry emits the error naming the
    vision model and then [finished], and calls no remote model; a text job
    that is not cancelled before it starts calls no remote model and emits no
    error: it hands the result callback a list in which every entry is the
    "API Error" entry naming the text model for some variation or a
    cancellation entry, and when no cancellation is seen it is that error
    entry for each of the N variations in order.  When the key does not
    count as valid, every job, text or vision, emits the error about the key,
    which names no model, and then [finished], and calls no remote model;
    and that is the case after every start at which neither model was
    initialized. *)
Theorem C3_model_not_initialized g quit_requested self :
  (GEMINI_API_KEY_VALID g = true -> vision_model g = None ->
   operation_type self = "vision" ->
   quit_requested at_run = false -> quit_requested at_vision_entry = false ->
   trace (run g quit_requested self)
   = [ error_occurred ("Vision model ('" ++ VISION_MODEL_NAME_TO_TRY g
                       ++ "') is not initialized.");
       finished ])
  /\ (GEMINI_API_KEY_VALID g = true -> text_model g = None ->
      operation_type self = "text" -> quit_requested at_run = false ->
      exists results,
        trace (run g quit_requested self) = [result_ready results; finished]
        /\ Forall (fun r =>
                     (exists i, r = api_error_entry i (text_model_not_initialized g))
                     \/ r = cancelled_by_user \/ r = batch_cancelled) results
        /\ ((forall c, quit_requested c = false) ->
            results = map (fun i => api_error_entry i (text_model_not_initialized g))
                        (seq 0 (variation_count g))))
  /\ (GEMINI_API_KEY_VALID g = false ->
      trace (run g quit_requested self)
      = [error_occurred "Gemini API key is not configured or invalid."; finished])
  /\ (forall env n,
        text_model (fst (Startup.configure env)) = None ->
        vision_model (fst (Startup.configure env)) = None ->
        trace (run (set_num_variations_for_worker (fst (Startup.configure env)) n)
                 quit_requested self)
        = [error_occurred "Gemini API key is not configured or invalid."; finished]).
Proof.
  split; [|split; [|split]].
  - intros Hkey Hv Hop Hr Hq; unfold run; rewrite Hkey, Hr, Hop; cbn [negb]; cbv iota.
    change (Py.eqb "vision" "text") with false;
      change (Py.eqb "vision" "vision") with true; cbv iota.
    unfold run_vision_generation; rewrite Hq, Hv; reflexivity.
  - intros Hkey Hm Hop Hr.
    assert (R : run g quit_requested self = run_text_generation g quit_requested self).
    { unfold run; rewrite Hkey, Hr, Hop; reflexivity. }
    rewrite R.
    exists (text_results g quit_requested self); split; [|split].
    + rewrite run_text_generation_trace, text_loop_no_model; auto.
    + unfold text_results.
      assert (G : forall indices acc,
                 Forall (fun r =>
                     (exists i, r = api_error_entry i (text_model_not_initialized g))
                     \/ r = cancelled_by_user \/ r = batch_cancelled) acc ->
                 Forall (fun r =>
                     (exists i, r = api_error_entry i (text_model_not_initialized g))
                     \/ r = cancelled_by_user \/ r = batch_cancelled)
                   (value (text_loop g quit_requested self indices acc))).
      { induction indices as [|i rest IH]; intros acc Hacc; [exact Hacc|].
        rewrite text_loop_step.
        destruct (quit_requested (at_variation i)).
        - apply Forall_app; split; [exact Hacc|].
          constructor; [right; right; reflexivity | constructor].
        - rewrite value_bind; apply IH, Forall_app; split; [exact Hacc|].
          constructor; [|constructor].
          rewrite core_value, Hm.
          destruct (quit_requested (at_core i)); eauto. }
      apply G; constructor.
    + intros Hq; unfold text_results; rewrite text_loop_not_cancelled by auto.
      simpl; apply map_ext; intros i; rewrite core_value, Hq, Hm; reflexivity.
  - intros Hkey; unfold run; rewrite Hkey; reflexivity.
  - intros env n Ht Hv; unfold run.
    change (GEMINI_API_KEY_VALID
              (set_num_variations_for_worker (fst (Startup.configure env)) n))
      with (GEMINI_API_KEY_VALID (fst (Startup.configure env))).
    destruct (GEMINI_API_KEY_VALID (fst (Startup.configure env))) eqn:K; [|reflexivity].
    apply configure_valid in K; destruct K as [K | K]; contradiction.
Qed.

Lemma C3_model_not_initialized_witness :
  trace (run (text_only_globals 1) never_cancelled (vision_worker (Some (pil 0))))
  = [ error_occurred "Vision model ('gemini-vision') is not initialized."; finished ]
  /\ (exists results,
        trace (run (vision_only_globals 2) never_cancelled (text_worker 2))
        = [result_ready results; finished]
        /\ results = map (fun i => api_error_entry i
                                     (text_model_not_initialized (vision_only_globals 2)))
                       [0; 1])
  /\ trace (run (set_num_variations_for_worker (fst (Startup.configure env_no_model)) 2%Z)
              never_cancelled (text_worker 2))
     = [error_occurred "Gemini API key is not configured or invalid."; finished].
Proof.
  split; [|split].
  - apply (proj1 (C3_model_not_initialized (text_only_globals 1) never_cancelled
                    (vision_worker (Some (pil 0))))); reflexivity.
  - destruct (proj1 (proj2 (C3_model_not_initialized (vision_only_globals 2)
                              never_cancelled (text_worker 2)))
                eq_refl eq_refl eq_refl eq_refl) as (results & H1 & _ & H3).
    exists results; split; [exact H1 | apply H3; reflexivity].
  - apply (proj2 (proj2 (proj2 (C3_model_not_initialized (demo_globals 1)
                                  never_cancelled (text_worker 2))))
             env_no_model 2%Z); reflexivity.
Defined.

(** C5: in a text job run by [run] with the text model available and no
    cancellation seen, the remote model is called once for every variation,
    in order; a call that raises is recorded as the "API Error" entry of its
    own variation, which the result handler takes for a failure, and a call
    that returns is recorded as its cleaned text; the list, one entry per
    variation, goes to the result callback, followed by [finished], and no
    error is emitted. *)
Theorem C5_partial_failure_isolation g quit_requested self model :
  GEMINI_API_KEY_VALID g = true ->
  operation_type self = "text" ->
  text_model g = Some model ->
  (forall c, quit_requested c = false) ->
  exists results,
    trace (run g quit_requested self)
    = map (fun i => text_generate_content
                      (gemini_prompt_payload g (query self) (context self) i))
        (seq 0 (variation_count g))
      ++ [result_ready results; finished]
    /\ length results = variation_count g
    /\ forall i, i < variation_count g ->
         match model i (gemini_prompt_payload g (query self) (context self) i) with
         | Returns text => nth i results [] = sanitize_text text
         | Raises e =>
             nth i results [] = api_error_entry i e
             /\ looks_failed (nth i results []) = true
         end.
Proof.
  intros Hkey Hop Hm Hq.
  exists (text_results g quit_requested self).
  assert (Hv : forall i, In i (seq 0 (variation_count g)) ->
                         quit_requested (at_variation i) = false) by auto.
  assert (R : text_results g quit_requested self
              = map (fun i =>
                  match model i (gemini_prompt_payload g (query self) (context self) i) with
                  | Returns text => sanitize_text text
                  | Raises e => api_error_entry i e
                  end) (seq 0 (variation_count g))).
  { unfold text_results; rewrite text_loop_not_cancelled by exact Hv.
    simpl; apply map_ext; intros i; rewrite core_value, Hq, Hm; reflexivity. }
  split; [|split].
  - unfold run; rewrite Hkey, Hq; cbn [negb].
    replace (Py.eqb (operation_type self) "text") with true
      by (symmetry; apply py_eqb_eq; exact Hop).
    rewrite run_text_generation_trace, text_loop_trace_not_cancelled by exact Hv.
    f_equal.
    rewrite (flat_map_ext _
               (fun i => [text_generate_content
                            (gemini_prompt_payload g (query self) (context self) i)])).
    + apply flat_map_singleton.
    + intros i; rewrite core_trace, Hq, Hm; reflexivity.
  - rewrite R, length_map, length_seq; reflexivity.
  - intros i Hi; rewrite R.
    rewrite nth_map_seq by exact Hi.
    destruct (model i _); [reflexivity | split; [reflexivity | apply api_error_looks_failed]].
Qed.

Lemma C5_partial_failure_isolation_witness :
  exists results,
    signals (trace (run (demo_globals 5) never_cancelled (text_worker 5)))
    = [result_ready results; finished]
    /\ length results = 5
    /\ nth 1 results [] = ("take 1" : str)
    /\ nth 2 results [] = api_error_entry 2 "quota exceeded"
    /\ nth 3 results [] = ("take 3" : str)
    /\ nth 4 results [] = api_error_entry 4 "quota exceeded".
Proof.
  destruct (@C5_partial_failure_isolation (demo_globals 5) never_cancelled (text_worker 5)
              demo_text_model eq_refl eq_refl eq_refl (fun _ => eq_refl))
    as (results & H1 & H2 & H3).
  exists results; split; [|split; [exact H2|]].
  - rewrite H1, signals_app; reflexivity.
  - assert (L : forall i, i < 5 -> i < variation_count (demo_globals 5))
      by (intros i Hi; exact Hi).
    pose proof (H3 1 (L 1 ltac:(lia))) as A1.
    pose proof (H3 2 (L 2 ltac:(lia))) as A2.
    pose proof (H3 3 (L 3 ltac:(lia))) as A3.
    pose proof (H3 4 (L 4 ltac:(lia))) as A4.
    repeat split; [exact A1 | exact (proj1 A2) | exact A3 | exact (proj1 A4)].
Defined.

(** C8, as stated, fails for the cancellation already requested: with a
    valid key, a vision job that finds the request when [run] starts emits
    [finished] and nothing else, no error, whether or not it has an image. *)
Lemma C8_counterexample :
  cancelled_from_the_start at_run = true
  /\ trace (run (demo_globals 1) cancelled_from_the_start (vision_worker None))
     = [finished]
  /\ trace (run (demo_globals 1) cancelled_from_the_start (vision_worker (Some (pil 0))))
     = [finished]
  /\ forall msg,
       ~ In (error_occurred msg)
           (trace (run (demo_globals 1) cancelled_from_the_start (vision_worker None))).
Proof.
  split; [reflexivity | split; [reflexivity | split; [reflexivity|]]].
  intros msg [H | []]; discriminate.
Qed.

(** C8, amended: with a valid key and no cancellation requested when [run]
    starts, a vision job with no image, or cancelled at the entry of the
    vision path, or without a vision model, emits one error and then
    [finished], and calls no remote model: the error is the cancellation
    when that is seen at the entry, else the one naming the vision model when
    there is none, else "No image provided to vision worker.".  When the
    cancellation is already requested as [run] starts, the job emits
    [finished] only.  Without a valid key it emits the error about the key
    and then [finished]. *)
Theorem C8_vision_preconditions g quit_requested self :
  operation_type self = "vision" ->
  (GEMINI_API_KEY_VALID g = true -> quit_requested at_run = false ->
   pil_image self = None \/ quit_requested at_vision_entry = true \/ vision_model g = None ->
   exists msg,
     trace (run g quit_requested self) = [error_occurred msg; finished]
     /\ trace (run_vision_generation g quit_requested self)
        = [error_occurred msg; finished]
     /\ (quit_requested at_vision_entry = true -> msg = cancelled_by_user)
     /\ (quit_requested at_vision_entry = false -> vision_model g = None ->
         msg = "Vision model ('" ++ VISION_MODEL_NAME_TO_TRY g ++ "') is not initialized.")
     /\ (quit_requested at_vision_entry = false -> vision_model g <> None ->
         msg = "No image provided to vision worker."
         /\ Py.startswith msg "No image provided" = true))
  /\ (GEMINI_API_KEY_VALID g = true -> quit_requested at_run = true ->
      trace (run g quit_requested self) = [finished])
  /\ (GEMINI_API_KEY_VALID g = false ->
      trace (run g quit_requested self)
      = [error_occurred "Gemini API key is not configured or invalid."; finished]).
Proof.
  intros Hop; split; [|split].
  - intros Hkey Hr H.
    assert (R : run g quit_requested self = run_vision_generation g quit_requested self).
    { unfold run; rewrite Hkey, Hr, Hop; reflexivity. }
    rewrite R; unfold run_vision_generation.
    destruct (quit_requested at_vision_entry).
    { eexists; split; [reflexivity | split; [reflexivity|]].
      split; [reflexivity | split; discriminate]. }
    destruct (vision_model g) as [model|].
    2:{ eexists; split; [reflexivity | split; [reflexivity|]].
        split; [discriminate | split; [reflexivity | intros _ N; contradiction]]. }
    destruct (pil_image self) as [image|].
    { destruct H as [H | [H | H]]; discriminate. }
    eexists; split; [reflexivity | split; [reflexivity|]].
    split; [discriminate | split; [discriminate | split; reflexivity]].
  - intros Hkey Hr; unfold run; rewrite Hkey, Hr; reflexivity.
  - intros Hkey; unfold run; rewrite Hkey; reflexivity.
Qed.

Lemma C8_vision_preconditions_witness :
  trace (run (demo_globals 1) never_cancelled (vision_worker None))
  = [error_occurred "No image provided to vision worker."; finished].
Proof.
  destruct (proj1 (@C8_vision_preconditions (demo_globals 1) never_cancelled
                     (vision_worker None) eq_refl)
              eq_refl eq_refl (or_introl eq_refl)) as (msg & H1 & _ & _ & _ & H5).
  destruct (H5 eq_refl ltac:(discriminate)) as [-> _].
  exact H1.
Defined.

(** * The payload of a variation *)

(** C9: when more than one variation is asked for, the payload of variation
    i > 0 is the payload of variation 0 followed by one instruction, the
    entry i mod 4 of the four-entry rotation between two fixed pieces of
    text; the payload of variation 0 ends with the user's request and has no
    such instruction. *)
Theorem C9_variation_payload g user_query context_instruction i :
  (1 < num_variations_for_worker g)%Z ->
  0 < i ->
  length variation_prompts = 4
  /\ In (nth (i mod 4) variation_prompts []) variation_prompts
  /\ gemini_prompt_payload g user_query context_instruction 0
     = system_instruction context_instruction
       ++ nl ++ nl ++ "User's Request Details (aim for high detail):" ++ nl
       ++ user_query
  /\ gemini_prompt_payload g user_query context_instruction i
     = gemini_prompt_payload g user_query context_instruction 0
       ++ nl ++ nl ++ "Instruction for this specific variation (out of several): "
       ++ nth (i mod 4) variation_prompts []
       ++ " Ensure maximum detail and output only the prompt.".
Proof.
  intros Hn Hi; split; [reflexivity|]; split; [|split].
  - apply nth_In; change (length variation_prompts) with 4.
    apply Nat.mod_upper_bound; discriminate.
  - unfold gemini_prompt_payload, variation_modifier.
    rewrite andb_false_r, !app_nil_r; reflexivity.
  - unfold gemini_prompt_payload, variation_modifier.
    apply Z.ltb_lt in Hn; apply Nat.ltb_lt in Hi; rewrite Hn, Hi, andb_false_r.
    cbn [andb]; change (length variation_prompts) with 4.
    rewrite !app_nil_r, <- !app_assoc; reflexivity.
Qed.

Lemma C9_variation_payload_witness :
  gemini_prompt_payload (demo_globals 6) "a red fox" "Basic Prompt" 5
  = gemini_prompt_payload (demo_globals 6) "a red fox" "Basic Prompt" 0
    ++ nl ++ nl ++ "Instruction for this specific variation (out of several): "
    ++ "Offer a slightly different creative and highly descriptive take on the same core idea, delivering only the prompt."
    ++ " Ensure maximum detail and output only the prompt.".
Proof.
  apply (@C9_variation_payload (demo_globals 6) "a red fox" "Basic Prompt" 5); [reflexivity | lia].
Defined.

(** * The result handler *)

Lemma looks_failed_spec text : looks_failed text = true <-> mentions_failure text.
Proof.
  unfold looks_failed, mentions_failure.
  rewrite orb_true_iff, !PyFacts.contains_spec; reflexivity.
Qed.

Lemma output_parts_length k results :
  length (output_parts k results) = length results.
Proof.
  revert k; induction results as [|r rs IH]; intros k; [reflexivity|].
  cbn [output_parts length]; rewrite IH; reflexivity.
Qed.

Lemma output_parts_nth k results i text :
  nth_error results i = Some text ->
  nth_error (output_parts k results) i
  = Some (if looks_failed text then failed_section (k + i) text
          else prompt_section (k + i) text).
Proof.
  revert k i; induction results as [|r rs IH]; intros k [|i] H; try discriminate.
  - cbn [nth_error] in H; injection H as ->.
    cbn [output_parts nth_error]; rewrite Nat.add_0_r.
    destruct (looks_failed text); reflexivity.
  - cbn [nth_error] in H; cbn [output_parts nth_error].
    rewrite (IH (k + 1) i H).
    replace (k + 1 + i) with (k + S i) by lia; reflexivity.
Qed.

Lemma has_errors_in_batch_spec results :
  has_errors_in_batch results = true
  <-> exists text, In text results /\ mentions_failure text.
Proof.
  unfold has_errors_in_batch; rewrite existsb_exists; split;
    intros (text & H1 & H2); exists text; split; auto; apply looks_failed_spec; exact H2.
Qed.

(** C10: the handler of a batch takes an entry for a failure exactly when
    "API Error" or "Operation cancelled" occurs in it, as written: the
    output it sets is the stripped join of one section for each entry, in
    order, under the heading "Variation i FAILED" when one of the two occurs
    in the entry and under "Prompt Variation i" when neither does, and it
    shows the warning about the batch and the status "Batch complete with
    issues." when one of the two occurs in some entry, and the status of a
    batch generated successfully when it occurs in none.  The entry recorded
    when the cancellation is seen at the top of an iteration, "Batch
    operation cancelled by user.", has neither, so the handler shows it under
    a "Prompt Variation" heading and, when nothing else failed, reports the
    batch as generated successfully. *)
Theorem C10_batch_cancelled_not_failed :
  (forall text,
      looks_failed text = true <->
      (exists a b, text = a ++ "API Error" ++ b)
      \/ (exists a b, text = a ++ "Operation cancelled" ++ b))
  /\ (forall g quit_requested self pre i post acc,
         (forall j, In j pre -> quit_requested (at_variation j) = false) ->
         quit_requested (at_variation i) = true ->
         exists results,
           value (text_loop g quit_requested self (pre ++ i :: post) acc)
           = results ++ ["Batch operation cancelled by user." : str])
  /\ looks_failed "Batch operation cancelled by user." = false
  /\ (forall i rest,
         output_parts i (("Batch operation cancelled by user." : str) :: rest)
         = ("--- Prompt Variation " ++ Py.of_nat (i + 1) ++ " ---" ++ nl
            ++ "Batch operation cancelled by user." ++ nl)
           :: output_parts (i + 1) rest)
  /\ (forall results,
         has_errors_in_batch (results ++ ["Batch operation cancelled by user." : str])
         = has_errors_in_batch results)
  /\ snd (_handle_gemini_results (demo_globals 2)
            {| gemini_thread := None; gemini_worker := None;
               output_text_edit := []; is_new_batch_start := None |}
            [("take 0" : str); ("Batch operation cancelled by user." : str)])
     = [status_message "Batch of 2 prompts generated successfully."]
  /\ (forall g self results,
         (1 < num_variations_for_worker g)%Z -> results <> [] ->
         exists sections,
           fst (_handle_gemini_results g self results)
           = setPlainText self (Py.strip (join (nl ++ nl) sections))
           /\ length sections = length results
           /\ (forall i text,
                 nth_error results i = Some text ->
                 (mentions_failure text ->
                  nth_error sections i = Some (failed_section i text))
                 /\ (~ mentions_failure text ->
                     nth_error sections i = Some (prompt_section i text)))
           /\ ((exists text, In text results /\ mentions_failure text) ->
               snd (_handle_gemini_results g self results)
               = [ warning_box "Batch Generation Issues"
                     "One or more prompt variations may have failed or were cancelled.";
                   status_message "Batch complete with issues." ])
           /\ ((forall text, In text results -> ~ mentions_failure text) ->
               snd (_handle_gemini_results g self results)
               = [ status_message
                     ("Batch of " ++ Py.of_Z (num_variations_for_worker g)
                      ++ " prompts generated successfully.") ]))
  /\ ~ mentions_failure "Batch operation cancelled by user."
  /\ (forall g self results,
         (1 < num_variations_for_worker g)%Z ->
         (forall text, In text results -> ~ mentions_failure text) ->
         snd (_handle_gemini_results g self
                (results ++ ["Batch operation cancelled by user." : str]))
         = [ status_message
               ("Batch of " ++ Py.of_Z (num_variations_for_worker g)
                ++ " prompts generated successfully.") ]).
Proof.
  assert (S : ~ mentions_failure "Batch operation cancelled by user.").
  { intros H; apply looks_failed_spec in H; vm_compute in H; discriminate. }
  assert (B : forall g self results,
             (1 < num_variations_for_worker g)%Z -> results <> [] ->
             _handle_gemini_results g self results
             = (setPlainText self (Py.strip (join (nl ++ nl) (output_parts 0 results))),
                if has_errors_in_batch results
                then [ warning_box "Batch Generation Issues"
                         "One or more prompt variations may have failed or were cancelled.";
                       status_message "Batch complete with issues." ]
                else [ status_message
                         ("Batch of " ++ Py.of_Z (num_variations_for_worker g)
                          ++ " prompts generated successfully.") ])).
  { intros g self results HN Hne; unfold _handle_gemini_results.
    destruct results as [|r rs]; [contradiction|].
    apply Z.ltb_lt in HN; rewrite HN; reflexivity. }
  split; [|split; [|split; [|split; [|split; [|split; [|split; [|split]]]]]]].
  - intros text; unfold looks_failed.
    rewrite orb_true_iff, !PyFacts.contains_spec; reflexivity.
  - intros g q self pre i post acc Hpre Hi.
    exists (acc ++ map (fun j => value (_generate_single_prompt_core g q
                                         (query self) (context self) j)) pre).
    rewrite text_loop_cancelled by assumption.
    rewrite app_assoc; reflexivity.
  - vm_compute; reflexivity.
  - intros i rest; reflexivity.
  - intros results; unfold has_errors_in_batch.
    rewrite existsb_app; simpl existsb.
    change (looks_failed "Batch operation cancelled by user.") with false.
    rewrite !orb_false_r; reflexivity.
  - vm_compute; reflexivity.
  - intros g self results HN Hne; rewrite (B g self results HN Hne); cbn [fst snd].
    exists (output_parts 0 results); split; [reflexivity|].
    split; [apply output_parts_length|].
    split; [|split].
    + intros i text Hi; rewrite (output_parts_nth 0 results i Hi); cbn [Nat.add].
      split; intros H.
      * apply looks_failed_spec in H; rewrite H; reflexivity.
      * destruct (looks_failed text) eqn:E; [|reflexivity].
        apply looks_failed_spec in E; contradiction.
    + intros H; apply has_errors_in_batch_spec in H; rewrite H; reflexivity.
    + intros H; destruct (has_errors_in_batch results) eqn:E; [|reflexivity].
      apply has_errors_in_batch_spec in E; destruct E as (text & E1 & E2).
      destruct (H text E1 E2).
  - exact S.
  - intros g self results HN H.
    rewrite B by (exact HN || (destruct results; discriminate)); cbn [snd].
    destruct (has_errors_in_batch _) eqn:E; [|reflexivity].
    apply has_errors_in_batch_spec in E; destruct E as (text & E1 & E2).
    apply in_app_or in E1; destruct E1 as [E1 | [<- | []]];
      [destruct (H text E1 E2) | destruct (S E2)].
Qed.

Lemma C10_batch_cancelled_not_failed_witness :
  exists results,
    value (text_loop (demo_globals 3) (cancelled_at (at_variation 1)) (text_worker 3)
             ([0] ++ 1 :: [2]) [])
    = results ++ ["Batch operation cancelled by user." : str].
Proof.
  destruct C10_batch_cancelled_not_failed as (_ & H & _).
  apply H.
  - intros j [<- | []]; reflexivity.
  - reflexivity.
Defined.

(** * Admitting a job *)


(** Every submission, admitted or not, writes its variation count to the
    global the worker reads. *)
Lemma trigger_sets_variation_count g self query context num_vars op_type image clear :
  num_variations_for_worker
    (fst (fst (_trigger_gemini_operation g self query context num_vars op_type image clear)))
  = num_vars.
Proof.
  unfold _trigger_gemini_operation.
  destruct (gemini_thread self) as [[[|]]|]; reflexivity.
Qed.

(** With no thread running the submission is admitted: a worker is made for
    it and its thread started. *)
Lemma idle_accepts g self query context num_vars op_type image clear :
  (forall thread, gemini_thread self = Some thread -> isRunning thread = false) ->
  let worker := {| query := query; context := context; num_variations := num_vars;
                   operation_type := op_type; pil_image := image |} in
  let after := _trigger_gemini_operation g self query context num_vars op_type image clear in
  gemini_thread (snd (fst after)) = Some {| isRunning := true |}
  /\ gemini_worker (snd (fst after)) = Some worker
  /\ In (thread_started worker) (snd after).
Proof.
  intros H; cbv zeta; unfold _trigger_gemini_operation.
  destruct (gemini_thread self) as [thread|] eqn:E.
  - rewrite (H thread eq_refl); cbn; auto.
  - cbn; auto.
Qed.



(** * The claims about the clean-up *)

(** C6: the prefix phrases are tried in order without regard to case; the
    first one that begins the stripped text is removed, exactly its length
    of characters, with the white space after it, and the text left is not
    tried against the prefixes again.  Only a text answer then loses a known
    ending (with the white space before it); a vision answer keeps the end
    of the stripped text.  The result has no white space at either end.  An
    answer in which none of the known phrases occurs comes out as the
    stripped answer.  The clean-up is a total function: it returns on every
    input. *)
Theorem C6_sanitizer_contract (kind : operation_kind) (raw : str) :
  (forall pre phrase post head rest,
      known_starts kind = pre ++ phrase :: post ->
      no_start pre (Py.strip raw) ->
      Py.strip raw = head ++ rest ->
      Py.lower head = Py.lower phrase ->
      length head = length phrase
      /\ sanitize kind raw
         = match kind with
           | TEXT => Py.strip (strip_end unwanted_ends (Py.lstrip rest))
           | VISION => Py.lstrip rest
           end)
  /\ (forall pre phrase post front tail,
         unwanted_ends = pre ++ phrase :: post ->
         no_end pre (strip_start unwanted_starts (Py.strip raw)) ->
         strip_start unwanted_starts (Py.strip raw) = front ++ tail ->
         Py.lower tail = Py.lower phrase ->
         sanitize TEXT raw = Py.strip (Py.rstrip front))
  /\ (exists front, Py.strip raw = front ++ sanitize VISION raw)
  /\ Py.strip (sanitize kind raw) = sanitize kind raw
  /\ (no_boilerplate kind raw -> sanitize kind raw = Py.strip raw).
Proof.
  split; [|split; [|split; [|split]]].
  - intros pre phrase post head rest Hl Hpre Hs Hhead; split.
    + rewrite <- (PyFacts.lower_length head), Hhead; apply PyFacts.lower_length.
    + rewrite Hs in Hpre.
      destruct kind; simpl in Hl |- *; unfold sanitize_text, sanitize_vision;
        rewrite Hl, Hs, (@strip_start_first_match pre phrase post head rest Hpre Hhead);
        reflexivity.
  - intros pre phrase post front tail Hl Hpre Hs Htail.
    change (sanitize TEXT raw)
      with (Py.strip (strip_end unwanted_ends
                        (strip_start unwanted_starts (Py.strip raw)))).
    rewrite Hs in Hpre |- *; rewrite Hl.
    rewrite (@strip_end_first_match pre phrase post front tail); auto.
    intros ->.
    assert (In ([] : str) unwanted_ends) as Hin
      by (rewrite Hl; apply in_or_app; right; left; reflexivity).
    vm_compute in Hin; intuition discriminate.
  - simpl; unfold sanitize_vision; apply strip_start_suffix.
  - apply sanitize_trimmed.
  - intros H; apply sanitize_no_match;
      [apply no_boilerplate_start | apply no_boilerplate_end]; exact H.
Qed.

Lemma C6_sanitizer_contract_witness :
  sanitize TEXT "  A quiet harbour at dawn, soft light.  "
  = ("A quiet harbour at dawn, soft light." : str)
  /\ sanitize TEXT "HERE'S THE PROMPT:   Prompt: a red fox"
     = ("Prompt: a red fox" : str).
Proof.
  split.
  - apply (proj2 (proj2 (proj2 (proj2
             (C6_sanitizer_contract TEXT "  A quiet harbour at dawn, soft light.  "))))).
    intros p H; each_phrase H.
  - apply (proj1 (C6_sanitizer_contract TEXT "HERE'S THE PROMPT:   Prompt: a red fox")
             (map lit ["Okay, here's the prompt:"; "Okay, here is the prompt:"])
             ("Here's the prompt:" : str)
             (skipn 3 unwanted_starts)
             ("HERE'S THE PROMPT:" : str)
             ("   Prompt: a red fox" : str)).
    + reflexivity.
    + intros p H; each_phrase H.
    + reflexivity.
    + reflexivity.
Defined.

(** C7, as stated, fails: only one prefix is removed in a pass, so an answer
    that repeats a known prefix is cleaned further by a second pass, for a
    text answer and for a vision answer. *)
Lemma C7_counterexample :
  sanitize TEXT "Prompt: Prompt: a red fox" = ("Prompt: a red fox" : str)
  /\ sanitize TEXT (sanitize TEXT "Prompt: Prompt: a red fox") = ("a red fox" : str)
  /\ sanitize TEXT (sanitize TEXT "Prompt: Prompt: a red fox")
     <> sanitize TEXT "Prompt: Prompt: a red fox"
  /\ sanitize VISION (sanitize VISION "Prompt: Prompt: a red fox")
     <> sanitize VISION "Prompt: Prompt: a red fox".
Proof.
  split; [vm_compute; reflexivity|].
  split; [vm_compute; reflexivity|].
  split; vm_compute; discriminate.
Qed.

(** C7, amended: cleaning a second time changes nothing whenever the
    cleaned answer does not itself begin with a known prefix phrase of its
    kind nor, for a text answer, end with a known suffix phrase, case
    ignored; in particular for every answer in which no known phrase
    occurs. *)
Theorem C7_sanitize_idempotent_when_clean (kind : operation_kind) (x : str) :
  no_start (known_starts kind) (sanitize kind x) ->
  no_end (known_ends kind) (sanitize kind x) ->
  sanitize kind (sanitize kind x) = sanitize kind x.
Proof.
  intros Hs He; pose proof (sanitize_trimmed kind x) as T.
  rewrite sanitize_no_match; rewrite T; auto.
Qed.

Lemma C7_sanitize_idempotent_when_clean_witness :
  sanitize TEXT (sanitize TEXT "Here's the prompt: a red fox Hope this helps!")
  = sanitize TEXT "Here's the prompt: a red fox Hope this helps!".
Proof.
  apply C7_sanitize_idempotent_when_clean; intros p H; each_phrase H.
Defined.

(** * What the start of the module decides *)

(** X1: after the configuration block the key counts as valid exactly when
    at least one of the two models was initialized; and a model is set only
    when the key was found, every step before the models passed and the
    model's own initialization succeeded. *)
Theorem X1_key_valid_iff_some_model (env : Startup.Environment) :
  let g := fst (Startup.configure env) in
  (GEMINI_API_KEY_VALID g = true <-> text_model g <> None \/ vision_model g <> None)
  /\ (forall m, text_model g = Some m ->
        Startup.text_init env = Startup.Initialized m
        /\ Startup.load_dotenv env = Startup.Passed
        /\ Startup.configure_and_list_models env = Startup.Passed
        /\ exists c k, Startup.GEMINI_API_KEY env = Some (c :: k))
  /\ (forall m, vision_model g = Some m ->
        Startup.vision_init env = Startup.Initialized m
        /\ Startup.load_dotenv env = Startup.Passed
        /\ Startup.configure_and_list_models env = Startup.Passed
        /\ exists c k, Startup.GEMINI_API_KEY env = Some (c :: k)).
Proof.
  cbv zeta.
  destruct (configure_cases env) as [(E & L & C & K) | (E & N)].
  - rewrite E, initialize_models_valid, initialize_models_text, initialize_models_vision.
    split; [|split].
    + rewrite <- initialize_models_valid, <- initialize_models_text,
        <- initialize_models_vision, <- E; apply configure_valid.
    + intros m H; destruct (Startup.text_init env); inversion H; subst; auto.
    + intros m H; destruct (Startup.vision_init env); inversion H; subst; auto.
  - rewrite E; simpl; split; [|split]; try discriminate.
    split; [discriminate | intros [H | H]; contradiction].
Qed.

(** X2: the window shows a dialog at its start exactly when something did
    not initialize: no dialog is shown if and only if the key was found, the
    steps before the models passed and both models were initialized.  When
    the key is missing the one dialog is the "API Key Error" box with the
    message of the missing key. *)
Theorem X2_startup_dialogs (env : Startup.Environment) :
  let g := fst (Startup.configure env) in
  let ERROR_MSG := snd (Startup.configure env) in
  (Startup.startup_dialogs g ERROR_MSG = [] <->
   Startup.load_dotenv env = Startup.Passed
   /\ Startup.configure_and_list_models env = Startup.Passed
   /\ (exists c k, Startup.GEMINI_API_KEY env = Some (c :: k))
   /\ (exists m, Startup.text_init env = Startup.Initialized m)
   /\ (exists m, Startup.vision_init env = Startup.Initialized m))
  /\ (Startup.load_dotenv env = Startup.Passed ->
      Startup.GEMINI_API_KEY env = None \/ Startup.GEMINI_API_KEY env = Some [] ->
      Startup.startup_dialogs g ERROR_MSG
      = [ critical_box "API Key Error"
            ("GEMINI_API_KEY not found in environment or .env file." ++ nl
             ++ "Please set the GEMINI_API_KEY in a .env file or your system environment and restart.") ]).
Proof.
  cbv zeta; split.
  - destruct (configure_cases env) as [(E & L & C & K) | (E & N)].
    + rewrite E; unfold Startup.startup_dialogs.
      rewrite initialize_models_valid, initialize_models_text, initialize_models_vision.
      destruct (Startup.text_init env) as [mt|et], (Startup.vision_init env) as [mv|ev];
        cbn [negb andb app];
        try (split; [discriminate | intros (_ & _ & _ & [m H] & [m' H']); discriminate]).
      * split; [intros _; repeat split; eauto | reflexivity].
      * destruct (Py.contains _ _);
          (split; [discriminate | intros (_ & _ & _ & [m H] & _); discriminate]).
    + split.
      * unfold Startup.startup_dialogs; rewrite E; simpl.
        destruct (Py.contains _ _); discriminate.
      * intros (L & C & K & _); exfalso; apply N; auto.
  - intros L K; unfold Startup.configure; rewrite L.
    destruct K as [-> | ->]; reflexivity.
Qed.

Lemma X1_key_valid_iff_some_model_witness :
  GEMINI_API_KEY_VALID (fst (Startup.configure env_vision_only)) = true
  /\ text_model (fst (Startup.configure env_vision_only)) = None
  /\ Startup.vision_init env_vision_only = Startup.Initialized demo_vision_model.
Proof.
  destruct (X1_key_valid_iff_some_model env_vision_only) as (H1 & _ & H3).
  split; [apply H1; right; discriminate|].
  split; [reflexivity|].
  apply (H3 demo_vision_model); reflexivity.
Defined.

Lemma X2_startup_dialogs_witness :
  Startup.startup_dialogs (fst (Startup.configure env_without_key))
    (snd (Startup.configure env_without_key))
  = [ critical_box "API Key Error"
        ("GEMINI_API_KEY not found in environment or .env file." ++ nl
         ++ "Please set the GEMINI_API_KEY in a .env file or your system environment and restart.") ].
Proof.
  apply (proj2 (X2_startup_dialogs env_without_key)); [reflexivity | left; reflexivity].
Defined.

(** X3: a job run after a start at which neither model was initialized ends
    in the error about the key, whatever it asks for and whenever it is
    cancelled, and calls no remote model.  After a start at which the vision
    model was initialized and the text model was not, a text job that is not
    cancelled before it starts emits no error at all: it hands its list to
    the result callback. *)
Theorem X3_jobs_after_startup (env : Startup.Environment) quit_requested self :
  let g := fst (Startup.configure env) in
  (text_model g = None -> vision_model g = None ->
   trace (run g quit_requested self)
   = [error_occurred "Gemini API key is not configured or invalid."; finished])
  /\ (text_model g = None -> vision_model g <> None ->
      operation_type self = "text" -> quit_requested at_run = false ->
      trace (run g quit_requested self)
      = [result_ready (text_results g quit_requested self); finished]).
Proof.
  cbv zeta.
  pose proof (configure_valid env) as V.
  split.
  - intros Ht Hv; unfold run.
    destruct (GEMINI_API_KEY_VALID (fst (Startup.configure env))); [|reflexivity].
    destruct (proj1 V eq_refl) as [H | H]; contradiction.
  - intros Ht Hv Hop Hq; unfold run.
    rewrite (proj2 V (or_intror Hv)), Hq, Hop; cbn [negb].
    change (Py.eqb "text" "text") with true; cbv iota.
    rewrite run_text_generation_trace, text_loop_no_model by exact Ht; reflexivity.
Qed.

Lemma X3_jobs_after_startup_witness :
  trace (run (fst (Startup.configure env_no_model)) never_cancelled (text_worker 1))
  = [error_occurred "Gemini API key is not configured or invalid."; finished]
  /\ trace (run (fst (Startup.configure env_vision_only)) never_cancelled (text_worker 1))
     = [ result_ready
           (text_results (fst (Startup.configure env_vision_only)) never_cancelled
              (text_worker 1));
         finished ].
Proof.
  split.
  - apply (proj1 (X3_jobs_after_startup env_no_model never_cancelled (text_worker 1)));
      reflexivity.
  - apply (proj2 (X3_jobs_after_startup env_vision_only never_cancelled (text_worker 1)));
      [reflexivity | discriminate | reflexivity | reflexivity].
Defined.

(** * The counter of variations *)

Section CounterFacts.
Import Counter.

Lemma press_max self c : MAX_VARIATIONS (press self c) = MAX_VARIATIONS self.
Proof.
  destruct c; unfold press, _decrease_basic_variations, _increase_basic_variations.
  - destruct (1 <? basic_batch_count self)%Z; reflexivity.
  - destruct (basic_batch_count self <? MAX_VARIATIONS self)%Z; reflexivity.
Qed.

Lemma press_bounds self c :
  (1 <= basic_batch_count self <= MAX_VARIATIONS self)%Z ->
  (1 <= basic_batch_count (press self c) <= MAX_VARIATIONS self)%Z.
Proof.
  intros H; destruct c; unfold press, _decrease_basic_variations, _increase_basic_variations.
  - destruct (1 <? basic_batch_count self)%Z eqn:E; simpl; [|exact H].
    apply Z.ltb_lt in E; lia.
  - destruct (basic_batch_count self <? MAX_VARIATIONS self)%Z eqn:E; simpl; [|exact H].
    apply Z.ltb_lt in E; lia.
Qed.

Lemma press_in_step self c : in_step (press self c) \/ press self c = self.
Proof.
  destruct c; unfold press, _decrease_basic_variations, _increase_basic_variations.
  - destruct (1 <? basic_batch_count self)%Z; [left; repeat split | right; reflexivity].
  - destruct (basic_batch_count self <? MAX_VARIATIONS self)%Z;
      [left; repeat split | right; reflexivity].
Qed.

End CounterFacts.

(** X4: whatever buttons are pressed, the count stays between 1 and the
    maximum, and the maximum stays what it was; from the state the window
    starts in, the count is between 1 and 10. *)
Theorem X4_count_stays_in_range (self : Counter.VariationCounter) (cs : list Counter.click) :
  (1 <= Counter.basic_batch_count self <= Counter.MAX_VARIATIONS self)%Z ->
  (1 <= Counter.basic_batch_count (Counter.presses self cs)
   <= Counter.MAX_VARIATIONS self)%Z
  /\ Counter.MAX_VARIATIONS (Counter.presses self cs) = Counter.MAX_VARIATIONS self.
Proof.
  unfold Counter.presses; revert self; induction cs as [|c cs IH]; intros self H; simpl.
  - split; [exact H | reflexivity].
  - destruct (IH (Counter.press self c)) as [B M].
    + rewrite press_max; apply press_bounds, H.
    + rewrite press_max in B, M; split; assumption.
Qed.

Lemma X4_count_stays_in_range_witness :
  (1 <= Counter.basic_batch_count
          (Counter.presses Counter.initial
             [Counter.Minus; Counter.Plus; Counter.Plus; Counter.Minus; Counter.Minus])
   <= 10)%Z.
Proof.
  apply (X4_count_stays_in_range Counter.initial
           [Counter.Minus; Counter.Plus; Counter.Plus; Counter.Minus; Counter.Minus]).
  simpl; lia.
Defined.

(** X5: the display and the two buttons are brought in step with the count
    by every press that changes it, and only by those.  So after any presses
    either they are in step, or nothing has changed yet; and the window
    starts out of step, with the minus button enabled at a count of 1, where
    pressing it does nothing. *)
Theorem X5_buttons_in_step_after_change (self : Counter.VariationCounter)
    (cs : list Counter.click) :
  (Counter.in_step (Counter.presses self cs) \/ Counter.presses self cs = self)
  /\ ~ Counter.in_step Counter.initial
  /\ Counter.press Counter.initial Counter.Minus = Counter.initial.
Proof.
  split; [|split].
  - unfold Counter.presses.
    rewrite <- (rev_involutive cs); induction (rev cs) as [|c l IH]; simpl.
    + right; reflexivity.
    + rewrite fold_left_app; simpl.
      destruct (press_in_step (fold_left Counter.press (rev l) self) c) as [H | H].
      * left; exact H.
      * rewrite H; exact IH.
  - intros (_ & H & _); discriminate.
  - reflexivity.
Qed.

(** X6: a press on plus that has room, followed by a press on minus, gives
    back the count; if the display and buttons were in step, it gives back
    the whole state. *)
Theorem X6_plus_then_minus (self : Counter.VariationCounter) :
  (1 <= Counter.basic_batch_count self < Counter.MAX_VARIATIONS self)%Z ->
  Counter.basic_batch_count
    (Counter._decrease_basic_variations (Counter._increase_basic_variations self))
  = Counter.basic_batch_count self
  /\ (Counter.in_step self ->
      Counter._decrease_basic_variations (Counter._increase_basic_variations self) = self).
Proof.
  intros [H1 H2].
  unfold Counter._increase_basic_variations.
  destruct (Z.ltb_spec (Counter.basic_batch_count self) (Counter.MAX_VARIATIONS self)); [|lia].
  unfold Counter._decrease_basic_variations; cbn [Counter._update_basic_variation_display
    Counter.set_count Counter.basic_batch_count Counter.MAX_VARIATIONS].
  destruct (Z.ltb_spec 1 (Counter.basic_batch_count self + 1)); [|lia].
  cbn [Counter._update_basic_variation_display
    Counter.set_count Counter.basic_batch_count Counter.MAX_VARIATIONS].
  replace (Counter.basic_batch_count self + 1 - 1)%Z
    with (Counter.basic_batch_count self) by lia.
  split; [reflexivity|].
  intros (D & A & B); destruct self; simpl in *; subst; reflexivity.
Qed.

Lemma X6_plus_then_minus_witness :
  Counter.basic_batch_count
    (Counter._decrease_basic_variations
       (Counter._increase_basic_variations Counter.initial))
  = 1%Z.
Proof.
  apply (proj1 (X6_plus_then_minus Counter.initial
                  ltac:(simpl; lia))).
Defined.

(** * The "Generate" buttons *)

Lemma trigger_events g self query context num_vars op_type image clear :
  snd (_trigger_gemini_operation g self query context num_vars op_type image clear)
  = if running self then [busy_box]
    else [ set_ui_for_generation true
             ("Starting " ++ context ++ " generation (" ++ Py.of_Z num_vars ++ " var)...");
           thread_started {| query := query; context := context;
                             num_variations := num_vars; operation_type := op_type;
                             pil_image := image |} ].
Proof.
  unfold _trigger_gemini_operation, running.
  destruct (gemini_thread self) as [[[|]]|]; reflexivity.
Qed.

Lemma trigger_busy_window g self query context num_vars op_type image clear :
  running self = true ->
  snd (fst (_trigger_gemini_operation g self query context num_vars op_type image clear))
  = self.
Proof.
  unfold _trigger_gemini_operation, running.
  destruct (gemini_thread self) as [[[|]]|]; try discriminate; reflexivity.
Qed.

Lemma trigger_idle_window g self query context num_vars op_type image clear :
  running self = false ->
  snd (fst (_trigger_gemini_operation g self query context num_vars op_type image clear))
  = {| gemini_thread := Some {| isRunning := true |};
       gemini_worker := Some {| query := query; context := context;
                                num_variations := num_vars; operation_type := op_type;
                                pil_image := image |};
       output_text_edit :=
         output_text_edit (clear_output_for_new_job self num_vars clear);
       is_new_batch_start :=
         is_new_batch_start (clear_output_for_new_job self num_vars clear) |}.
Proof.
  unfold _trigger_gemini_operation, running.
  destruct (gemini_thread self) as [[[|]]|] eqn:E; try discriminate.
  - intros _; unfold start_job, clear_output_for_new_job; cbn.
    destruct (clear && _); reflexivity.
  - intros _; unfold start_job, clear_output_for_new_job; cbn.
    destruct (clear && _); reflexivity.
Qed.

Lemma truthy_false s : truthy s = false <-> s = [].
Proof. destruct s; split; auto; discriminate. Qed.

Lemma basic_request_none idea loaded_prompt mod_instructions :
  basic_request_details idea loaded_prompt mod_instructions = None
  <-> idea = [] /\ loaded_prompt = [].
Proof.
  unfold basic_request_details; destruct loaded_prompt, idea; split;
    try discriminate; auto; intros [H1 H2]; discriminate.
Qed.

Lemma basic_request_shape idea loaded_prompt mod_instructions :
  match basic_request_details idea loaded_prompt mod_instructions with
  | None => True
  | Some d =>
      (exists a, d = a ++ "Ensure the output is ONLY the generated prompt string.")
      /\ (loaded_prompt <> [] ->
          exists b,
            d = "Base existing prompt to work with:" ++ nl ++ backticks ++ nl
                ++ loaded_prompt ++ nl ++ backticks ++ nl ++ b)
  end.
Proof.
  unfold basic_request_details.
  destruct loaded_prompt as [|c l]; cbv beta iota zeta.
  - destruct idea as [|i idea]; cbv beta iota; [exact I|].
    split; [|intros H; contradiction].
    exists ("Generate from core idea: " ++ (i :: idea) ++ nl).
    rewrite <- !app_assoc; reflexivity.
  - split.
    + match goal with
      | |- exists a, ?p ++ nl ++ ?q ++ nl ++ ?x ++ nl ++ ?r ++ nl ++ ?m ++ ?t = _ =>
          exists (p ++ nl ++ q ++ nl ++ x ++ nl ++ r ++ nl ++ m)
      end.
      rewrite <- !app_assoc; reflexivity.
    + intros _; eexists; reflexivity.
Qed.

(** X7: the Basic button does nothing but warn "Input Missing" exactly when
    the core idea and the loaded prompt are both empty once stripped; then no
    job is submitted and neither the window nor the globals change. *)
Theorem X7_basic_needs_input g self (tab : BasicTab) (basic_batch_count : Z) :
  (snd (_trigger_gemini_basic_generation g self tab basic_batch_count)
   = [missing_input_basic]
   <-> Py.strip (basic_idea_text tab) = [] /\ Py.strip (basic_load_text tab) = [])
  /\ (Py.strip (basic_idea_text tab) = [] -> Py.strip (basic_load_text tab) = [] ->
      _trigger_gemini_basic_generation g self tab basic_batch_count
      = (g, self, [missing_input_basic])).
Proof.
  unfold _trigger_gemini_basic_generation; split.
  - destruct (basic_request_details _ _ _) as [d|] eqn:E.
    + rewrite trigger_events; split.
      * destruct (running _); discriminate.
      * intros H.
        rewrite (proj2 (basic_request_none _ _
                          (Py.strip (basic_modify_instructions tab))) H) in E.
        discriminate.
    + split; [intros _; apply basic_request_none with (1 := E) | reflexivity].
  - intros H1 H2; rewrite H1, H2; reflexivity.
Qed.

Lemma X7_basic_needs_input_witness :
  _trigger_gemini_basic_generation (demo_globals 1) idle_window
    {| basic_idea_text := "   "; basic_load_text := [];
       basic_modify_instructions := "make it night" |} 3
  = (demo_globals 1, idle_window, [missing_input_basic]).
Proof.
  apply (proj2 (X7_basic_needs_input (demo_globals 1) idle_window
                  {| basic_idea_text := "   "; basic_load_text := [];
                     basic_modify_instructions := "make it night" |} 3));
    reflexivity.
Defined.

(** X8: when no job is running and there is input, the Basic button starts
    a text job for the count of variations shown: the worker gets the request
    built from the fields, which ends with the instruction to return only the
    prompt and, if a prompt was loaded, begins by quoting it; the global count
    is set to the count shown; and the output area is cleared whatever the
    count is. *)
Theorem X8_basic_starts_job g self (tab : BasicTab) (basic_batch_count : Z) :
  running self = false ->
  Py.strip (basic_idea_text tab) <> [] \/ Py.strip (basic_load_text tab) <> [] ->
  let after := _trigger_gemini_basic_generation g self tab basic_batch_count in
  exists details,
    gemini_worker (snd (fst after))
    = Some {| query := details; context := "Basic Prompt";
              num_variations := basic_batch_count;
              operation_type := "text"; pil_image := None |}
    /\ In (thread_started {| query := details; context := "Basic Prompt";
                             num_variations := basic_batch_count;
                             operation_type := "text"; pil_image := None |})
          (snd after)
    /\ (exists a,
          details = a ++ "Ensure the output is ONLY the generated prompt string.")
    /\ (Py.strip (basic_load_text tab) <> [] ->
        exists b,
          details = "Base existing prompt to work with:" ++ nl ++ backticks ++ nl
                    ++ Py.strip (basic_load_text tab) ++ nl ++ backticks ++ nl ++ b)
    /\ running (snd (fst after)) = true
    /\ output_text_edit (snd (fst after)) = []
    /\ is_new_batch_start (snd (fst after)) = Some false
    /\ num_variations_for_worker (fst (fst after)) = basic_batch_count.
Proof.
  intros Hidle Hin; cbv zeta; unfold _trigger_gemini_basic_generation.
  destruct (basic_request_details _ _ _) as [d|] eqn:E.
  2:{ apply basic_request_none in E; destruct E, Hin; contradiction. }
  exists d.
  rewrite trigger_events, trigger_sets_variation_count, trigger_idle_window
    by exact Hidle.
  change (running (set_is_new_batch_start self true)) with (running self).
  rewrite Hidle; cbn.
  repeat split; auto.
  - pose proof (basic_request_shape (Py.strip (basic_idea_text tab))
                  (Py.strip (basic_load_text tab))
                  (Py.strip (basic_modify_instructions tab))) as S.
    rewrite E in S; apply S.
  - pose proof (basic_request_shape (Py.strip (basic_idea_text tab))
                  (Py.strip (basic_load_text tab))
                  (Py.strip (basic_modify_instructions tab))) as S.
    rewrite E in S; apply S.
  - unfold clear_output_for_new_job; cbn; rewrite orb_true_r; reflexivity.
  - unfold clear_output_for_new_job; cbn; rewrite orb_true_r; reflexivity.
Qed.

Lemma X8_basic_starts_job_witness :
  exists details,
    gemini_worker
      (snd (fst (_trigger_gemini_basic_generation (demo_globals 1) idle_window
                   sample_basic_tab 3)))
    = Some {| query := details; context := "Basic Prompt"; num_variations := 3;
              operation_type := "text"; pil_image := None |}
    /\ output_text_edit
         (snd (fst (_trigger_gemini_basic_generation (demo_globals 1) idle_window
                      sample_basic_tab 3))) = [].
Proof.
  assert (Hin : Py.strip (basic_idea_text sample_basic_tab) <> []
                \/ Py.strip (basic_load_text sample_basic_tab) <> [])
    by (left; vm_compute; discriminate).
  destruct (@X8_basic_starts_job (demo_globals 1) idle_window sample_basic_tab 3
              eq_refl Hin)
    as (details & H1 & _ & _ & _ & _ & H6 & _).
  exists details; split; assumption.
Defined.

(** X9: which fields of the Basic tab count.  With a loaded prompt and
    modification instructions the core idea is not used; without a loaded
    prompt the modification instructions are not used. *)
Theorem X9_basic_fields_ignored g self (tab : BasicTab) (basic_batch_count : Z)
    (other : str) :
  (Py.strip (basic_load_text tab) <> [] ->
   Py.strip (basic_modify_instructions tab) <> [] ->
   _trigger_gemini_basic_generation g self (with_idea tab other) basic_batch_count
   = _trigger_gemini_basic_generation g self tab basic_batch_count)
  /\ (Py.strip (basic_load_text tab) = [] ->
      _trigger_gemini_basic_generation g self (with_modify_instructions tab other)
        basic_batch_count
      = _trigger_gemini_basic_generation g self tab basic_batch_count).
Proof.
  unfold _trigger_gemini_basic_generation, basic_request_details; simpl; split.
  - intros Hl Hm.
    destruct (Py.strip (basic_load_text tab)); [contradiction|].
    destruct (Py.strip (basic_modify_instructions tab)); [contradiction|].
    reflexivity.
  - intros Hl; rewrite Hl; reflexivity.
Qed.

Lemma X9_basic_fields_ignored_witness :
  _trigger_gemini_basic_generation (demo_globals 1) idle_window
    (with_idea sample_basic_tab "a blue whale") 2
  = _trigger_gemini_basic_generation (demo_globals 1) idle_window sample_basic_tab 2.
Proof.
  apply (proj1 (X9_basic_fields_ignored (demo_globals 1) idle_window sample_basic_tab 2
                  "a blue whale")); vm_compute; discriminate.
Defined.

Lemma active_nil components :
  active components = [] <-> Forall (fun kv => snd kv = []) components.
Proof.
  unfold active; induction components as [|[k v] l IH]; simpl.
  - split; auto.
  - destruct v as [|c v]; simpl; split.
    + intros H; constructor; [reflexivity | apply IH, H].
    + intros H; inversion H; subst; apply IH; assumption.
    + discriminate.
    + intros H; inversion H as [|? ? H1 H2]; discriminate.
Qed.

Lemma in_active kv components :
  In kv components -> snd kv <> [] -> In kv (active components).
Proof.
  intros H N; apply filter_In; split; [exact H|].
  destruct kv as [k [|c v]]; [contradiction | reflexivity].
Qed.

Lemma join_contains sep parts p :
  In p parts -> exists a b, join sep parts = a ++ p ++ b.
Proof.
  induction parts as [|q parts IH]; intros H; [destruct H|].
  destruct H as [-> | H].
  - destruct parts as [|r parts].
    + exists [], []; simpl; symmetry; apply app_nil_r.
    + exists [], (sep ++ join sep (r :: parts)); reflexivity.
  - destruct parts as [|r parts]; [destruct H|].
    destruct (IH H) as (a & b & E).
    exists (q ++ sep ++ a), b.
    change (join sep (q :: r :: parts)) with (q ++ sep ++ join sep (r :: parts)).
    rewrite E, <- !app_assoc; reflexivity.
Qed.

Lemma join_ends sep parts last :
  exists a, join sep (parts ++ [last]) = a ++ last.
Proof.
  induction parts as [|q parts [a IH]].
  - exists []; reflexivity.
  - destruct parts as [|r parts].
    + exists (q ++ sep); simpl; rewrite <- app_assoc; reflexivity.
    + exists (q ++ sep ++ a).
      change (join sep ((q :: r :: parts) ++ [last]))
        with (q ++ sep ++ join sep ((r :: parts) ++ [last])).
      rewrite IH, <- !app_assoc; reflexivity.
Qed.

Lemma image_parts_cases l m a :
  match image_request_parts l m a with
  | None => l = [] /\ a = []
  | Some parts =>
      (l <> [] \/ a <> []) /\ 2 <= length parts
      /\ forall kv, In kv a -> In (component_line kv) parts
  end.
Proof.
  unfold image_request_parts; cbv zeta.
  destruct a as [|kv0 a'].
  - destruct (truthy l) eqn:Tl.
    + destruct (truthy m); cbn [app negb andb];
        (split; [left; intros ->; discriminate | split; [simpl; lia | intros kv []]]).
    + cbn [app negb andb]; split; [apply truthy_false, Tl | reflexivity].
  - set (prefix := if truthy l then _ else _).
    set (header := if negb (truthy l) then _ else _).
    destruct (prefix ++ header :: map component_line (kv0 :: a')) as [|p0 ps] eqn:P.
    + apply app_eq_nil in P; destruct P; discriminate.
    + rewrite <- P; split; [right; discriminate|]; split.
      * rewrite length_app; simpl; lia.
      * intros kv H; apply in_or_app; right; right.
        apply (in_map component_line _ _ H).
Qed.

(** X10: the advanced image button only warns "Input Missing" exactly when
    the loaded prompt and all ten fields are empty once stripped; the window
    is then unchanged.  Whether it warns or submits, it has already set the
    global count of variations to 1.  The request it builds has at least two
    parts before the closing instruction, so the one-part request that only
    quotes the loaded prompt for refinement is never built. *)
Theorem X10_image_needs_input g self (tab : AdvancedImageTab) :
  let after := _trigger_gemini_advanced_image_generation g self tab in
  (snd after = [missing_input_image]
   <-> Py.strip (adv_img_load_text tab) = []
       /\ Forall (fun kv => snd kv = []) (image_components tab))
  /\ (snd after = [missing_input_image] ->
      fst after = (set_num_variations_for_worker g 1, self))
  /\ num_variations_for_worker (fst (fst after)) = 1%Z
  /\ (forall l m a parts, image_request_parts l m a = Some parts -> 2 <= length parts).
Proof.
  cbv zeta; unfold _trigger_gemini_advanced_image_generation.
  pose proof (image_parts_cases (Py.strip (adv_img_load_text tab))
                (Py.strip (adv_img_modify_instructions tab))
                (active (image_components tab))) as C.
  destruct (image_request_parts _ _ _) as [parts|].
  - rewrite trigger_events, trigger_sets_variation_count.
    destruct C as (N & _ & _); split; [|split; [|split]].
    + split; [destruct (running self); discriminate|].
      intros [H1 H2]; apply active_nil in H2; destruct N; contradiction.
    + destruct (running self); discriminate.
    + reflexivity.
    + intros l m a p E; pose proof (image_parts_cases l m a) as C'.
      rewrite E in C'; apply C'.
  - destruct C as [C1 C2]; split; [|split; [|split]].
    + split; [intros _; split; [exact C1 | apply active_nil, C2] | reflexivity].
    + reflexivity.
    + reflexivity.
    + intros l m a p E; pose proof (image_parts_cases l m a) as C'.
      rewrite E in C'; apply C'.
Qed.

Lemma X10_image_needs_input_witness :
  fst (_trigger_gemini_advanced_image_generation (demo_globals 3) idle_window empty_image_tab)
  = (set_num_variations_for_worker (demo_globals 3) 1, idle_window).
Proof.
  apply (proj1 (proj2 (X10_image_needs_input (demo_globals 3) idle_window empty_image_tab))).
  reflexivity.
Defined.

(** X11: when no job is running, every field of the advanced image tab
    that is not empty once stripped appears in the request of the job that is
    started, as the line "  - label: value"; the request ends with the
    closing instruction, and the job is a text job for one variation. *)
Theorem X11_image_request_has_fields g self (tab : AdvancedImageTab) (kv : str * str) :
  running self = false ->
  In kv (image_components tab) ->
  snd kv <> [] ->
  let after := _trigger_gemini_advanced_image_generation g self tab in
  exists w,
    gemini_worker (snd (fst after)) = Some w
    /\ In (thread_started w) (snd after)
    /\ operation_type w = "text" /\ num_variations w = 1%Z
    /\ context w = "Advanced Image Prompt"
    /\ (exists a b, query w = a ++ ("  - " ++ fst kv ++ ": " ++ snd kv) ++ b)
    /\ (exists a, query w = a ++ closing_image_instruction).
Proof.
  intros Hidle Hin Hne; cbv zeta; unfold _trigger_gemini_advanced_image_generation.
  pose proof (image_parts_cases (Py.strip (adv_img_load_text tab))
                (Py.strip (adv_img_modify_instructions tab))
                (active (image_components tab))) as C.
  destruct (image_request_parts _ _ _) as [parts|].
  - destruct C as (_ & _ & L).
    rewrite trigger_events, trigger_idle_window, Hidle by exact Hidle.
    eexists; split; [reflexivity|]; split; [right; left; reflexivity|].
    cbn [operation_type num_variations context query]; repeat split.
    + apply join_contains, in_or_app; left.
      apply (L kv), in_active; assumption.
    + apply join_ends.
  - destruct C as [_ C2]; pose proof (in_active _ _ Hin Hne) as A.
    rewrite C2 in A; destruct A.
Qed.

Lemma X11_image_request_has_fields_witness :
  exists w,
    gemini_worker
      (snd (fst (_trigger_gemini_advanced_image_generation (demo_globals 3) idle_window
                   sample_image_tab))) = Some w
    /\ exists a b, query w = a ++ ("  - Lighting: Golden Hour" : str) ++ b.
Proof.
  assert (Hin : In (("Lighting" : str), ("Golden Hour" : str))
                   (image_components sample_image_tab))
    by (vm_compute; tauto).
  assert (Hne : snd (("Lighting" : str), ("Golden Hour" : str)) <> [])
    by (vm_compute; discriminate).
  destruct (@X11_image_request_has_fields (demo_globals 3) idle_window sample_image_tab
              _ eq_refl Hin Hne) as (w & H1 & _ & _ & _ & _ & H6 & _).
  exists w; split; [exact H1 | exact H6].
Defined.

Lemma dict_set_not_nil d k v : dict_set d k v <> [].
Proof. destruct d as [|[k' v'] d]; simpl; [|destruct (Py.eqb k' k)]; discriminate. Qed.

Lemma video_components_nil fields components :
  video_components fields components = []
  <-> components = [] /\ Forall (fun kv => Py.strip (snd kv) = []) fields.
Proof.
  revert components; induction fields as [|[k text] fields IH]; intros components; simpl.
  - split; [intros ->; auto | intros [-> _]; reflexivity].
  - rewrite IH; destruct (Py.strip text) as [|c v] eqn:E; cbn [truthy]; split.
    + intros [-> H]; split; [reflexivity | constructor; [exact E | exact H]].
    + intros [-> H]; inversion H; subst; auto.
    + intros [H _]; destruct (dict_set_not_nil _ _ _ H).
    + intros [_ H]; inversion H as [|? ? H1 H2]; subst; simpl in H1.
      rewrite E in H1; discriminate.
Qed.

Lemma video_parts_cases l m a :
  match video_request_parts l m a with
  | None => l = [] /\ a = []
  | Some parts =>
      (l <> [] \/ a <> []) /\ 2 <= length parts
      /\ forall kv, In kv a -> In (component_line kv) parts
  end.
Proof.
  unfold video_request_parts; cbv zeta.
  destruct a as [|kv0 a'].
  - destruct (truthy l) eqn:Tl.
    + destruct (truthy m); cbn [app negb andb];
        (split; [left; intros ->; discriminate | split; [simpl; lia | intros kv []]]).
    + cbn [app negb andb]; split; [apply truthy_false, Tl | reflexivity].
  - set (prefix := if truthy l then _ else _).
    set (header := if negb (truthy l) then _ else _).
    destruct (prefix ++ header :: map component_line (kv0 :: a')) as [|p0 ps] eqn:P.
    + apply app_eq_nil in P; destruct P; discriminate.
    + rewrite <- P; split; [right; discriminate|]; split.
      * rewrite length_app; simpl; lia.
      * intros kv H; apply in_or_app; right; right.
        apply (in_map component_line _ _ H).
Qed.

(** X12: the video button only warns "Input Missing" exactly when the
    loaded prompt and the text of every field of the tab are empty once
    stripped; the window is then unchanged.  Whether it warns or submits, it
    has already set the global count of variations to 1.  When it submits
    with no job running, the job is a text job for one variation whose
    request ends with the closing instruction and holds the line of every
    component gathered from the fields. *)
Theorem X12_video_button g self (tab : VideoTab) :
  let after := _trigger_gemini_video_generation g self tab in
  (snd after = [missing_input_video]
   <-> Py.strip (video_load_text tab) = []
       /\ Forall (fun kv => Py.strip (snd kv) = []) (video_fields_qt tab))
  /\ (snd after = [missing_input_video] ->
      fst after = (set_num_variations_for_worker g 1, self))
  /\ num_variations_for_worker (fst (fst after)) = 1%Z
  /\ (running self = false ->
      ~ (Py.strip (video_load_text tab) = []
         /\ Forall (fun kv => Py.strip (snd kv) = []) (video_fields_qt tab)) ->
      exists w,
        gemini_worker (snd (fst after)) = Some w
        /\ In (thread_started w) (snd after)
        /\ operation_type w = "text" /\ num_variations w = 1%Z
        /\ context w = "Detailed Video Prompt"
        /\ (exists a, query w = a ++ closing_video_instruction)
        /\ forall kv, In kv (video_components (video_fields_qt tab) []) ->
             exists a b, query w = a ++ ("  - " ++ fst kv ++ ": " ++ snd kv) ++ b).
Proof.
  cbv zeta; unfold _trigger_gemini_video_generation.
  pose proof (video_parts_cases (Py.strip (video_load_text tab))
                (Py.strip (video_modify_instructions tab))
                (video_components (video_fields_qt tab) [])) as C.
  destruct (video_request_parts _ _ _) as [parts|].
  - rewrite trigger_events, trigger_sets_variation_count.
    destruct C as (N & _ & L); split; [|split; [|split]].
    + split; [destruct (running self); discriminate|].
      intros [H1 H2]; destruct N as [N | N]; [contradiction|].
      exfalso; apply N; apply video_components_nil; auto.
    + destruct (running self); discriminate.
    + reflexivity.
    + intros Hidle _; rewrite trigger_idle_window, Hidle by exact Hidle.
      eexists; split; [reflexivity|]; split; [right; left; reflexivity|].
      cbn [operation_type num_variations context query]; repeat split.
      * apply join_ends.
      * intros kv H; apply join_contains, in_or_app; left; apply (L kv H).
  - destruct C as [C1 C2]; apply video_components_nil in C2; destruct C2 as [_ C2].
    split; [|split; [|split]].
    + split; [intros _; split; assumption | reflexivity].
    + reflexivity.
    + reflexivity.
    + intros _ N; exfalso; apply N; split; assumption.
Qed.

Lemma X12_video_button_witness :
  fst (_trigger_gemini_video_generation (demo_globals 3) idle_window empty_video_tab)
  = (set_num_variations_for_worker (demo_globals 3) 1, idle_window)
  /\ exists w,
       gemini_worker
         (snd (fst (_trigger_gemini_video_generation (demo_globals 3) idle_window
                      sample_video_tab))) = Some w
       /\ exists a b, query w = a ++ ("  - Video Style: Anime" : str) ++ b.
Proof.
  split.
  - apply (proj1 (proj2 (X12_video_button (demo_globals 3) idle_window empty_video_tab))).
    reflexivity.
  - assert (N : ~ (Py.strip (video_load_text sample_video_tab) = []
                   /\ Forall (fun kv => Py.strip (snd kv) = [])
                        (video_fields_qt sample_video_tab))).
    { intros [_ H]; inversion H as [|? ? _ H']; inversion H' as [|? ? Hstyle _].
      vm_compute in Hstyle; discriminate. }
    destruct (proj2 (proj2 (proj2 (X12_video_button (demo_globals 3) idle_window
                                     sample_video_tab))) eq_refl N)
      as (w & H1 & _ & _ & _ & _ & _ & H7).
    exists w; split; [exact H1|].
    apply (H7 (("Video Style" : str), ("Anime" : str))).
    vm_compute; tauto.
Defined.

(** X13: the image button submits nothing without a vision model (it shows
    the "API Error" box) or without an uploaded image (it warns "No Image"),
    and then changes nothing.  So a job it starts is always a vision job for
    one variation that carries the uploaded image, with the target the radio
    buttons select, started while no job was running and with a vision model
    at hand. *)
Theorem X13_vision_button g self (tab : ImagePromptTab) :
  let after := _trigger_gemini_vision_generation g self tab in
  (vision_model g = None ->
   after = (g, self, [critical_box "API Error" "Gemini Vision model unavailable."]))
  /\ (vision_model g <> None -> uploaded_image_pil tab = None ->
      after = (g, self, [ui (warning_box "No Image" "Upload an image first.")]))
  /\ (forall w, In (ui (thread_started w)) (snd after) ->
        vision_model g <> None
        /\ running self = false
        /\ operation_type w = "vision"
        /\ num_variations w = 1%Z
        /\ pil_image w = uploaded_image_pil tab
        /\ pil_image w <> None
        /\ context w = (if img_to_video_radio tab then "video" else "image" : str)
        /\ gemini_worker (snd (fst after)) = Some w).
Proof.
  cbv zeta; unfold _trigger_gemini_vision_generation; split; [|split].
  - intros ->; reflexivity.
  - intros N ->; destruct (vision_model g); [reflexivity | contradiction].
  - intros w; destruct (vision_model g) as [model|]; [|intros [H | []]; discriminate].
    destruct (uploaded_image_pil tab) as [image|]; [|intros [H | []]; discriminate].
    pose proof (trigger_events g self
                  ("Generate a " ++ (if img_to_video_radio tab then "video" else "image" : str)
                   ++ " prompt from the provided image.")
                  (if img_to_video_radio tab then "video" else "image" : str)
                  1 "vision" (Some image) true) as Ev.
    pose proof (trigger_idle_window g self
                  ("Generate a " ++ (if img_to_video_radio tab then "video" else "image" : str)
                   ++ " prompt from the provided image.")
                  (if img_to_video_radio tab then "video" else "image" : str)
                  1 "vision" (Some image) true) as Win.
    destruct (_trigger_gemini_operation _ _ _ _ _ _ _ _) as [[g' self'] events].
    cbn [fst snd] in *; subst events.
    destruct (running self); cbn [map In].
    + intros [H | []]; discriminate.
    + intros [H | [H | []]]; [discriminate|].
      injection H as <-; rewrite (Win eq_refl).
      repeat split; try discriminate.
Qed.

Lemma X13_vision_button_witness :
  _trigger_gemini_vision_generation (demo_globals 1) idle_window
    {| uploaded_image_pil := None; img_to_video_radio := false |}
  = (demo_globals 1, idle_window, [ui (warning_box "No Image" "Upload an image first.")]).
Proof.
  apply (proj1 (proj2 (X13_vision_button (demo_globals 1) idle_window
                         {| uploaded_image_pil := None; img_to_video_radio := false |})));
    [discriminate | reflexivity].
Defined.

(** * More about the worker *)

Lemma run_vision_generation_trace g quit_requested self :
  trace (run_vision_generation g quit_requested self)
  = if quit_requested at_vision_entry
    then [error_occurred cancelled_by_user; finished]
    else match vision_model g with
         | None =>
             [ error_occurred ("Vision model ('" ++ VISION_MODEL_NAME_TO_TRY g
                               ++ "') is not initialized.");
               finished ]
         | Some model =>
             match pil_image self with
             | None => [error_occurred "No image provided to vision worker."; finished]
             | Some image =>
                 if quit_requested at_vision_call
                 then [error_occurred cancelled_by_user; finished; finished]
                 else
                   [ vision_generate_content
                       (prompt_instruction_for_vision (context self)) image;
                     match model (prompt_instruction_for_vision (context self)) image with
                     | Returns text => result_ready [vision_entry (context self) text]
                     | Raises e =>
                         error_occurred ("Vision API Error (" ++ context self ++ "): " ++ e)
                     end;
                     finished ]
             end
         end.
Proof.
  unfold run_vision_generation.
  destruct (quit_requested at_vision_entry); [reflexivity|].
  destruct (vision_model g) as [model|]; [|reflexivity].
  destruct (pil_image self) as [image|]; [|reflexivity].
  rewrite trace_bind; unfold vision_try.
  destruct (quit_requested at_vision_call); [reflexivity|].
  rewrite trace_bind.
  destruct (model _ image); reflexivity.
Qed.

Lemma vision_entry_not_empty target text : vision_entry target text <> [].
Proof.
  unfold vision_entry; destruct (sanitize_vision text); discriminate.
Qed.

(** X14: a job started by the image button, run with a valid key and never
    cancelled, makes exactly one call to the vision model, with the
    instruction for the selected target and the uploaded image, and then
    either hands over one entry that is not empty (the cleaned text, or the
    notice that the description was empty) or reports the exception of the
    call as "Vision API Error"; it ends with [finished], once. *)
Theorem X14_vision_job_from_button g self (tab : ImagePromptTab) w quit_requested :
  let after := _trigger_gemini_vision_generation g self tab in
  let target : str := if img_to_video_radio tab then "video" else "image" in
  In (ui (thread_started w)) (snd after) ->
  GEMINI_API_KEY_VALID g = true ->
  (forall c, quit_requested c = false) ->
  exists model image,
    vision_model g = Some model
    /\ uploaded_image_pil tab = Some image
    /\ trace (run (fst (fst after)) quit_requested w)
       = [ vision_generate_content (prompt_instruction_for_vision target) image;
           match model (prompt_instruction_for_vision target) image with
           | Returns text => result_ready [vision_entry target text]
           | Raises e => error_occurred ("Vision API Error (" ++ target ++ "): " ++ e)
           end;
           finished ]
    /\ forall text, vision_entry target text <> [].
Proof.
  cbv zeta; unfold _trigger_gemini_vision_generation.
  destruct (vision_model g) as [model|] eqn:Vm; [|intros [H | []]; discriminate].
  destruct (uploaded_image_pil tab) as [image|]; [|intros [H | []]; discriminate].
  pose proof (trigger_events g self
                ("Generate a " ++ (if img_to_video_radio tab then "video" else "image" : str)
                 ++ " prompt from the provided image.")
                (if img_to_video_radio tab then "video" else "image" : str)
                1 "vision" (Some image) true) as Ev.
  assert (G : fst (fst (_trigger_gemini_operation g self
                ("Generate a " ++ (if img_to_video_radio tab then "video" else "image" : str)
                 ++ " prompt from the provided image.")
                (if img_to_video_radio tab then "video" else "image" : str)
                1 "vision" (Some image) true))
              = set_num_variations_for_worker g 1).
  { unfold _trigger_gemini_operation.
    destruct (gemini_thread self) as [[[|]]|]; reflexivity. }
  destruct (_trigger_gemini_operation _ _ _ _ _ _ _ _) as [[g' self'] events].
  cbn [fst snd] in *; subst events g'.
  intros Hin Hkey Hq; exists model, image; repeat split; auto.
  2:{ intros text; apply vision_entry_not_empty. }
  assert (W : w = {| query := "Generate a "
                             ++ (if img_to_video_radio tab then "video" else "image" : str)
                             ++ " prompt from the provided image.";
                     context := if img_to_video_radio tab then "video" else "image" : str;
                     num_variations := 1; operation_type := "vision";
                     pil_image := Some image |}).
  { destruct (running self); cbn [map In] in Hin.
    - destruct Hin as [H | []]; discriminate.
    - destruct Hin as [H | [H | []]]; [discriminate | injection H as <-; reflexivity]. }
  unfold run; cbn [GEMINI_API_KEY_VALID set_num_variations_for_worker].
  rewrite Hkey, Hq; cbn [negb]; subst w; cbn [operation_type].
  change (Py.eqb "vision" "text") with false; change (Py.eqb "vision" "vision") with true.
  cbv iota; rewrite run_vision_generation_trace, !Hq.
  cbn [vision_model set_num_variations_for_worker pil_image context]; rewrite Vm.
  reflexivity.
Qed.

Lemma X14_vision_job_from_button_witness :
  exists model image,
    vision_model (demo_globals 1) = Some model
    /\ uploaded_image_pil sample_image_prompt_tab = Some image
    /\ trace (run (fst (fst (_trigger_gemini_vision_generation (demo_globals 1) idle_window
                               sample_image_prompt_tab)))
                never_cancelled
                {| query := "Generate a video prompt from the provided image.";
                   context := "video"; num_variations := 1;
                   operation_type := "vision"; pil_image := Some (pil 7) |})
       = [ vision_generate_content (prompt_instruction_for_vision "video") image;
           match model (prompt_instruction_for_vision "video") image with
           | Returns text => result_ready [vision_entry "video" text]
           | Raises e => error_occurred ("Vision API Error (" ++ "video" ++ "): " ++ e)
           end;
           finished ].
Proof.
  destruct (@X14_vision_job_from_button (demo_globals 1) idle_window sample_image_prompt_tab
              {| query := "Generate a video prompt from the provided image.";
                 context := "video"; num_variations := 1;
                 operation_type := "vision"; pil_image := Some (pil 7) |}
              never_cancelled)
    as (model & image & H1 & H2 & H3 & _).
  - right; left; reflexivity.
  - reflexivity.
  - reflexivity.
  - exists model, image; repeat split; assumption.
Defined.

Lemma strip_end_prefix ends (text : str) :
  exists back, text = strip_end ends text ++ back.
Proof.
  induction ends as [|p ends IH]; simpl.
  - exists []; symmetry; apply app_nil_r.
  - destruct (Py.endswith (Py.lower text) (Py.lower p)); auto.
    destruct (PyFacts.rstrip_split (Py.slice_to_neg (length p) text)) as [w H].
    assert (exists v, text = Py.slice_to_neg (length p) text ++ v) as [v Hv].
    { unfold Py.slice_to_neg; destruct (length p) as [|n].
      - exists text; rewrite firstn_nil; reflexivity.
      - exists (skipn (length text - S n) text); symmetry; apply firstn_skipn. }
    exists (w ++ v); rewrite app_assoc, <- H; exact Hv.
Qed.

(** X15: the clean-up only takes characters away from the two ends of the
    answer: what it returns, for a text answer as for a vision answer, is a
    piece of the answer as the model gave it, with nothing added, changed or
    reordered; so it is never longer than the answer. *)
Theorem X15_sanitize_returns_a_piece_of_the_answer (kind : operation_kind) (raw : str) :
  (exists front back, raw = front ++ sanitize kind raw ++ back)
  /\ length (sanitize kind raw) <= length raw.
Proof.
  assert (P : exists front back, raw = front ++ sanitize kind raw ++ back).
  { destruct (PyFacts.strip_split raw) as (w1 & w2 & H1).
    destruct kind; simpl.
    - unfold sanitize_text.
      destruct (strip_start_suffix unwanted_starts (Py.strip raw)) as [f Hf].
      destruct (strip_end_prefix unwanted_ends
                  (strip_start unwanted_starts (Py.strip raw))) as [b Hb].
      destruct (PyFacts.strip_split
                  (strip_end unwanted_ends
                     (strip_start unwanted_starts (Py.strip raw)))) as (v1 & v2 & Hv).
      exists (w1 ++ f ++ v1), (v2 ++ b ++ w2).
      rewrite H1 at 1; rewrite Hf at 1; rewrite Hb at 1; rewrite Hv at 1.
      rewrite <- !app_assoc; reflexivity.
    - unfold sanitize_vision.
      destruct (strip_start_suffix vision_unwanted_starts (Py.strip raw)) as [f Hf].
      exists (w1 ++ f), w2.
      rewrite H1 at 1; rewrite Hf at 1.
      rewrite <- !app_assoc; reflexivity. }
  split; [exact P|].
  destruct P as (front & back & H).
  rewrite H at 2; rewrite !length_app; lia.
Qed.

Section LoopFacts.

Variable g : Globals.
Variable quit_requested : QuitFlag.
Variable self : GeminiWorker.

Lemma text_loop_length_ge indices acc :
  length acc + (match indices with [] => 0 | _ :: _ => 1 end)
  <= length (value (text_loop g quit_requested self indices acc)).
Proof.
  revert acc; induction indices as [|i rest IH]; intros acc.
  - simpl; lia.
  - rewrite text_loop_step.
    destruct (quit_requested (at_variation i)).
    + unfold ret, value; simpl; rewrite length_app; simpl; lia.
    + rewrite value_bind.
      specialize (IH (acc ++ [value (_generate_single_prompt_core g quit_requested
                                       (query self) (context self) i)])).
      rewrite length_app in IH; simpl in IH; destruct rest; lia.
Qed.

(** The calls made once the loop has been told to stop at index [i] are
    calls for indices before [i] at which it was not told to stop. *)
Lemma text_loop_calls_before pre i post acc e :
  quit_requested (at_variation i) = true ->
  In e (trace (text_loop g quit_requested self (pre ++ i :: post) acc)) ->
  exists j,
    In j pre
    /\ e = text_generate_content
             (gemini_prompt_payload g (query self) (context self) j)
    /\ quit_requested (at_variation j) = false
    /\ quit_requested (at_core j) = false.
Proof.
  intros Hi; revert acc; induction pre as [|j pre IH]; intros acc.
  - simpl app; rewrite text_loop_step, Hi; intros [].
  - simpl app; rewrite text_loop_step.
    destruct (quit_requested (at_variation j)) eqn:Hj; [intros []|].
    rewrite trace_bind, core_trace; intros H; apply in_app_or in H.
    destruct H as [H | H].
    + destruct (quit_requested (at_core j)) eqn:Hc; [destruct H|].
      destruct (text_model g); [|destruct H].
      destruct H as [<- | []]; exists j; repeat split; auto; left; reflexivity.
    + destruct (IH _ H) as (k & K1 & K2); exists k; split; [right; exact K1 | exact K2].
Qed.

Lemma text_loop_count_before pre i post acc :
  quit_requested (at_variation i) = true ->
  remote_call_count (trace (text_loop g quit_requested self (pre ++ i :: post) acc))
  <= length pre.
Proof.
  intros Hi; revert acc; induction pre as [|j pre IH]; intros acc.
  - simpl app; rewrite text_loop_step, Hi; unfold remote_call_count; simpl; lia.
  - simpl app; rewrite text_loop_step.
    destruct (quit_requested (at_variation j)); [unfold remote_call_count; simpl; lia|].
    rewrite trace_bind, core_trace; unfold remote_call_count in *.
    rewrite filter_app, length_app; specialize (IH (acc ++ [value
      (_generate_single_prompt_core g quit_requested (query self) (context self) j)])).
    destruct (quit_requested (at_core j)); [simpl; lia|].
    destruct (text_model g); simpl; lia.
Qed.

Lemma text_loop_count indices acc :
  remote_call_count (trace (text_loop g quit_requested self indices acc))
  <= length indices.
Proof.
  revert acc; induction indices as [|j rest IH]; intros acc;
    [unfold remote_call_count; simpl; lia|].
  rewrite text_loop_step.
  destruct (quit_requested (at_variation j)); [unfold remote_call_count; simpl; lia|].
  rewrite trace_bind, core_trace; unfold remote_call_count in *.
  rewrite filter_app, length_app; specialize (IH (acc ++ [value
    (_generate_single_prompt_core g quit_requested (query self) (context self) j)])).
  destruct (quit_requested (at_core j)); [simpl; lia|].
  destruct (text_model g); simpl; lia.
Qed.

End LoopFacts.

(** X16: a text job hands over an empty list only when the count of
    variations is zero or less; it then makes no call, and the window shows
    "Worker returned no results.".  With a count of one or more the list is
    never empty, whenever the job is cancelled and whatever the model does,
    and that message is not shown. *)
Theorem X16_empty_list_only_without_variations g quit_requested self window :
  (text_results g quit_requested self = [] <-> (num_variations_for_worker g <= 0)%Z)
  /\ ((num_variations_for_worker g <= 0)%Z ->
      trace (run_text_generation g quit_requested self) = [result_ready []; finished])
  /\ (output_text_edit
        (fst (_handle_gemini_results g window (text_results g quit_requested self)))
      = "Worker returned no results."
      /\ snd (_handle_gemini_results g window (text_results g quit_requested self))
         = [status_message "Generation finished: No results."]
      <-> (num_variations_for_worker g <= 0)%Z).
Proof.
  assert (E : text_results g quit_requested self = []
              <-> (num_variations_for_worker g <= 0)%Z).
  { unfold text_results, variation_count; split.
    - intros H.
      pose proof (text_loop_length_ge g quit_requested self
                    (seq 0 (Z.to_nat (num_variations_for_worker g))) []) as L.
      rewrite H in L; simpl in L.
      destruct (Z.to_nat (num_variations_for_worker g)) eqn:N; [lia | simpl in L; lia].
    - intros H; replace (Z.to_nat (num_variations_for_worker g)) with 0 by lia.
      reflexivity. }
  split; [exact E | split].
  - intros H; rewrite run_text_generation_trace.
    rewrite (proj2 E H); unfold variation_count.
    replace (Z.to_nat (num_variations_for_worker g)) with 0 by lia; reflexivity.
  - split.
    + intros [_ H]; apply E.
      destruct (text_results g quit_requested self) as [|r rs]; [reflexivity|].
      exfalso; unfold _handle_gemini_results in H.
      destruct (1 <? num_variations_for_worker g)%Z.
      * destruct (has_errors_in_batch (r :: rs)); discriminate.
      * destruct (looks_failed r); discriminate.
    + intros H; rewrite (proj2 E H); split; reflexivity.
Qed.

Lemma X16_empty_list_only_without_variations_witness :
  trace (run_text_generation (demo_globals 0) never_cancelled (text_worker 0))
  = [result_ready []; finished]
  /\ text_results (demo_globals 2) cancelled_from_the_start (text_worker 2) <> [].
Proof.
  split.
  - apply (proj1 (proj2 (X16_empty_list_only_without_variations (demo_globals 0)
                           never_cancelled (text_worker 0) idle_window))).
    simpl; lia.
  - intros H.
    apply (proj1 (proj1 (X16_empty_list_only_without_variations (demo_globals 2)
                           cancelled_from_the_start (text_worker 2) idle_window))) in H.
    simpl in H; lia.
Defined.

(** X17: a text job makes at most as many calls to the model as there are
    variations; and once the loop is told to stop at the top of iteration
    [i], only calls for indices before [i] have been made: at most [i]
    calls, each with the payload of an index at which the job was not told
    to stop.  No call is made for index [i] or any later one. *)
Theorem X17_cancellation_stops_the_calls g quit_requested self :
  remote_call_count (trace (run_text_generation g quit_requested self))
  <= variation_count g
  /\ forall i,
       i < variation_count g ->
       quit_requested (at_variation i) = true ->
       remote_call_count (trace (run_text_generation g quit_requested self)) <= i
       /\ forall e,
            In e (trace (run_text_generation g quit_requested self)) ->
            is_signal e = false ->
            exists j,
              j < i
              /\ e = text_generate_content
                       (gemini_prompt_payload g (query self) (context self) j)
              /\ quit_requested (at_variation j) = false
              /\ quit_requested (at_core j) = false.
Proof.
  split.
  - rewrite run_text_generation_trace; unfold remote_call_count.
    rewrite filter_app, length_app; simpl; rewrite Nat.add_0_r.
    pose proof (text_loop_count g quit_requested self (seq 0 (variation_count g)) [])
      as C.
    rewrite length_seq in C; exact C.
  - intros i Hi Hq; split.
    + rewrite run_text_generation_trace; unfold remote_call_count.
      rewrite filter_app, length_app; simpl; rewrite Nat.add_0_r.
      rewrite (seq_split_at Hi).
      pose proof (@text_loop_count_before g quit_requested self (seq 0 i) i
                    (seq (S i) (variation_count g - S i)) [] Hq) as C.
      rewrite length_seq in C; exact C.
    + intros e He Hs; rewrite run_text_generation_trace in He.
      apply in_app_or in He; destruct He as [He | [<- | [<- | []]]]; try discriminate.
      rewrite (seq_split_at Hi) in He.
      destruct (@text_loop_calls_before g quit_requested self (seq 0 i) i
                  (seq (S i) (variation_count g - S i)) [] e Hq He) as (j & J1 & J2).
      exists j; split; [apply in_seq in J1; lia | exact J2].
Qed.

Lemma X17_cancellation_stops_the_calls_witness :
  remote_call_count
    (trace (run_text_generation (demo_globals 3) (cancelled_at (at_variation 1))
              (text_worker 3))) <= 1.
Proof.
  apply (proj2 (X17_cancellation_stops_the_calls (demo_globals 3)
                  (cancelled_at (at_variation 1)) (text_worker 3)) 1).
  - vm_compute; lia.
  - reflexivity.
Defined.

(** * From the buttons to the window *)

Lemma presses_bounds (self : Counter.VariationCounter) (cs : list Counter.click) :
  (1 <= Counter.basic_batch_count self <= Counter.MAX_VARIATIONS self)%Z ->
  (1 <= Counter.basic_batch_count (Counter.presses self cs)
   <= Counter.MAX_VARIATIONS self)%Z.
Proof.
  unfold Counter.presses; revert self; induction cs as [|c cs IH]; intros self H; simpl.
  - exact H.
  - rewrite <- (press_max self c); apply IH; rewrite press_max; apply press_bounds, H.
Qed.

Lemma trigger_globals g self query context num_vars op_type image clear :
  fst (fst (_trigger_gemini_operation g self query context num_vars op_type image clear))
  = set_num_variations_for_worker g num_vars.
Proof.
  unfold _trigger_gemini_operation.
  destruct (gemini_thread self) as [[[|]]|]; reflexivity.
Qed.

Lemma text_results_not_cancelled g quit_requested self :
  (forall c, quit_requested c = false) ->
  length (text_results g quit_requested self) = variation_count g.
Proof.
  intros Hq; unfold text_results.
  rewrite text_loop_not_cancelled by (intros; apply Hq).
  simpl; rewrite length_map, length_seq; reflexivity.
Qed.

(** X18: the count the Basic tab shows is the size of the batch.  After any
    presses on the two buttons of the counter, a job the Basic button starts,
    run with a valid key and never cancelled, hands over one list with as
    many entries as the count, between 1 and 10, having made at most that
    many calls. *)
Theorem X18_batch_size_from_counter g self (tab : BasicTab)
    (clicks : list Counter.click) w quit_requested :
  let count := Counter.basic_batch_count (Counter.presses Counter.initial clicks) in
  let after := _trigger_gemini_basic_generation g self tab count in
  In (thread_started w) (snd after) ->
  GEMINI_API_KEY_VALID g = true ->
  (forall c, quit_requested c = false) ->
  exists results,
    signals (trace (run (fst (fst after)) quit_requested w))
    = [result_ready results; finished]
    /\ Z.of_nat (length results) = count
    /\ 1 <= length results <= 10
    /\ remote_call_count (trace (run (fst (fst after)) quit_requested w))
       <= length results.
Proof.
  cbv zeta.
  pose proof (presses_bounds Counter.initial clicks) as B.
  change (Counter.MAX_VARIATIONS Counter.initial) with 10%Z in B.
  specialize (B ltac:(simpl; lia)).
  set (count := Counter.basic_batch_count (Counter.presses Counter.initial clicks)) in *.
  unfold _trigger_gemini_basic_generation.
  destruct (basic_request_details _ _ _) as [d|]; [|intros [H | []]; discriminate].
  rewrite trigger_events, trigger_globals.
  change (running (set_is_new_batch_start self true)) with (running self).
  destruct (running self); [intros [H | []]; discriminate|].
  intros [H | [H | []]] Hkey Hq; [discriminate|].
  assert (W : w = {| query := d; context := "Basic Prompt"; num_variations := count;
                     operation_type := "text"; pil_image := None |})
    by (injection H as <-; reflexivity).
  clear H; subst w.
  set (g' := set_num_variations_for_worker g count).
  assert (N : variation_count g' = Z.to_nat count) by reflexivity.
  exists (text_results g' quit_requested
            {| query := d; context := "Basic Prompt"; num_variations := count;
               operation_type := "text"; pil_image := None |}).
  assert (R : run g' quit_requested
                {| query := d; context := "Basic Prompt"; num_variations := count;
                   operation_type := "text"; pil_image := None |}
              = run_text_generation g' quit_requested
                  {| query := d; context := "Basic Prompt"; num_variations := count;
                     operation_type := "text"; pil_image := None |}).
  { unfold run; change (GEMINI_API_KEY_VALID g') with (GEMINI_API_KEY_VALID g).
    rewrite Hkey, Hq; reflexivity. }
  rewrite R, run_text_generation_signals, text_results_not_cancelled, N by exact Hq.
  split; [reflexivity | split; [lia | split; [lia|]]].
  rewrite run_text_generation_trace; unfold remote_call_count.
  rewrite filter_app, length_app; simpl; rewrite Nat.add_0_r.
  pose proof (text_loop_count g' quit_requested
                {| query := d; context := "Basic Prompt"; num_variations := count;
                   operation_type := "text"; pil_image := None |}
                (seq 0 (variation_count g')) []) as C.
  rewrite length_seq, N in C; exact C.
Qed.

Lemma X18_batch_size_from_counter_witness :
  exists results,
    signals (trace (run (fst (fst (_trigger_gemini_basic_generation (demo_globals 1)
                                     idle_window sample_basic_tab
                                     (Counter.basic_batch_count
                                        (Counter.presses Counter.initial
                                           [Counter.Plus; Counter.Plus])))))
                      never_cancelled
                      {| query := "Base existing prompt to work with:" ++ nl ++ backticks
                                  ++ nl ++ "a fox in the snow, oil painting" ++ nl
                                  ++ backticks ++ nl
                                  ++ "Refine or modify according to: make it night" ++ nl
                                  ++ "Ensure the output is ONLY the generated prompt string.";
                         context := "Basic Prompt"; num_variations := 3;
                         operation_type := "text"; pil_image := None |}))
    = [result_ready results; finished]
    /\ length results = 3.
Proof.
  destruct (@X18_batch_size_from_counter (demo_globals 1) idle_window sample_basic_tab
              [Counter.Plus; Counter.Plus]
              {| query := "Base existing prompt to work with:" ++ nl ++ backticks
                          ++ nl ++ "a fox in the snow, oil painting" ++ nl
                          ++ backticks ++ nl
                          ++ "Refine or modify according to: make it night" ++ nl
                          ++ "Ensure the output is ONLY the generated prompt string.";
                 context := "Basic Prompt"; num_variations := 3;
                 operation_type := "text"; pil_image := None |}
              never_cancelled)
    as (results & H1 & H2 & _).
  - right; left; reflexivity.
  - reflexivity.
  - reflexivity.
  - exists results; split; [exact H1|].
    change (Counter.basic_batch_count
              (Counter.presses Counter.initial [Counter.Plus; Counter.Plus]))
      with 3%Z in H2.
    lia.
Defined.

Lemma deliver_not_terminal g window e :
  is_terminal e = false -> deliver g window e = (window, []).
Proof. destruct e; simpl; intros H; try discriminate; reflexivity. Qed.

Lemma deliver_all_calls g window tr :
  (forall e, In e tr -> is_terminal e = false) ->
  deliver_all g window tr = (window, []).
Proof.
  induction tr as [|e tr IH]; intros H; [reflexivity|].
  cbn [deliver_all]; rewrite deliver_not_terminal by (apply H; left; reflexivity).
  rewrite IH by (intros x Hx; apply H; right; exact Hx); reflexivity.
Qed.

Lemma deliver_all_single g window t1 e t2 :
  (forall x, In x t1 -> is_terminal x = false) ->
  (forall x, In x t2 -> is_terminal x = false) ->
  deliver_all g window (t1 ++ e :: t2) = deliver g window e.
Proof.
  intros H1 H2; induction t1 as [|x t1 IH].
  - cbn [app deliver_all]; destruct (deliver g window e) as [w1 ev1].
    rewrite deliver_all_calls by exact H2; rewrite app_nil_r; reflexivity.
  - cbn [app deliver_all]; rewrite deliver_not_terminal by (apply H1; left; reflexivity).
    rewrite IH by (intros y Hy; apply H1; right; exact Hy).
    destruct (deliver g window e); reflexivity.
Qed.

Lemma no_signal_no_terminal tr :
  signals tr = [] -> forall e, In e tr -> is_terminal e = false.
Proof.
  intros H e He; destruct (is_signal e) eqn:S.
  - assert (In e (signals tr)) by (apply filter_In; split; assumption).
    rewrite H in *; contradiction.
  - destruct e; simpl in *; try discriminate; reflexivity.
Qed.

(** What a run delivers: nothing, or one outcome. *)
Lemma run_delivers g quit_requested self window :
  (cancelled_before_start g quit_requested = true
   /\ deliver_all g window (trace (run g quit_requested self)) = (window, []))
  \/ (cancelled_before_start g quit_requested = false
      /\ exists e,
           is_terminal e = true
           /\ In e (trace (run g quit_requested self))
           /\ deliver_all g window (trace (run g quit_requested self))
              = deliver g window e).
Proof.
  unfold cancelled_before_start, run.
  destruct (GEMINI_API_KEY_VALID g); cbn [negb andb]; cbv iota.
  2:{ right; split; [reflexivity|]; eexists; split; [|split; [left; reflexivity|]];
      [reflexivity|].
      apply (@deliver_all_single g window [] _ [finished]);
        [intros x [] | intros x [<- | []]; reflexivity]. }
  destruct (quit_requested at_run); [left; split; reflexivity|].
  right; split; [reflexivity|].
  destruct (Py.eqb (operation_type self) "text").
  { exists (result_ready (text_results g quit_requested self)).
    rewrite run_text_generation_trace; split; [reflexivity | split].
    - apply in_or_app; right; left; reflexivity.
    - apply deliver_all_single.
      + apply no_signal_no_terminal, text_loop_signals.
      + intros x [<- | []]; reflexivity. }
  destruct (Py.eqb (operation_type self) "vision").
  2:{ eexists; split; [|split; [left; reflexivity|]]; [reflexivity|].
      apply (@deliver_all_single g window [] _ [finished]);
        [intros x [] | intros x [<- | []]; reflexivity]. }
  rewrite run_vision_generation_trace.
  destruct (quit_requested at_vision_entry).
  { eexists; split; [|split; [left; reflexivity|]]; [reflexivity|].
    apply (@deliver_all_single g window [] _ [finished]);
      [intros x [] | intros x [<- | []]; reflexivity]. }
  destruct (vision_model g) as [model|].
  2:{ eexists; split; [|split; [left; reflexivity|]]; [reflexivity|].
      apply (@deliver_all_single g window [] _ [finished]);
        [intros x [] | intros x [<- | []]; reflexivity]. }
  destruct (pil_image self) as [image|].
  2:{ eexists; split; [|split; [left; reflexivity|]]; [reflexivity|].
      apply (@deliver_all_single g window [] _ [finished]);
        [intros x [] | intros x [<- | []]; reflexivity]. }
  destruct (quit_requested at_vision_call).
  { eexists; split; [|split; [left; reflexivity|]]; [reflexivity|].
    apply (@deliver_all_single g window [] _ [finished; finished]);
      [intros x [] | intros x [<- | [<- | []]]; reflexivity]. }
  destruct (model _ image) as [text|e].
  - eexists; split; [|split; [right; left; reflexivity|]]; [reflexivity|].
    apply (@deliver_all_single g window [_] _ [finished]);
      intros x [<- | []]; reflexivity.
  - eexists; split; [|split; [right; left; reflexivity|]]; [reflexivity|].
    apply (@deliver_all_single g window [_] _ [finished]);
      intros x [<- | []]; reflexivity.
Qed.

Lemma handle_results_keeps_thread g window results :
  gemini_thread (fst (_handle_gemini_results g window results)) = gemini_thread window
  /\ gemini_worker (fst (_handle_gemini_results g window results)) = gemini_worker window
  /\ snd (_handle_gemini_results g window results) <> [].
Proof.
  unfold _handle_gemini_results; destruct results as [|r rs].
  - repeat split; discriminate.
  - destruct (1 <? num_variations_for_worker g)%Z.
    + destruct (has_errors_in_batch (r :: rs)); repeat split; discriminate.
    + destruct (looks_failed r); repeat split; discriminate.
Qed.

(** X19: what the window shows of a run.  The signals of a run change the
    window at most once: either the run was cancelled before it started
    (with a valid key) and the window shows nothing of it, no text and no
    message, or exactly one of the two handlers runs, once: the error handler
    on the message of the run's error, or the result handler on the list the
    run hands over.  Neither handler touches the thread or the worker of the
    window.  Without a valid key it is the error handler, with the message
    about the key, whatever the job is. *)
Theorem X19_what_the_window_shows_of_a_run g quit_requested self window :
  let shown := deliver_all g window (trace (run g quit_requested self)) in
  (shown = (window, []) <-> cancelled_before_start g quit_requested = true)
  /\ (shown = (window, [])
      \/ (exists msg,
            In (error_occurred msg) (trace (run g quit_requested self))
            /\ shown = _handle_gemini_error window msg)
      \/ (exists results,
            In (result_ready results) (trace (run g quit_requested self))
            /\ fst shown = fst (_handle_gemini_results g window results)
            /\ snd shown = map ui (snd (_handle_gemini_results g window results))))
  /\ gemini_thread (fst shown) = gemini_thread window
  /\ gemini_worker (fst shown) = gemini_worker window
  /\ (GEMINI_API_KEY_VALID g = false ->
      shown = _handle_gemini_error window "Gemini API key is not configured or invalid.").
Proof.
  cbv zeta.
  assert (D : forall e, is_terminal e = true ->
                snd (deliver g window e) <> []
                /\ gemini_thread (fst (deliver g window e)) = gemini_thread window
                /\ gemini_worker (fst (deliver g window e)) = gemini_worker window).
  { intros [results|msg| | |] H; try discriminate.
    - cbn [deliver].
      destruct (handle_results_keeps_thread g window results) as (A & B & C).
      destruct (_handle_gemini_results g window results) as [w' ev]; cbn [fst snd] in *.
      repeat split; auto.
      destruct ev; [contradiction | discriminate].
    - repeat split; discriminate. }
  destruct (run_delivers g quit_requested self window)
    as [[C E] | (C & e & T & I & E)]; rewrite E.
  - repeat split; auto.
    unfold cancelled_before_start in C; apply andb_true_iff in C.
    intros K; destruct C as [C _]; rewrite K in C; discriminate.
  - destruct (D e T) as (D1 & D2 & D3).
    split; [|split; [|split; [|split]]]; auto.
    + split; [intros K; rewrite K in D1; contradiction | rewrite C; discriminate].
    + right; destruct e as [results|msg| | |]; try discriminate.
      * right; exists results; split; [exact I|].
        cbn [deliver]; destruct (_handle_gemini_results g window results); split; reflexivity.
      * left; exists msg; split; [exact I | reflexivity].
    + intros K; rewrite <- E; unfold run; rewrite K; reflexivity.
Qed.

Lemma X19_what_the_window_shows_of_a_run_witness :
  deliver_all (text_only_globals 2) idle_window
    (trace (run (text_only_globals 2) cancelled_from_the_start (text_worker 2)))
  = (idle_window, []).
Proof.
  apply (proj1 (X19_what_the_window_shows_of_a_run (text_only_globals 2)
                  cancelled_from_the_start (text_worker 2) idle_window)).
  reflexivity.
Defined.




(** * The library of saved prompts *)

Section LibraryFacts.
Import Library.

Lemma ltb_irrefl a : PyText.ltb a a = false.
Proof.
  induction a as [|x a IH]; [reflexivity|].
  simpl; rewrite Nat.ltb_irrefl, Nat.eqb_refl, IH; reflexivity.
Qed.

Lemma ltb_asym a b : PyText.ltb a b = true -> PyText.ltb b a = false.
Proof.
  revert b; induction a as [|x a IH]; intros [|y b]; simpl; try discriminate; auto.
  intros H; apply orb_true_iff in H; apply orb_false_iff.
  destruct H as [H | H].
  - apply Nat.ltb_lt in H; split.
    + apply Nat.ltb_ge; lia.
    + apply andb_false_iff; left; apply Nat.eqb_neq; lia.
  - apply andb_true_iff in H; destruct H as [E H]; apply Nat.eqb_eq in E; split.
    + apply Nat.ltb_ge; lia.
    + apply andb_false_iff; right; apply IH, H.
Qed.

Lemma item_eqb_eq a b : item_eqb a b = true <-> a = b.
Proof.
  unfold item_eqb; rewrite andb_true_iff, !py_eqb_eq.
  destruct a, b; simpl; split; [intros [-> ->]; reflexivity | intros H; injection H; auto].
Qed.

Lemma same_name_key n i : same_name n i = true <-> Py.lower (name i) = Py.lower n.
Proof. unfold same_name; apply py_eqb_eq. Qed.

Lemma filter_none {A} (f : A -> bool) l :
  existsb f l = false -> filter (fun i => negb (f i)) l = l.
Proof.
  induction l as [|x l IH]; simpl; [reflexivity|].
  intros H; apply orb_false_iff in H; destruct H as [H1 H2].
  rewrite H1; simpl; rewrite IH by exact H2; reflexivity.
Qed.

Lemma filter_out {A} (f : A -> bool) l :
  filter f (filter (fun i => negb (f i)) l) = [].
Proof.
  induction l as [|x l IH]; simpl; [reflexivity|].
  destruct (f x) eqn:E; simpl; [exact IH | rewrite E; exact IH].
Qed.

Lemma insert_sorted_in_order x l :
  in_order l = true -> in_order (insert_sorted x l) = true.
Proof.
  induction l as [|y l IH]; [reflexivity|].
  intros H; cbn [insert_sorted].
  destruct (PyText.ltb (Py.lower (name y)) (Py.lower (name x))) eqn:E.
  - destruct l as [|z l].
    + cbn [insert_sorted in_order]; rewrite (ltb_asym _ _ E); reflexivity.
    + cbn [in_order] in H; apply andb_true_iff in H; destruct H as [H1 H2].
      specialize (IH H2); cbn [insert_sorted] in IH |- *.
      destruct (PyText.ltb (Py.lower (name z)) (Py.lower (name x))).
      * cbn [in_order] in IH |- *; rewrite H1; exact IH.
      * cbn [in_order] in IH |- *; rewrite (ltb_asym _ _ E); exact IH.
  - cbn [in_order] in H |- *; rewrite E; exact H.
Qed.

Lemma sorted_in_order l : in_order (sorted l) = true.
Proof.
  induction l as [|x l IH]; [reflexivity|].
  cbn [sorted]; apply insert_sorted_in_order, IH.
Qed.

Lemma insert_sorted_filter n x l :
  filter (same_name n) (insert_sorted x l) = filter (same_name n) (x :: l).
Proof.
  induction l as [|y l IH]; [reflexivity|].
  cbn [insert_sorted].
  destruct (PyText.ltb (Py.lower (name y)) (Py.lower (name x))) eqn:E; [|reflexivity].
  cbn [filter] in IH |- *; rewrite IH.
  destruct (same_name n x) eqn:X, (same_name n y) eqn:Y; try reflexivity.
  apply same_name_key in X, Y; rewrite X, Y, ltb_irrefl in E; discriminate.
Qed.

Lemma sorted_filter n l : filter (same_name n) (sorted l) = filter (same_name n) l.
Proof.
  induction l as [|x l IH]; [reflexivity|].
  cbn [sorted]; rewrite insert_sorted_filter; cbn [filter]; rewrite IH; reflexivity.
Qed.

Lemma insert_sorted_length x l : length (insert_sorted x l) = S (length l).
Proof.
  induction l as [|y l IH]; [reflexivity|].
  cbn [insert_sorted]; destruct (PyText.ltb _ _); simpl; [rewrite IH|]; reflexivity.
Qed.

Lemma sorted_length l : length (sorted l) = length l.
Proof.
  induction l as [|x l IH]; [reflexivity|].
  cbn [sorted]; rewrite insert_sorted_length, IH; reflexivity.
Qed.

Lemma refresh_data self :
  prompt_library_data (_refresh_library_list_widget self) = prompt_library_data self.
Proof.
  unfold _refresh_library_list_widget; destruct (library_list_widget_qt self); reflexivity.
Qed.

Lemma names_distinct_filter f data :
  names_distinct data -> names_distinct (filter f data).
Proof.
  unfold names_distinct; induction data as [|x l IH]; simpl; [auto|].
  intros H; inversion H as [|? ? N D]; subst.
  destruct (f x); simpl; [constructor|]; auto.
  intros K; apply N; apply in_map_iff in K; destruct K as (i & K1 & K2).
  apply in_map_iff; exists i; split; [exact K1|].
  apply filter_In in K2; apply K2.
Qed.

Lemma names_distinct_add n p data :
  names_distinct data ->
  names_distinct (filter (fun i => negb (same_name n i)) data
                  ++ [{| name := n; prompt := p |}]).
Proof.
  intros H; apply (names_distinct_filter (fun i => negb (same_name n i))) in H.
  unfold names_distinct in *; rewrite map_app; cbn [map name].
  apply NoDup_app; [exact H | constructor; [intros [] | constructor] |].
  intros k K [<- | []]; apply in_map_iff in K; destruct K as (i & K1 & K2).
  apply filter_In in K2; destruct K2 as [_ K2].
  apply negb_true_iff in K2; apply same_name_key in K1; congruence.
Qed.

Lemma save_library_written self write_error d :
  In (file_written d) (_save_library self write_error)
  <-> write_error = None /\ d = prompt_library_data self.
Proof.
  unfold _save_library; destruct write_error; simpl; split.
  - intros [H | []]; discriminate.
  - intros [H _]; discriminate.
  - intros [H | []]; injection H as <-; auto.
  - intros [_ ->]; left; reflexivity.
Qed.

End LibraryFacts.

(** X21: saving to the library.  The library changes exactly when there is
    a prompt in the output area, the name dialog is accepted with a name that
    is not blank, and the name is free or overwriting is confirmed; in every
    other case the library is left as it was and no file is written.  When
    it changes, every item with that name, case ignored, is dropped, the
    other items stay in their order, and the new item, with the stripped
    name and the stripped output, is put last, so exactly one item has the
    name; names that were distinct stay distinct.  The file is written with
    the new data unless writing raises; the "Saved" box is shown even then. *)
Theorem X21_save_to_library (self : Library.LibraryTab) (output : str)
    (dialog : str * bool) (overwrite : bool) (write_error : option str) :
  let name := Py.strip (fst dialog) in
  let new := {| Library.name := name; Library.prompt := Py.strip output |} in
  let saved := Library._save_to_library_dialog self output dialog overwrite write_error in
  let data' := Library.prompt_library_data (fst saved) in
  (save_accepted self output dialog overwrite = false ->
   fst saved = self /\ forall d, ~ In (Library.file_written d) (snd saved))
  /\ (save_accepted self output dialog overwrite = true ->
      data' = filter (fun i => negb (Library.same_name name i))
                (Library.prompt_library_data self) ++ [new]
      /\ filter (Library.same_name name) data' = [new]
      /\ (Library.names_distinct (Library.prompt_library_data self) ->
          Library.names_distinct data')
      /\ (forall d, In (Library.file_written d) (snd saved)
                    <-> write_error = None /\ d = data')
      /\ In (Library.gui (ui (information_box "Saved" ("Prompt '" ++ name ++ "' saved."))))
            (snd saved)).
Proof.
  cbv zeta; unfold save_accepted, Library._save_to_library_dialog.
  destruct dialog as [entered ok]; cbn [fst snd].
  destruct (truthy (Py.strip output)); cbn [negb andb]; cbv iota.
  2:{ split; [|discriminate]; intros _; split; [reflexivity|].
      intros d [H | []]; discriminate. }
  destruct ok; cbn [andb]; cbv iota.
  2:{ split; [|discriminate]; intros _; split; [reflexivity|].
      intros d [H | []]; discriminate. }
  destruct (truthy (Py.strip entered)); cbn [andb]; cbv iota.
  2:{ split; [|discriminate]; intros _; split; [reflexivity|].
      intros d [H | [H | []]]; discriminate. }
  destruct (existsb (Library.same_name (Py.strip entered))
              (Library.prompt_library_data self)) eqn:U; cbn [negb orb andb].
  - destruct overwrite; cbn [negb]; cbv iota.
    2:{ split; [|discriminate]; intros _; split; [reflexivity|].
        intros d [H | [H | []]]; discriminate. }
    split; [discriminate | intros _].
    cbn [fst snd]; rewrite refresh_data; cbn [Library.set_data Library.prompt_library_data].
    split; [reflexivity | split; [|split; [|split]]].
    + rewrite filter_app, filter_out; cbn [filter app].
      replace (Library.same_name (Py.strip entered)
                 {| Library.name := Py.strip entered; Library.prompt := Py.strip output |})
        with true; [reflexivity|].
      symmetry; apply same_name_key; reflexivity.
    + apply names_distinct_add.
    + intros d; rewrite !in_app_iff, save_library_written, refresh_data.
      cbn [Library.set_data Library.prompt_library_data]; split.
      * intros [[H | []] | [[H | []] | [H | [H | [H | []]]]]]; try discriminate; exact H.
      * intros H; right; right; left; exact H.
    + apply in_or_app; right; apply in_or_app; right; apply in_or_app; right.
      left; reflexivity.
  - cbv iota; split; [discriminate | intros _].
    cbn [fst snd]; rewrite refresh_data; cbn [Library.set_data Library.prompt_library_data].
    rewrite (filter_none _ _ U).
    split; [reflexivity | split; [|split; [|split]]].
    + rewrite <- (filter_none _ _ U) at 1.
      rewrite filter_app, filter_out; cbn [filter app].
      replace (Library.same_name (Py.strip entered)
                 {| Library.name := Py.strip entered; Library.prompt := Py.strip output |})
        with true; [reflexivity|].
      symmetry; apply same_name_key; reflexivity.
    + intros D; rewrite <- (filter_none _ _ U); apply names_distinct_add, D.
    + intros d; rewrite !in_app_iff, save_library_written, refresh_data.
      cbn [Library.set_data Library.prompt_library_data]; split.
      * intros [[H | []] | [[] | [H | [H | [H | []]]]]]; try discriminate; exact H.
      * intros H; right; right; left; exact H.
    + apply in_or_app; right; apply in_or_app; right; apply in_or_app; right.
      left; reflexivity.
Qed.

Lemma X21_save_to_library_witness :
  Library.prompt_library_data
    (fst (Library._save_to_library_dialog sample_library " a fox at night "
            ((" red fox " : str), true) true None))
  = [ {| Library.name := "harbour"; Library.prompt := "a quiet harbour at dawn" |};
      {| Library.name := "red fox"; Library.prompt := "a fox at night" |} ]
  /\ fst (Library._save_to_library_dialog sample_library " a fox at night "
            ((" red fox " : str), true) false None)
     = sample_library.
Proof.
  split.
  - apply (proj1 (proj2 (X21_save_to_library sample_library " a fox at night "
                           ((" red fox " : str), true) true None) eq_refl)).
  - apply (proj1 (proj1 (X21_save_to_library sample_library " a fox at night "
                           ((" red fox " : str), true) false None) eq_refl)).
Defined.

(** X22: deleting from the library.  Without a selection, or when the
    question is not answered with Yes, the library is left as it was and no
    file is written.  Otherwise the items equal to the selected one, in name
    and in prompt, are dropped and all others stay, in their order: an item
    of the same name with another prompt is kept.  When the names of the
    library are distinct and the selected item is in it, exactly one item
    goes. *)
Theorem X22_delete_from_library (self : Library.LibraryTab) (selected : Library.item)
    (write_error : option str) :
  let deleted := Library._delete_from_library self (Some selected) true write_error in
  let data := Library.prompt_library_data self in
  let data' := Library.prompt_library_data (fst deleted) in
  (forall i, In i data' <-> In i data /\ i <> selected)
  /\ (exists kept : Library.item -> bool,
        data' = filter kept data /\ forall i, kept i = true <-> i <> selected)
  /\ (Library.names_distinct data -> In selected data ->
      length data' + 1 = length data /\ Library.names_distinct data')
  /\ (forall d, In (Library.file_written d) (snd deleted)
                <-> write_error = None /\ d = data')
  /\ (forall confirmed d,
        In (Library.file_written d)
          (snd (Library._delete_from_library self None confirmed write_error))
        \/ In (Library.file_written d)
             (snd (Library._delete_from_library self (Some selected) false write_error))
        -> False)
  /\ fst (Library._delete_from_library self (Some selected) false write_error) = self
  /\ (forall confirmed,
        fst (Library._delete_from_library self None confirmed write_error) = self).
Proof.
  cbv zeta; unfold Library._delete_from_library; cbn [fst snd].
  rewrite refresh_data; cbn [Library.set_data Library.prompt_library_data].
  assert (K : forall i, negb (Library.item_eqb i selected) = true <-> i <> selected).
  { intros i; rewrite negb_true_iff; split.
    - intros H E; apply item_eqb_eq in E; congruence.
    - intros H; destruct (Library.item_eqb i selected) eqn:E; [|reflexivity].
      apply item_eqb_eq in E; contradiction. }
  split; [|split; [|split; [|split; [|split; [|split]]]]].
  - intros i; rewrite filter_In, K; reflexivity.
  - exists (fun i => negb (Library.item_eqb i selected)); split; [reflexivity | exact K].
  - intros D I; split; [|apply names_distinct_filter, D].
    unfold Library.names_distinct in D.
    induction (Library.prompt_library_data self) as [|x l IH]; [destruct I|].
    cbn [map] in D; inversion D as [|? ? N D']; subst.
    cbn [filter]; destruct I as [-> | I].
    + replace (Library.item_eqb selected selected) with true
        by (symmetry; apply item_eqb_eq; reflexivity).
      cbn [negb length].
      assert (F : filter (fun i => negb (Library.item_eqb i selected)) l = l).
      { apply filter_none; apply not_true_is_false; intros E.
        apply existsb_exists in E; destruct E as (i & I1 & I2).
        apply item_eqb_eq in I2; subst i; apply N.
        apply in_map_iff; exists selected; auto. }
      rewrite F; lia.
    + destruct (Library.item_eqb x selected) eqn:E.
      * apply item_eqb_eq in E; subst x; exfalso; apply N.
        apply in_map_iff; exists selected; auto.
      * cbn [negb length]; specialize (IH D' I); lia.
  - intros d; rewrite !in_app_iff, save_library_written, refresh_data.
    cbn [Library.set_data Library.prompt_library_data]; split.
    + intros [[H | []] | [H | [H | [H | []]]]]; try discriminate; exact H.
    + intros H; right; left; exact H.
  - intros confirmed d [[H | []] | [H | []]]; discriminate.
  - reflexivity.
  - intros confirmed; reflexivity.
Qed.

Lemma X22_delete_from_library_witness :
  length (Library.prompt_library_data
            (fst (Library._delete_from_library sample_library
                    (Some {| Library.name := "Red Fox";
                             Library.prompt := "a red fox in the snow" |})
                    true None))) + 1
  = 2.
Proof.
  apply (proj1 (proj2 (proj2 (X22_delete_from_library sample_library
                                {| Library.name := "Red Fox";
                                   Library.prompt := "a red fox in the snow" |} None)))).
  - unfold Library.names_distinct; repeat constructor; simpl; intuition discriminate.
  - left; reflexivity.
Defined.

(** X23: the list of the library tab.  When the list exists, refreshing it
    shows every item of the library once for each time it is there, ordered
    by name with case ignored; items whose names are equal up to case stay in
    the order they have in the library.  The library itself is not
    reordered. *)
Theorem X23_library_list_in_order (self : Library.LibraryTab) (shown : list Library.item) :
  Library.library_list_widget_qt (Library._refresh_library_list_widget self) = Some shown ->
  Library.in_order shown = true
  /\ length shown = length (Library.prompt_library_data self)
  /\ (forall n, filter (Library.same_name n) shown
                = filter (Library.same_name n) (Library.prompt_library_data self))
  /\ (forall i, In i shown <-> In i (Library.prompt_library_data self))
  /\ Library.prompt_library_data (Library._refresh_library_list_widget self)
     = Library.prompt_library_data self.
Proof.
  intros H; unfold Library._refresh_library_list_widget in H.
  assert (S : shown = Library.sorted (Library.prompt_library_data self)).
  { destruct (Library.library_list_widget_qt self) eqn:E.
    - cbn in H; injection H as <-; reflexivity.
    - rewrite E in H; discriminate. }
  subst shown; split; [apply sorted_in_order | split; [apply sorted_length | split]].
  - intros n; apply sorted_filter.
  - split; [|apply refresh_data].
    intros i.
    assert (R : Library.same_name (Library.name i) i = true)
      by (apply same_name_key; reflexivity).
    split; intros I.
    + assert (J : In i (filter (Library.same_name (Library.name i))
                          (Library.sorted (Library.prompt_library_data self))))
        by (apply filter_In; auto).
      rewrite sorted_filter in J; apply filter_In in J; apply J.
    + assert (J : In i (filter (Library.same_name (Library.name i))
                          (Library.prompt_library_data self)))
        by (apply filter_In; auto).
      rewrite <- sorted_filter in J; apply filter_In in J; apply J.
Qed.

Lemma X23_library_list_in_order_witness :
  Library.in_order
    [ {| Library.name := "harbour"; Library.prompt := "a quiet harbour at dawn" |};
      {| Library.name := "Red Fox"; Library.prompt := "a red fox in the snow" |} ]
  = true.
Proof.
  apply (proj1 (X23_library_list_in_order sample_library eq_refl)).
Defined.

(** * The buttons under the output area *)

(** X24: "Copy" and "Save to Library" work on the stripped text of the
    output area.  What "Copy" puts on the clipboard is that text, never empty
    and with no white space at either end; when the output area holds
    nothing but white space, and so after every "Clear", "Copy" only warns
    and the clipboard is left alone, and "Save to Library" only warns: it
    asks for no name, leaves the library as it is and writes no file. *)
Theorem X24_copy_and_save_need_output (window : PromptCraftAI_Qt)
    (library : Library.LibraryTab) (dialog : str * bool) (overwrite : bool)
    (write_error : option str) :
  (forall text, In (clipboard_set text) (_copy_prompt window) ->
     text = Py.strip (output_text_edit window)
     /\ text <> []
     /\ Py.starts_clean text = true /\ Py.ends_clean text = true)
  /\ (Py.strip (output_text_edit window) = [] ->
      _copy_prompt window = [ui (warning_box "Empty Output" "Nothing to copy.")]
      /\ Library._save_to_library_dialog library (output_text_edit window) dialog
           overwrite write_error
         = (library, [Library.gui (ui (warning_box "Empty Prompt" "No prompt to save."))]))
  /\ _copy_prompt (fst (_clear_output window))
     = [ui (warning_box "Empty Output" "Nothing to copy.")]
  /\ Library._save_to_library_dialog library (output_text_edit (fst (_clear_output window)))
       dialog overwrite write_error
     = (library, [Library.gui (ui (warning_box "Empty Prompt" "No prompt to save."))]).
Proof.
  split; [|split; [|split]].
  - intros text; unfold _copy_prompt.
    destruct (Py.strip (output_text_edit window)) as [|c s] eqn:E; cbn [truthy].
    + intros [H | []]; discriminate.
    + intros [H | [H | [H | []]]]; try discriminate.
      injection H as <-; split; [reflexivity | split; [discriminate|]].
      rewrite <- E; apply PyFacts.strip_clean.
  - intros E; unfold _copy_prompt, Library._save_to_library_dialog; rewrite E.
    split; reflexivity.
  - reflexivity.
  - reflexivity.
Qed.

Lemma X24_copy_and_save_need_output_witness :
  _copy_prompt (setPlainText idle_window "   ")
  = [ui (warning_box "Empty Output" "Nothing to copy.")].
Proof.
  apply (proj1 (proj2 (X24_copy_and_save_need_output (setPlainText idle_window "   ")
                         sample_library (([] : str), false) false None))).
  reflexivity.
Defined.

(** * Admission, from the buttons *)







